(** * HisabApp: delivery ledger and empty-cylinder reconciliation

    A shallow embedding of [main.py] (the Kivy application) and the
    properties of its reconciliation workflow.

    The program keeps its data in one SQLite connection shared by every
    screen, and its screens are objects mutated in place by button
    callbacks.  The embedding mirrors that: a callback is a computation in a
    state-and-exception monad over a [world], which holds the connection,
    the object the method belongs to ([self]) and the log of the message
    popups opened so far.  Widgets that only render (labels, layouts) are
    left out; the text of every input widget a callback reads is kept. *)

From Stdlib Require Import ZArith Lia Bool String Ascii List.
From Stdlib Require Import DecimalString DecimalPos DecimalZ Decimal.
From Stdlib Require Import SpecFloat.
From stdpp Require Import base numbers list sorting.

Local Open Scope string_scope.
Local Open Scope Z_scope.

(** ** Python builtins used by the program *)

Module Py.

(** Exceptions the modelled code can raise. *)
Inductive exn :=
| ValueError        (* int() / float() on text that is not a number *)
| OverflowError     (* int too large for a float, rounded value too large *)
| IndexError        (* list index out of range *)
| OperationalError. (* sqlite3: the storage layer failed *)

(** [str(e)] is only ever shown in a popup. *)
Definition exn_text (e : exn) : string :=
  match e with
  | ValueError => "invalid literal"
  | OverflowError => "value too large"
  | IndexError => "list index out of range"
  | OperationalError => "database error"
  end.

(** *** Text *)

(** ASCII white space as [str.strip] and the number parsers see it:
    tab, line feed, vertical tab, form feed, carriage return, the four
    separators 0x1c..0x1f and the space. *)
Definition is_space (a : ascii) : bool :=
  let n := N_of_ascii a in
  ((9 <=? n) && (n <=? 13) || (28 <=? n) && (n <=? 32))%N.

Fixpoint lstrip (s : string) : string :=
  match s with
  | EmptyString => EmptyString
  | String a r => if is_space a then lstrip r else s
  end.

Fixpoint rstrip (s : string) : string :=
  match s with
  | EmptyString => EmptyString
  | String a r =>
      match rstrip r with
      | EmptyString => if is_space a then EmptyString else String a EmptyString
      | r' => String a r'
      end
  end.

(** [s.strip()] *)
Definition strip (s : string) : string := rstrip (lstrip s).

(** No character of [s] is white space. *)
Fixpoint no_space (s : string) : bool :=
  match s with
  | EmptyString => true
  | String a r => negb (is_space a) && no_space r
  end.

(** Truth value of a string: [if s] holds for every non-empty string. *)
Definition truthy (s : string) : bool :=
  match s with EmptyString => false | _ => true end.

(** [sep.join(l)] *)
Fixpoint join (sep : string) (l : list string) : string :=
  match l with
  | [] => ""
  | [x] => x
  | x :: r => (x ++ sep ++ join sep r)%string
  end.

(** *** Integers *)

(** [int(text)]: optional surrounding white space, an optional sign and
    decimal digits.  (Digit-group underscores are not modelled: the
    [input_filter="int"] of the form fields lets only digits through.) *)
Definition int (text : string) : option Z :=
  match strip text with
  | String "+"%char r => option_map Z.of_uint (NilZero.uint_of_string r)
  | t => option_map Z.of_int (NilZero.int_of_string t)
  end.

(** [str(n)] for an int. *)
Definition str (n : Z) : string := NilZero.string_of_int (Z.to_int n).

(** The value of [int(text or default)], [None] for a [ValueError]. *)
Definition int_or (text : string) (default : Z) : option Z :=
  if truthy text then int text else Some default.

(** [range(n)] *)
Definition range (n : Z) : list Z := map Z.of_nat (seq 0 (Z.to_nat n)).

(** [l[i]]: the position read by an index, negative indices counting
    from the end; [None] is an [IndexError]. *)
Definition index {A} (l : list A) (i : Z) : option nat :=
  let n := Z.of_nat (length l) in
  if (0 <=? i) && (i <? n) then Some (Z.to_nat i)
  else if (- n <=? i) && (i <? 0) then Some (Z.to_nat (n + i))
  else None.

(** *** Floats: IEEE 754 binary64 *)

Definition float := spec_float.
Definition prec : Z := 53.
Definition emax : Z := 1024.

Definition fadd : float -> float -> float := SFadd prec emax.
Definition fmul : float -> float -> float := SFmul prec emax.

Definition is_infinity (x : float) : bool :=
  match x with S754_infinity _ => true | _ => false end.

(** The double nearest to the fraction [num / den] ([den > 0]), ties to
    even: what [float(text)] does with a decimal literal and what
    [round] does with the decimal it has rounded to. *)
Definition nearest (sign : bool) (num : Z) (den : positive) : float :=
  match num with
  | Zpos n => SFdiv prec emax (S754_finite sign n 0) (S754_finite false den 0)
  | _ => S754_zero sign
  end.

(** [float(n)] for an int [n], as in [n * price]: correctly rounded,
    [OverflowError] when out of range. *)
Definition float_of_int (n : Z) : option float :=
  let x := binary_normalize prec emax n 0 false in
  if is_infinity x then None else Some x.

(** Digits of a decimal literal: the integer they spell and how many
    there are. *)
Fixpoint digits (acc : Z) (s : string) : option (Z * nat) :=
  match s with
  | EmptyString => Some (acc, O)
  | String a r =>
      let n := Z.of_N (N_of_ascii a) in
      if (48 <=? n) && (n <=? 57) then
        match digits (10 * acc + (n - 48)) r with
        | Some (v, k) => Some (v, S k)
        | None => None
        end
      else None
  end.

(** Splits a string at its first ['.']. *)
Fixpoint split_point (s : string) : string * option string :=
  match s with
  | EmptyString => (EmptyString, None)
  | String a r =>
      if Ascii.eqb a "."%char then (EmptyString, Some r)
      else let '(i, f) := split_point r in (String a i, f)
  end.

Definition unsigned_float (sign : bool) (s : string) : option float :=
  let '(ip, fp) := split_point s in
  let fp := match fp with Some f => f | None => EmptyString end in
  match digits 0 ip with
  | Some (iv, ik) =>
      match digits iv fp with
      | Some (v, fk) =>
          if (ik + fk =? 0)%nat then None
          else Some (nearest sign v (Z.to_pos (10 ^ Z.of_nat fk)))
      | None => None
      end
  | None => None
  end.

(** [float(text)] on plain decimal literals: white space, a sign, digits
    with at most one point.  (Exponents, [inf] and [nan] are not
    modelled: [input_filter="float"] lets digits and one point through.) *)
Definition float_of_text (text : string) : option float :=
  match strip text with
  | String "-"%char r => unsigned_float true r
  | String "+"%char r => unsigned_float false r
  | t => unsigned_float false t
  end.

(** The value of [float(text or default)]. *)
Definition float_or (text : string) (default : float) : option float :=
  if truthy text then float_of_text text else Some default.

(** [num / den] rounded to an integer, ties to the even neighbour. *)
Definition round_half_even (num : Z) (den : positive) : Z :=
  let q := num / Zpos den in
  let r := num mod Zpos den in
  match 2 * r ?= Zpos den with
  | Lt => q
  | Gt => q + 1
  | Eq => if Z.even q then q else q + 1
  end.

(** [|x| * 10^ndigits] rounded to an integer, from the exact value
    [m * 2^e] of the double: no intermediate rounding. *)
Definition scaled (m : positive) (e : Z) (ndigits : nat) : Z :=
  let p := Zpos m * 10 ^ Z.of_nat ndigits in
  match e with
  | Zneg k => round_half_even p (Pos.pow 2 k)
  | _ => p * 2 ^ e
  end.

(** [round(x, ndigits)] for a float and [ndigits >= 0].  CPython prints
    the exact binary value of [x] with [ndigits] correctly rounded
    decimals (ties to even) and reads the decimal back as the nearest
    double; infinities and NaN round to themselves; a result that does
    not fit raises [OverflowError]. *)
Definition round (x : float) (ndigits : nat) : option float :=
  match x with
  | S754_finite s m e =>
      let r := nearest s (scaled m e ndigits)
                 (Z.to_pos (10 ^ Z.of_nat ndigits)) in
      if is_infinity r then None else Some r
  | _ => Some x
  end.

End Py.

(** ** The SQLite connection

    [conn] is the module-level connection and [cur] its cursor.  Python's
    [sqlite3] opens a transaction before the first INSERT or UPDATE and
    keeps it open until [conn.commit()]; the program never calls
    [conn.rollback()].  A connection therefore has two table states: what
    has been committed, and what the cursor reads and writes.  A statement
    that raises changes nothing itself and leaves the statements executed
    before it in the open transaction.  Integers are taken to fit the 64
    bits of an INTEGER column. *)

Module Sqlite.

(** A row of [records]. *)
Record record_row := {
  id : Z;
  employee : string;
  total_cyl : Z;
  empty_received : Z;
  online_pay : Z;
  paytm_pay : Z;
  partial_amt : Py.float;
  final_amt : Py.float;
  collected_amt : Py.float;
  date_time : string }.

(** A row of [remarks]. *)
Record remark_row := {
  remark_id : Z;
  record_id : Z;
  seq : Z;
  remark_type : string;
  consumer_name : string;
  created_at : string }.

(** The tables the modelled screens use.  The [settings] table is read
    for the key [cylinder_price] only, kept here as the float its text
    parses to; [records_seq] and [remarks_seq] are the AUTOINCREMENT
    counters. *)
Record tables := {
  records : list record_row;
  remarks : list remark_row;
  cylinder_price : option Py.float;
  records_seq : Z;
  remarks_seq : Z }.

(** [faults] is the behaviour of the storage layer: one entry is consumed
    by each statement and each commit, [true] making it raise
    [OperationalError]; after the last entry nothing fails. *)
Record connection := {
  committed : tables;
  pending : tables;
  faults : list bool }.

Definition with_pending (c : connection) (t : tables) (fs : list bool) :=
  {| committed := committed c; pending := t; faults := fs |}.

(** AUTOINCREMENT: one more than the largest key the table has ever
    held. *)
Definition next_key (counter : Z) (keys : list Z) : Z :=
  foldr Z.max counter keys + 1.

(** [INSERT INTO records (...) VALUES (...)]; gives [cur.lastrowid]. *)
Definition insert_record (emp : string) (delivered pre_empty online paytm : Z)
    (partial final collected : Py.float) (now : string)
    (t : tables) : Z * tables :=
  let rid := next_key (records_seq t) (map id (records t)) in
  (rid,
   {| records := records t ++
        [{| id := rid; employee := emp; total_cyl := delivered;
            empty_received := pre_empty; online_pay := online;
            paytm_pay := paytm; partial_amt := partial; final_amt := final;
            collected_amt := collected; date_time := now |}];
      remarks := remarks t;
      cylinder_price := cylinder_price t;
      records_seq := rid;
      remarks_seq := remarks_seq t |}).

Definition set_empty_received (v : Z) (r : record_row) : record_row :=
  {| id := id r; employee := employee r; total_cyl := total_cyl r;
     empty_received := v; online_pay := online_pay r;
     paytm_pay := paytm_pay r; partial_amt := partial_amt r;
     final_amt := final_amt r; collected_amt := collected_amt r;
     date_time := date_time r |}.

(** [UPDATE records SET empty_received=? WHERE id=?] *)
Definition update_empty_received (new_empty rec_id : Z)
    (t : tables) : unit * tables :=
  (tt,
   {| records :=
        map (fun r => if id r =? rec_id then set_empty_received new_empty r
                      else r) (records t);
      remarks := remarks t;
      cylinder_price := cylinder_price t;
      records_seq := records_seq t;
      remarks_seq := remarks_seq t |}).

(** [INSERT INTO remarks (record_id, seq, remark_type, consumer_name,
    created_at) VALUES (?, ?, ?, ?, ?)] *)
Definition insert_remark (rec_id sq : Z) (rtype cname now : string)
    (t : tables) : unit * tables :=
  let rid := next_key (remarks_seq t) (map remark_id (remarks t)) in
  (tt,
   {| records := records t;
      remarks := remarks t ++
        [{| remark_id := rid; record_id := rec_id; seq := sq;
            remark_type := rtype; consumer_name := cname;
            created_at := now |}];
      cylinder_price := cylinder_price t;
      records_seq := records_seq t;
      remarks_seq := rid |}).

(** [SELECT empty_received FROM records WHERE id=?] then [fetchone()] *)
Definition select_empty_received (rec_id : Z) (t : tables)
    : option Z * tables :=
  (option_map empty_received
     (List.find (fun r => id r =? rec_id) (records t)), t).

(** [SELECT value FROM settings WHERE key='cylinder_price'] *)
Definition select_price (t : tables) : option Py.float * tables :=
  (cylinder_price t, t).

(** The LIKE operator: [%] matches any run of characters, [_] any one
    character, and letters match without regard to (ASCII) case. *)
Definition lower (a : ascii) : ascii :=
  let n := N_of_ascii a in
  if ((65 <=? n) && (n <=? 90))%N then ascii_of_N (n + 32) else a.

Fixpoint like (pat text : string) : bool :=
  match pat with
  | EmptyString => match text with EmptyString => true | _ => false end
  | String p pat' =>
      if Ascii.eqb p "%" then
        (fix any (text : string) : bool :=
           like pat' text ||
           match text with
           | EmptyString => false
           | String _ text' => any text'
           end) text
      else
        match text with
        | EmptyString => false
        | String c text' =>
            (Ascii.eqb p "_" || Ascii.eqb (lower p) (lower c))
            && like pat' text'
        end
  end.

(** [ORDER BY] an integer column: rows in ascending order of the key. *)
Definition key_le {A} (key : A -> Z) : relation A :=
  fun x y => key x <= key y.

#[global] Instance key_le_dec {A} (key : A -> Z) x y :
  Decision (key_le key x y) := Z_le_dec (key x) (key y).

Definition order_by {A} (key : A -> Z) (l : list A) : list A :=
  merge_sort (key_le key) l.

(** [SELECT ... FROM records WHERE date_time LIKE ? ORDER BY id] *)
Definition select_by_date (pat : string) (t : tables)
    : list record_row * tables :=
  (order_by id (List.filter (fun r => like pat (date_time r)) (records t)), t).

(** [SELECT remark_type, consumer_name FROM remarks WHERE record_id=?
    ORDER BY seq] *)
Definition select_remarks (rec_id : Z) (t : tables)
    : list (string * string) * tables :=
  (map (fun r => (remark_type r, consumer_name r))
     (order_by seq (List.filter (fun r => record_id r =? rec_id) (remarks t))),
   t).

End Sqlite.

(** ** Callbacks as computations *)

(** [Popup(title=..., content=Label(text=...)).open()] *)
Record notice := { title : string; text : string }.

(** What a callback can read and change: the connection, its own object
    and the message popups shown so far (oldest first). *)
Record world (Self : Type) := World {
  db : Sqlite.connection;
  self : Self;
  popups : list notice }.
Arguments World {Self} _ _ _.
Arguments db {Self} _.
Arguments self {Self} _.
Arguments popups {Self} _.

Inductive result (A : Type) :=
| Ok (a : A)
| Raise (e : Py.exn).
Arguments Ok {A} _.
Arguments Raise {A} _.

(** A computation returns or raises; either way the changes it made to the
    world before that stay, as in Python. *)
Definition M (Self A : Type) : Type := world Self -> result A * world Self.

#[global] Instance M_ret {Self} : MRet (M Self) :=
  fun A a w => (Ok a, w).

#[global] Instance M_bind {Self} : MBind (M Self) :=
  fun A B k m w =>
    match m w with
    | (Ok a, w') => k a w'
    | (Raise e, w') => (Raise e, w')
    end.

Definition raise {Self A} (e : Py.exn) : M Self A :=
  fun w => (Raise e, w).

(** [try: body  except Exception as e: handler(e)] *)
Definition try_except {Self A} (body : M Self A) (handler : Py.exn -> M Self A)
    : M Self A :=
  fun w =>
    match body w with
    | (Ok a, w') => (Ok a, w')
    | (Raise e, w') => handler e w'
    end.

Definition get_self {Self} : M Self Self :=
  fun w => (Ok (self w), w).

Definition set_self {Self} (f : Self -> Self) : M Self unit :=
  fun w => (Ok tt, World (db w) (f (self w)) (popups w)).

Definition of_option {Self A} (o : option A) (e : Py.exn) : M Self A :=
  match o with
  | Some a => mret a
  | None => raise e
  end.

Definition show_popup {Self} (title text : string) : M Self unit :=
  fun w => (Ok tt, World (db w) (self w)
                     (popups w ++ [{| title := title; text := text |}])).

(** [cur.execute(stmt, params)] *)
Definition cur_execute {Self A} (stmt : Sqlite.tables -> A * Sqlite.tables)
    : M Self A :=
  fun w =>
    let c := db w in
    match Sqlite.faults c with
    | true :: fs =>
        (Raise Py.OperationalError,
         World (Sqlite.with_pending c (Sqlite.pending c) fs) (self w) (popups w))
    | fs =>
        let '(a, t) := stmt (Sqlite.pending c) in
        (Ok a, World (Sqlite.with_pending c t (tail fs)) (self w) (popups w))
    end.

(** [conn.commit()] *)
Definition conn_commit {Self} : M Self unit :=
  fun w =>
    let c := db w in
    match Sqlite.faults c with
    | true :: fs =>
        (Raise Py.OperationalError,
         World (Sqlite.with_pending c (Sqlite.pending c) fs) (self w) (popups w))
    | fs =>
        (Ok tt,
         World {| Sqlite.committed := Sqlite.pending c;
                  Sqlite.pending := Sqlite.pending c;
                  Sqlite.faults := tail fs |} (self w) (popups w))
    end.

(** [int(text or default)] and [float(text or default)]: the default
    stands in for an empty text; text that does not parse raises
    [ValueError]. *)
Definition int_or {Self} (text : string) (default : Z) : M Self Z :=
  of_option (Py.int_or text default) Py.ValueError.

Definition float_or {Self} (text : string) (default : Py.float)
    : M Self Py.float :=
  of_option (Py.float_or text default) Py.ValueError.

(** [for i, x in enumerate(l): body(i, x)] *)
Fixpoint for_each {Self A} (body : nat -> A -> M Self unit) (i : nat)
    (l : list A) : M Self unit :=
  match l with
  | [] => mret tt
  | x :: r => body i x;; for_each body (S i) r
  end.

(** The float [0.0] and the default price [877.5]. *)
Definition zero : Py.float := S754_zero false.
Definition price_877_5 : Py.float := Py.nearest false 8775 10.

(** [get_price()]: the stored price, [877.5] when the key is absent. *)
Definition get_price {Self} : M Self Py.float :=
  r ← cur_execute Sqlite.select_price;
  mret (match r with Some v => v | None => price_877_5 end).

(** ** [ReconcilePopup] *)

Module ReconcilePopup.

Inductive step_mode := missing | extra.

(** One entry of [self.steps]. *)
Record step := {
  seq : Z;
  mode : step_mode;
  options : list string;
  selected : option string;
  consumer : string }.

(** The popup object: its attributes, the text of its input widgets
    ([empty_edit], the [drop] spinner, [name_input]) and whether it is
    on screen.  The spinner and the name field exist from [open_steps_ui]
    on; before that they are modelled as empty. *)
Record t := {
  record_id : Z;
  delivered : Z;
  empty_received : Z;
  diff : Z;
  steps : list step;
  current_index : Z;
  empty_edit : string;
  drop_text : string;
  drop_values : list string;
  name_input : string;
  is_open : bool }.

(** [__init__(manager, record_id, delivered_count, empty_received_count)];
    [int(n or 0)] is [n] for an int. *)
Definition init (rec_id delivered_count empty_received_count : Z) : t :=
  {| record_id := rec_id;
     delivered := delivered_count;
     empty_received := empty_received_count;
     diff := empty_received_count - delivered_count;
     steps := [];
     current_index := 0;
     empty_edit := Py.str empty_received_count;
     drop_text := "";
     drop_values := [];
     name_input := "";
     is_open := false |}.

Definition set_open (b : bool) (p : t) : t :=
  {| record_id := record_id p; delivered := delivered p;
     empty_received := empty_received p; diff := diff p; steps := steps p;
     current_index := current_index p; empty_edit := empty_edit p;
     drop_text := drop_text p; drop_values := drop_values p;
     name_input := name_input p; is_open := b |}.

Definition set_counts (e d : Z) (l : list step) (p : t) : t :=
  {| record_id := record_id p; delivered := delivered p;
     empty_received := e; diff := d; steps := l;
     current_index := current_index p; empty_edit := empty_edit p;
     drop_text := drop_text p; drop_values := drop_values p;
     name_input := name_input p; is_open := is_open p |}.

Definition set_steps (l : list step) (p : t) : t :=
  set_counts (empty_received p) (diff p) l p.

Definition set_current_index (i : Z) (p : t) : t :=
  {| record_id := record_id p; delivered := delivered p;
     empty_received := empty_received p; diff := diff p; steps := steps p;
     current_index := i; empty_edit := empty_edit p;
     drop_text := drop_text p; drop_values := drop_values p;
     name_input := name_input p; is_open := is_open p |}.

Definition set_widgets (dtext : string) (dvalues : list string)
    (name : string) (p : t) : t :=
  {| record_id := record_id p; delivered := delivered p;
     empty_received := empty_received p; diff := diff p; steps := steps p;
     current_index := current_index p; empty_edit := empty_edit p;
     drop_text := dtext; drop_values := dvalues;
     name_input := name; is_open := is_open p |}.

Definition set_empty_edit (s : string) (p : t) : t :=
  {| record_id := record_id p; delivered := delivered p;
     empty_received := empty_received p; diff := diff p; steps := steps p;
     current_index := current_index p; empty_edit := s;
     drop_text := drop_text p; drop_values := drop_values p;
     name_input := name_input p; is_open := is_open p |}.

(** [rp.open()] and [self.dismiss()] *)
Definition open : M t unit := set_self (set_open true).
Definition dismiss : M t unit := set_self (set_open false).

(** [s.get("selected")] as a condition: [None] and [""] are false. *)
Definition chosen (s : step) : bool :=
  match selected s with
  | Some r => Py.truthy r
  | None => false
  end.

Definition missing_options : list string := ["NC"; "DBC"; "TV"; "Empty baki"].
Definition extra_options : list string :=
  ["TV"; "Empty Return"; "NC"; "DBC"; "Empty baki"].

Definition new_step (k : step_mode) (opts : list string) (i : Z) : step :=
  {| seq := i + 1; mode := k; options := opts; selected := None;
     consumer := "" |}.

(** [self.steps[i]] *)
Definition get_step (i : Z) : M t step :=
  p ← get_self;
  of_option (n ← Py.index (steps p) i; steps p !! n) Py.IndexError.

Definition load_step (idx : Z) : M t unit :=
  p ← get_self;
  if (idx <? 0) || (idx >=? Z.of_nat (length (steps p))) then mret tt
  else
    s ← get_step idx;
    set_self (set_widgets
                (if chosen s then default "" (selected s) else "Choose reason")
                (options s) (consumer s)).

Definition open_steps_ui : M t unit :=
  s ← get_step 0;
  set_self (set_widgets "Choose reason" (options s) "");;
  set_self (set_current_index 0);;
  load_step 0.

Definition update_and_prepare : M t unit :=
  p ← get_self;
  parsed ← try_except
    (new_empty ← int_or (empty_edit p) 0; mret (Some new_empty))
    (fun _ => show_popup "Error" "Invalid empties count";; mret None);
  match parsed with
  | None => mret tt
  | Some new_empty =>
      updated ← try_except
        (cur_execute (Sqlite.update_empty_received new_empty (record_id p));;
         conn_commit;;
         set_self (fun p => set_counts new_empty (diff p) (steps p) p);;
         mret true)
        (fun e => show_popup "DB Error" (Py.exn_text e);; mret false);
      if negb updated then mret tt
      else
        set_self (fun p => set_counts (empty_received p)
                             (empty_received p - delivered p) [] p);;
        p ← get_self;
        if diff p =? 0 then
          show_popup "Info"
            "Empty count equals delivered — no remarks required.";;
          dismiss
        else
          (if diff p <? 0 then
             let missing_count := Z.abs (diff p) in
             set_self (set_steps (map (new_step missing missing_options)
                                    (Py.range missing_count)))
           else
             let extra_count := diff p in
             set_self (set_steps (map (new_step extra extra_options)
                                    (Py.range extra_count))));;
          open_steps_ui
  end.

Definition set_answer (sel : option string) (name : string) (s : step) : step :=
  {| seq := seq s; mode := mode s; options := options s; selected := sel;
     consumer := name |}.

Definition save_current : M t unit :=
  p ← get_self;
  n ← of_option (Py.index (steps p) (current_index p)) Py.IndexError;
  let sel := if String.eqb (drop_text p) "Choose reason" then None
             else Some (drop_text p) in
  set_self (set_steps
              (alter (set_answer sel (Py.strip (name_input p))) n (steps p))).

Definition go_next : M t unit :=
  save_current;;
  p ← get_self;
  s ← get_step (current_index p);
  if negb (chosen s) then
    show_popup "Required" "Please select a reason before proceeding."
  else
    set_self (set_current_index
                (Z.min (current_index p + 1) (Z.of_nat (length (steps p)) - 1)));;
    p ← get_self;
    load_step (current_index p).

Definition go_prev : M t unit :=
  save_current;;
  set_self (fun p => set_current_index (Z.max (current_index p - 1) 0) p);;
  p ← get_self;
  load_step (current_index p).

(** The body of the insertion loop of [save_all], for step [s] in round
    [i]; [now i] is what [datetime.now().strftime(...)] gives there. *)
Definition insert_step (now : nat -> string) (rec_id : Z) (i : nat) (s : step)
    : M t unit :=
  cur_execute
    (Sqlite.insert_remark rec_id (seq s) (default "" (selected s))
       (consumer s) (now i)).

Definition save_all (now : nat -> string) : M t unit :=
  save_current;;
  p ← get_self;
  if negb (forallb chosen (steps p)) then
    show_popup "Required"
      "All entries must have a reason selected before saving."
  else
    try_except
      (for_each (insert_step now (record_id p)) 0%nat (steps p);;
       conn_commit;;
       show_popup "Saved" "Reconciliation saved.";;
       dismiss)
      (fun e => show_popup "Error" (Py.exn_text e)).

(** What the operator does between button presses. *)
Definition edit_empties (s : string) : M t unit :=
  set_self (set_empty_edit s).

Definition pick_reason (r : string) : M t unit :=
  set_self (fun p => if existsb (String.eqb r) (drop_values p)
                     then set_widgets r (drop_values p) (name_input p) p
                     else p).

Definition type_name (s : string) : M t unit :=
  set_self (fun p => set_widgets (drop_text p) (drop_values p) s p).

End ReconcilePopup.

(** ** [NewEntryScreen] *)

Module NewEntryScreen.

(** The screen object: the text of its input widgets and
    [self.final_amount]. *)
Record t := {
  emp_spinner : string;
  total_input : string;
  empty_input : string;
  online_input : string;
  paytm_input : string;
  partial_input : string;
  collected_input : string;
  final_amount : Py.float }.

(** [__init__]: the widgets as they are created. *)
Definition init : t :=
  {| emp_spinner := "Choose"; total_input := ""; empty_input := "0";
     online_input := "0"; paytm_input := "0"; partial_input := "0";
     collected_input := ""; final_amount := zero |}.

Definition set_final_amount (v : Py.float) (f : t) : t :=
  {| emp_spinner := emp_spinner f; total_input := total_input f;
     empty_input := empty_input f; online_input := online_input f;
     paytm_input := paytm_input f; partial_input := partial_input f;
     collected_input := collected_input f; final_amount := v |}.

Definition calculate : M t unit :=
  try_except
    (f ← get_self;
     total ← int_or (total_input f) 0;
     online ← int_or (online_input f) 0;
     paytm ← int_or (paytm_input f) 0;
     partial ← float_or (partial_input f) zero;
     if online + paytm >? total then
       show_popup "Input error"
         "Online + PayTM full count cannot exceed total deliveries."
     else
       let cash_cylinders := total - online - paytm in
       price ← get_price;
       cash ← of_option (Py.float_of_int cash_cylinders) Py.OverflowError;
       let cash_amount := Py.fmul cash price in
       final ← of_option (Py.round (Py.fadd cash_amount partial) 2)
                 Py.OverflowError;
       set_self (set_final_amount final))
    (fun e => show_popup "Error" ("Invalid input. " ++ Py.exn_text e)).

(** [now] is what [datetime.now().strftime(...)] gives.  The value
    returned is the [ReconcilePopup] the callback opened, if it got that
    far. *)
Definition on_submit (now : string) : M t (option ReconcilePopup.t) :=
  try_except calculate (fun _ => mret tt);;
  f ← get_self;
  collected ← try_except (float_or (collected_input f) zero)
                (fun _ => mret zero);
  let final := final_amount f in
  let emp := if String.eqb (emp_spinner f) "Choose" then ""
             else emp_spinner f in
  delivered ← int_or (total_input f) 0;
  pre_empty ← try_except (int_or (empty_input f) delivered)
                (fun _ => mret delivered);
  saved ← try_except
    (online ← int_or (online_input f) 0;
     paytm ← int_or (paytm_input f) 0;
     partial ← float_or (partial_input f) zero;
     rec_id ← cur_execute
       (Sqlite.insert_record emp delivered pre_empty online paytm partial
          final collected now);
     conn_commit;;
     mret (Some rec_id))
    (fun e => show_popup "DB Error" (Py.exn_text e);; mret None);
  match saved with
  | None => mret None
  | Some rec_id =>
      rr ← cur_execute (Sqlite.select_empty_received rec_id);
      let stored_empty := match rr with Some v => v | None => delivered end in
      let rp := ReconcilePopup.init rec_id delivered stored_empty in
      mret (Some (ReconcilePopup.set_open true rp))
  end.

End NewEntryScreen.

(** ** [ViewByDateScreen] *)

Module ViewByDateScreen.

(** One line of the table: its serial number, the record it shows and
    the text of its Remarks cell. *)
Record table_row := {
  sr : Z;
  rec : Sqlite.record_row;
  remarks_text : string }.

(** One remark, as the Remarks cell shows it. *)
Definition remark_text (r : string * string) : string :=
  let '(rt, cn) := r in
  if Py.truthy cn && Py.truthy (Py.strip cn) then (rt ++ ": " ++ cn)%string
  else rt.

(** [for idx, r in enumerate(rows, start=idx): ...]: one table line per
    record, its remarks fetched and joined. *)
Fixpoint render_rows (idx : Z) (rows : list Sqlite.record_row)
    : M unit (list table_row) :=
  match rows with
  | [] => mret []
  | r :: rest =>
      rem_rows ← cur_execute (Sqlite.select_remarks (Sqlite.id r));
      let remarks_list := map remark_text rem_rows in
      let line := {| sr := idx; rec := r;
                     remarks_text := Py.join ", " remarks_list |} in
      lines ← render_rows (idx + 1) rest;
      mret (line :: lines)
  end.

(** The rows [load_records] puts in the table (the header, the totals
    and the cell formats are rendering). *)
Definition load_records (yyyy_mm_dd : string) : M unit (list table_row) :=
  let like := (yyyy_mm_dd ++ "%")%string in
  rows ← cur_execute (Sqlite.select_by_date like);
  render_rows 1 rows.

End ViewByDateScreen.

(** ** Vocabulary of the specification *)

Module Spec.

(** The reason codes of the glossary and the text the program shows and
    stores for each. *)
Inductive reason_code := NC | DBC | TV | EmptyReturned | EmptyPending.

Definition label (r : reason_code) : string :=
  match r with
  | NC => "NC"
  | DBC => "DBC"
  | TV => "TV"
  | EmptyReturned => "Empty Return"
  | EmptyPending => "Empty baki"
  end.

(** [num / den] rounded to an integer, ties upwards. *)
Definition round_half_up (num : Z) (den : positive) : Z :=
  (2 * num + Zpos den) / (2 * Zpos den).

(** The amount due as the specification words it, in hundredths:
    [cash * price + partial] in exact decimal arithmetic, rounded half
    up at two decimals; [price = pn / pd] and [partial = qn / qd]. *)
Definition amount_due_half_up (cash pn : Z) (pd : positive) (qn : Z)
    (qd : positive) : Z :=
  round_half_up ((cash * pn * Zpos qd + qn * Zpos pd) * 100) (pd * qd).

End Spec.

(** ** Running callbacks *)

(** The world a callback leaves. *)
Definition exec {Self A} (m : M Self A) (w : world Self) : world Self :=
  snd (m w).

(** The first [n] statements and commits of a connection do not fail. *)
Definition calm (n : nat) (c : Sqlite.connection) : Prop :=
  forallb negb (take n (Sqlite.faults c)) = true.

(** The tables at first start: no rows, the price set to its default. *)
Definition empty_tables : Sqlite.tables :=
  {| Sqlite.records := []; Sqlite.remarks := [];
     Sqlite.cylinder_price := Some price_877_5;
     Sqlite.records_seq := 0; Sqlite.remarks_seq := 0 |}.

Definition fresh_conn (fs : list bool) : Sqlite.connection :=
  {| Sqlite.committed := empty_tables; Sqlite.pending := empty_tables;
     Sqlite.faults := fs |}.

(** [n] is an integer nearest to [num / den], the even one of the two when
    [num / den] lies half way. *)
Definition nearest_even (num : Z) (den : positive) (n : Z) : Prop :=
  Z.abs (2 * (num - n * Zpos den)) <= Zpos den /\
  (Z.abs (2 * (num - n * Zpos den)) = Zpos den -> Z.even n = true).

(** ** Sample sessions *)

(** A filled-in entry form: [delivered] cylinders, [empties] received. *)
Definition entry_form (delivered empties online paytm partial : string)
    : NewEntryScreen.t :=
  {| NewEntryScreen.emp_spinner := "ABC Employee";
     NewEntryScreen.total_input := delivered;
     NewEntryScreen.empty_input := empties;
     NewEntryScreen.online_input := online;
     NewEntryScreen.paytm_input := paytm;
     NewEntryScreen.partial_input := partial;
     NewEntryScreen.collected_input := "100";
     NewEntryScreen.final_amount := zero |}.

(** The entry screen showing form [f], on a new database whose storage
    behaves as [fs]. *)
Definition entry_screen (f : NewEntryScreen.t) (fs : list bool)
    : world NewEntryScreen.t :=
  World (fresh_conn fs) f [].

(** The reconciliation popup that submitting [f] opens. *)
Definition submitted (f : NewEntryScreen.t) (fs : list bool)
    : world ReconcilePopup.t :=
  let '(r, w) := NewEntryScreen.on_submit "2024-01-01 10:00:00"
                   (entry_screen f fs) in
  World (db w)
    (match r with
     | Ok (Some rp) => rp
     | _ => ReconcilePopup.init 0 0 0
     end) (popups w).

(** ** Notions used to state the properties *)

Module Notions.
Import ReconcilePopup.

(** The current index names a slot. *)
Definition in_bounds (p : t) : Prop :=
  0 <= current_index p < Z.of_nat (length (steps p)).

(** The widgets after [load_step] has shown slot [s]. *)
Definition shown (s : step) (p : t) : t :=
  set_widgets (if chosen s then default "" (selected s) else "Choose reason")
    (options s) (consumer s) p.

(** What [save_current] stores in the slot on screen. *)
Definition answer (p : t) : step -> step :=
  set_answer
    (if String.eqb (drop_text p) "Choose reason" then None
     else Some (drop_text p))
    (Py.strip (name_input p)).

(** The popup after [save_current]. *)
Definition saved (p : t) : t :=
  set_steps (alter (answer p) (Z.to_nat (current_index p)) (steps p)) p.

(** A reason is selected in the spinner. *)
Definition reason_selected (p : t) : bool :=
  if String.eqb (drop_text p) "Choose reason" then false
  else Py.truthy (drop_text p).

(** What the operator can do while the slots are on screen. *)
Inductive event :=
| PressNext
| PressPrevious
| PickReason (r : string)
| TypeName (s : string).

Definition handle (e : event) : M t unit :=
  match e with
  | PressNext => go_next
  | PressPrevious => go_prev
  | PickReason r => pick_reason r
  | TypeName s => type_name s
  end.

Definition session (l : list event) : M t unit :=
  for_each (fun _ e => handle e) 0%nat l.

(** The columns of a remark that describe its slot, and those columns
    for a slot of record [rec_id] as [save_all] writes them. *)
Definition slot_fields (r : Sqlite.remark_row) : Z * Z * string * string :=
  (Sqlite.record_id r, Sqlite.seq r, Sqlite.remark_type r,
   Sqlite.consumer_name r).

Definition slot_of (rec_id : Z) (s : step) : Z * Z * string * string :=
  (rec_id, seq s, default "" (selected s), consumer s).

(** The notices of the popup. *)
Definition required_to_proceed : notice :=
  {| title := "Required";
     text := "Please select a reason before proceeding." |}.

Definition required_to_save : notice :=
  {| title := "Required";
     text := "All entries must have a reason selected before saving." |}.

Definition saved_notice : notice :=
  {| title := "Saved"; text := "Reconciliation saved." |}.

Definition input_error : notice :=
  {| title := "Input error";
     text := "Online + PayTM full count cannot exceed total deliveries." |}.

(** The price [calculate] reads. *)
Definition current_price (c : Sqlite.connection) : Py.float :=
  match Sqlite.cylinder_price (Sqlite.pending c) with
  | Some v => v
  | None => price_877_5
  end.

(** The connection after one statement that changed no table. *)
Definition after_read (c : Sqlite.connection) : Sqlite.connection :=
  Sqlite.with_pending c (Sqlite.pending c) (tail (Sqlite.faults c)).

(** Two states of the entry screen with the same text in every input. *)
Definition same_inputs (f f' : NewEntryScreen.t) : Prop :=
  NewEntryScreen.emp_spinner f' = NewEntryScreen.emp_spinner f /\
  NewEntryScreen.total_input f' = NewEntryScreen.total_input f /\
  NewEntryScreen.empty_input f' = NewEntryScreen.empty_input f /\
  NewEntryScreen.online_input f' = NewEntryScreen.online_input f /\
  NewEntryScreen.paytm_input f' = NewEntryScreen.paytm_input f /\
  NewEntryScreen.partial_input f' = NewEntryScreen.partial_input f /\
  NewEntryScreen.collected_input f' = NewEntryScreen.collected_input f.

(** Connection [c'] is connection [c] after at most one statement that
    changed no table. *)
Definition read_only (c c' : Sqlite.connection) : Prop :=
  Sqlite.committed c' = Sqlite.committed c /\
  Sqlite.pending c' = Sqlite.pending c /\
  (Sqlite.faults c' = Sqlite.faults c \/
   Sqlite.faults c' = tail (Sqlite.faults c)).

(** The value [on_submit] stores as [empty_received]: what the form
    says, the delivered count when the field is empty or not a number. *)
Definition pre_empty (f : NewEntryScreen.t) (delivered : Z) : Z :=
  match Py.int_or (NewEntryScreen.empty_input f) delivered with
  | Some v => v
  | None => delivered
  end.

(** The characters of a date as [strftime("%Y-%m-%d")] writes it:
    digits and the hyphen. *)
Definition date_char (a : ascii) : bool :=
  let n := N_of_ascii a in
  ((48 <=? n) && (n <=? 57) || (n =? 45))%N.

Fixpoint date_text (s : string) : bool :=
  match s with
  | EmptyString => true
  | String a r => date_char a && date_text r
  end.

(** [querySlots] on the rows themselves: the remarks of a record in
    the order of their sequence numbers. *)
Definition slots_of (rec_id : Z) (t : Sqlite.tables)
    : list Sqlite.remark_row :=
  Sqlite.order_by Sqlite.seq
    (List.filter (fun r => Sqlite.record_id r =? rec_id) (Sqlite.remarks t)).

(** A slot in the remark summary: its reason, followed by a colon and
    the consumer's name unless the name is empty. *)
Definition slot_text (r : Sqlite.remark_row) : string :=
  match Sqlite.consumer_name r with
  | EmptyString => Sqlite.remark_type r
  | name => (Sqlite.remark_type r ++ ": " ++ name)%string
  end.

(** Every stored consumer name is stripped of surrounding white space,
    as [save_current] leaves it. *)
Definition names_stripped (t : Sqlite.tables) : Prop :=
  forall r, In r (Sqlite.remarks t) ->
    Py.strip (Sqlite.consumer_name r) = Sqlite.consumer_name r.

(** The same for the slots of a popup. *)
Definition tidy (p : t) : Prop :=
  forall s, In s (steps p) -> Py.strip (consumer s) = consumer s.

(** The table line of record [r] over tables [t], and the lines of a
    list of records numbered from [idx]. *)
Definition line_of (t : Sqlite.tables) (idx : Z) (r : Sqlite.record_row)
    : ViewByDateScreen.table_row :=
  {| ViewByDateScreen.sr := idx;
     ViewByDateScreen.rec := r;
     ViewByDateScreen.remarks_text :=
       Py.join ", "
         (map ViewByDateScreen.remark_text
            (fst (Sqlite.select_remarks (Sqlite.id r) t))) |}.

Fixpoint lines_of (t : Sqlite.tables) (idx : Z)
    (rows : list Sqlite.record_row) : list ViewByDateScreen.table_row :=
  match rows with
  | [] => []
  | r :: rest => line_of t idx r :: lines_of t (idx + 1) rest
  end.

Definition error_notice (e : Py.exn) : notice :=
  {| title := "Error"; text := Py.exn_text e |}.

(** The slots carry the numbers 1, 2, ... in order. *)
Definition numbered (p : t) : Prop :=
  map seq (steps p) = map Z.of_nat (List.seq 1 (length (steps p))).

(** Tables [t'] are tables [t] with the remarks [rows] added at the
    end and nothing else changed, the key counter of [remarks] apart. *)
Definition adds_remarks (t t' : Sqlite.tables)
    (rows : list Sqlite.remark_row) : Prop :=
  Sqlite.remarks t' = (Sqlite.remarks t ++ rows)%list /\
  Sqlite.records t' = Sqlite.records t /\
  Sqlite.cylinder_price t' = Sqlite.cylinder_price t /\
  Sqlite.records_seq t' = Sqlite.records_seq t.

(** [querySlots]: the remarks of a record as the cursor sees them. *)
Definition query_slots (rec_id : Z) (c : Sqlite.connection)
    : list (string * string) :=
  fst (Sqlite.select_remarks rec_id (Sqlite.pending c)).

End Notions.
Import Notions.

(** The same world on a storage layer that behaves as [fs]. *)
Definition on_storage {Self} (fs : list bool) (w : world Self) : world Self :=
  World (Sqlite.with_pending (db w) (Sqlite.pending (db w)) fs)
    (self w) (popups w).

(** Ten delivered and seven empties received: three missing slots, on
    screen ([three_missing]) and all classified ([three_classified]). *)
Definition three_missing : world ReconcilePopup.t :=
  exec ReconcilePopup.update_and_prepare
    (submitted (entry_form "10" "7" "0" "0" "0") []).

Definition three_classified : world ReconcilePopup.t :=
  exec (session [PickReason "NC"; TypeName "Asha"; PressNext;
                 PickReason "TV"; TypeName ""; PressNext;
                 PickReason "DBC"])
    three_missing.


(** ** More notices and sample worlds *)

Definition invalid_empties : notice :=
  {| title := "Error"; text := "Invalid empties count" |}.

Definition db_error (e : Py.exn) : notice :=
  {| title := "DB Error"; text := Py.exn_text e |}.

Definition invalid_input (e : Py.exn) : notice :=
  {| title := "Error"; text := "Invalid input. " ++ Py.exn_text e |}.


(** A world seen from the day table: the same connection, no object. *)
Definition viewed {Self} (w : world Self) : world unit :=
  World (db w) tt [].

(** How a slot reads in a remark summary. *)
Definition step_text (s : ReconcilePopup.step) : string :=
  match ReconcilePopup.consumer s with
  | EmptyString => default "" (ReconcilePopup.selected s)
  | name => (default "" (ReconcilePopup.selected s) ++ ": " ++ name)%string
  end.

(** ** [datetime.date] and the [calendar] module *)

Module Datetime.

Definition MINYEAR : Z := 1.
Definition MAXYEAR : Z := 9999.

(** [calendar.isleap(year)] *)
Definition isleap (year : Z) : bool :=
  (year mod 4 =? 0) && (negb (year mod 100 =? 0) || (year mod 400 =? 0)).

(** [calendar.mdays[month]] *)
Definition mdays (month : Z) : Z :=
  match month with
  | 1 => 31 | 2 => 28 | 3 => 31 | 4 => 30 | 5 => 31 | 6 => 30
  | 7 => 31 | 8 => 31 | 9 => 30 | 10 => 31 | 11 => 30 | 12 => 31
  | _ => 0
  end.

(** The days of a month: [mdays[month] + (month == 2 and isleap(year))]. *)
Definition days_in_month (year month : Z) : Z :=
  mdays month + (if (month =? 2) && isleap year then 1 else 0).

(** A [datetime.date] object. *)
Record date := Date { year : Z; month : Z; day : Z }.

(** The fields are those of a date of the calendar: what every [date]
    object satisfies. *)
Definition valid (d : date) : bool :=
  (MINYEAR <=? year d) && (year d <=? MAXYEAR) &&
  (1 <=? month d) && (month d <=? 12) &&
  (1 <=? day d) && (day d <=? days_in_month (year d) (month d)).

(** [date(year, month, day)]; [None] is the [ValueError] of a field out
    of range. *)
Definition new (y m d : Z) : option date :=
  if valid (Date y m d) then Some (Date y m d) else None.

(** [date.toordinal()]: day 1 is 0001-01-01. *)
Definition days_before_year (year : Z) : Z :=
  let y := year - 1 in y * 365 + y / 4 - y / 100 + y / 400.

Definition days_before_month (year month : Z) : Z :=
  match month with
  | 1 => 0 | 2 => 31 | 3 => 59 | 4 => 90 | 5 => 120 | 6 => 151
  | 7 => 181 | 8 => 212 | 9 => 243 | 10 => 273 | 11 => 304 | 12 => 334
  | _ => 0
  end + (if (month >? 2) && isleap year then 1 else 0).

Definition toordinal (d : date) : Z :=
  days_before_year (year d) + days_before_month (year d) (month d) + day d.

(** [date.weekday()]: Monday is 0. *)
Definition date_weekday (d : date) : Z := (toordinal d + 6) mod 7.

(** [calendar.weekday(year, month, day)] *)
Definition weekday (y m d : Z) : option Z :=
  let y := if (MINYEAR <=? y) && (y <=? MAXYEAR) then y
           else 2000 + y mod 400 in
  option_map date_weekday (new y m d).

(** [calendar.monthrange(year, month)]: the weekday of the first and the
    number of days; [None] is [IllegalMonthError], a [ValueError]. *)
Definition monthrange (y m : Z) : option (Z * Z) :=
  if (1 <=? m) && (m <=? 12) then
    option_map (fun day1 => (day1, days_in_month y m)) (weekday y m 1)
  else None.

(** [Calendar(firstweekday=0).itermonthdays(year, month)] *)
Definition itermonthdays (y m : Z) : option (list Z) :=
  option_map
    (fun '(day1, ndays) =>
       let days_before := (day1 - 0) mod 7 in
       let days_after := (0 - day1 - ndays) mod 7 in
       (replicate (Z.to_nat days_before) 0 ++
        map Z.of_nat (seq 1 (Z.to_nat ndays)) ++
        replicate (Z.to_nat days_after) 0)%list)
    (monthrange y m).

(** [calendar.monthcalendar(year, month)]:
    [[days[i:i+7] for i in range(0, len(days), 7)]] *)
Definition monthcalendar (y m : Z) : option (list (list Z)) :=
  option_map
    (fun days =>
       map (fun k => take 7 (drop (7 * k) days))
         (seq 0 ((length days + 6) / 7)))
    (itermonthdays y m).

(** One decimal digit. *)
Definition digit (n : Z) : ascii := ascii_of_N (Z.to_N (48 + n mod 10)).

(** [d.strftime("%Y-%m-%d")]: the year in four digits, the month and the
    day in two.  (For years before 1000 the C libraries differ on the
    padding of [%Y]; the properties below are stated from 1000 on.) *)
Definition strftime_ymd (d : date) : string :=
  String (digit (year d / 1000)) (String (digit (year d / 100))
  (String (digit (year d / 10)) (String (digit (year d))
  (String "-" (String (digit (month d / 10)) (String (digit (month d))
  (String "-" (String (digit (day d / 10)) (String (digit (day d))
  EmptyString))))))))).

End Datetime.

(** ** [CalendarPopup] *)

Module CalendarPopup.

(** The popup object: the date it holds, the cells of its grid week by
    week (0 for a blank label, [d] for the button of day [d]) and whether
    it is on screen.  The title label and the weekday headers are
    rendering. *)
Record t := {
  selected_date : Datetime.date;
  calendar_grid : list (list Z);
  is_open : bool }.

Definition set_selected_date (d : Datetime.date) (p : t) : t :=
  {| selected_date := d; calendar_grid := calendar_grid p;
     is_open := is_open p |}.

Definition set_calendar_grid (g : list (list Z)) (p : t) : t :=
  {| selected_date := selected_date p; calendar_grid := g;
     is_open := is_open p |}.

Definition set_open (b : bool) (p : t) : t :=
  {| selected_date := selected_date p; calendar_grid := calendar_grid p;
     is_open := b |}.

Definition render_calendar : M t unit :=
  set_self (set_calendar_grid []);;
  p ← get_self;
  let y := Datetime.year (selected_date p) in
  let m := Datetime.month (selected_date p) in
  month_calendar ← of_option (Datetime.monthcalendar y m) Py.ValueError;
  set_self (set_calendar_grid month_calendar).

(** The object [__init__(on_date_selected, initial_date)] has built when
    it reaches its last line, the first [render_calendar()]. *)
Definition init (initial_date : Datetime.date) : t :=
  {| selected_date := initial_date; calendar_grid := []; is_open := false |}.

Definition open : M t unit := set_self (set_open true).
Definition dismiss : M t unit := set_self (set_open false).

Definition change_month (delta : Z) : M t unit :=
  p ← get_self;
  let y := Datetime.year (selected_date p) in
  let m := Datetime.month (selected_date p) + delta in
  let '(m, y) := if m <? 1 then (12, y - 1) else (m, y) in
  let '(m, y) := if m >? 12 then (1, y + 1) else (m, y) in
  r ← of_option (Datetime.monthrange y m) Py.ValueError;
  let day := Z.min (Datetime.day (selected_date p)) (snd r) in
  d ← of_option (Datetime.new y m day) Py.ValueError;
  set_self (set_selected_date d);;
  render_calendar.

Definition on_day_pressed (day : Z) : M t unit :=
  p ← get_self;
  d ← of_option
        (Datetime.new (Datetime.year (selected_date p))
           (Datetime.month (selected_date p)) day) Py.ValueError;
  set_self (set_selected_date d);;
  render_calendar.

(** [choose_date]: the text handed to the [on_date_selected] callback is
    the value of the computation. *)
Definition choose_date : M t string :=
  p ← get_self;
  let sel := Datetime.strftime_ymd (selected_date p) in
  dismiss;;
  mret sel.

End CalendarPopup.

(** A calendar popup opened on a date, over an empty database. *)
Definition calendar_on (d : Datetime.date) : world CalendarPopup.t :=
  exec (CalendarPopup.render_calendar;; CalendarPopup.open)
    (World (fresh_conn []) (CalendarPopup.init d) []).

(** ** [ChangePriceScreen] *)

(** [INSERT OR REPLACE INTO settings (key,value) VALUES ('cylinder_price', ?)]
    with [str(v)] for the value.  The table keeps the text of the float
    and [get_price] reads it back with [float], which gives [v] again
    ([repr] round-trips); the tables keep the float itself. *)
Definition replace_price (v : Py.float) (t : Sqlite.tables)
    : unit * Sqlite.tables :=
  (tt,
   {| Sqlite.records := Sqlite.records t;
      Sqlite.remarks := Sqlite.remarks t;
      Sqlite.cylinder_price := Some v;
      Sqlite.records_seq := Sqlite.records_seq t;
      Sqlite.remarks_seq := Sqlite.remarks_seq t |}).

(** [set_setting("cylinder_price", v)] *)
Definition set_setting {Self} (v : Py.float) : M Self unit :=
  cur_execute (replace_price v);;
  conn_commit.

(** Text that [input_filter="float"] lets through: digits and points. *)
Definition typed_float (s : string) : bool :=
  forallb (fun a => let n := N_of_ascii a in
                    ((48 <=? n) && (n <=? 57) || (n =? 46))%N)
    (list_ascii_of_string s).

Module ChangePriceScreen.

(** The text of the price field and of the message label. *)
Record t := {
  price_input : string;
  msg : string }.

Definition set_msg (s : string) (p : t) : t :=
  {| price_input := price_input p; msg := s |}.

Definition save_price : M t unit :=
  try_except
    (p ← get_self;
     val ← of_option (Py.float_of_text (price_input p)) Py.ValueError;
     set_setting val;;
     set_self (set_msg "Price updated."))
    (fun e => set_self (set_msg ("Invalid value: " ++ Py.exn_text e))).

End ChangePriceScreen.

(** The price screen with [text] in its field, over a new database whose
    storage layer behaves as [fs]. *)
Definition price_screen (text : string) (fs : list bool)
    : world ChangePriceScreen.t :=
  World (fresh_conn fs)
    {| ChangePriceScreen.price_input := text; ChangePriceScreen.msg := "" |} [].

(** The entry screen with form [f] over the database of world [w]. *)
Definition entry_after {Self} (f : NewEntryScreen.t) (w : world Self)
    : world NewEntryScreen.t :=
  World (db w) f [].
(** * Properties *)

(** ** The monad and the connection *)

Section Running.
Context {Self : Type}.

Lemma bind_ok {A B} (m : M Self A) (k : A -> M Self B) w a w' :
  m w = (Ok a, w') -> (m ≫= k) w = k a w'.
Proof. intros H. unfold mbind, M_bind. now rewrite H. Qed.

Lemma bind_raise {A B} (m : M Self A) (k : A -> M Self B) w e w' :
  m w = (Raise e, w') -> (m ≫= k) w = (Raise e, w').
Proof. intros H. unfold mbind, M_bind. now rewrite H. Qed.

Lemma try_ok {A} (m : M Self A) h w a w' :
  m w = (Ok a, w') -> try_except m h w = (Ok a, w').
Proof. intros H. unfold try_except. now rewrite H. Qed.

Lemma try_raise {A} (m : M Self A) h w e w' :
  m w = (Raise e, w') -> try_except m h w = h e w'.
Proof. intros H. unfold try_except. now rewrite H. Qed.

Lemma calm_0 c : calm 0 c.
Proof. reflexivity. Qed.

Lemma calm_S n c :
  calm (S n) c ->
  hd false (Sqlite.faults c) = false /\
  forallb negb (take n (tail (Sqlite.faults c))) = true.
Proof.
  unfold calm. destruct (Sqlite.faults c) as [|[] fs]; simpl; auto.
  - now rewrite take_nil.
  - discriminate.
Qed.

Lemma calm_le n m c : (m <= n)%nat -> calm n c -> calm m c.
Proof.
  unfold calm. intros Hle. rewrite !forallb_forall. intros H x Hx.
  apply H. apply list_elem_of_In. apply list_elem_of_In in Hx.
  apply list_elem_of_lookup in Hx as [i Hi].
  apply lookup_take_Some in Hi as [Hi Hlt].
  apply list_elem_of_lookup. exists i. apply lookup_take_Some. split; [easy | lia].
Qed.

(** A statement that does not fail runs on the open transaction. *)
Lemma cur_execute_calm {A} n (stmt : Sqlite.tables -> A * Sqlite.tables) w :
  calm (S n) (db w) ->
  cur_execute (Self := Self) stmt w =
    (Ok (fst (stmt (Sqlite.pending (db w)))),
     World (Sqlite.with_pending (db w) (snd (stmt (Sqlite.pending (db w))))
              (tail (Sqlite.faults (db w))))
       (self w) (popups w)).
Proof.
  intros [Hhd _]%calm_S. unfold cur_execute.
  destruct (Sqlite.faults (db w)) as [|[] fs]; try discriminate;
    now destruct (stmt _).
Qed.

Lemma conn_commit_calm n w :
  calm (S n) (db w) ->
  conn_commit (Self := Self) w =
    (Ok tt,
     World {| Sqlite.committed := Sqlite.pending (db w);
              Sqlite.pending := Sqlite.pending (db w);
              Sqlite.faults := tail (Sqlite.faults (db w)) |}
       (self w) (popups w)).
Proof.
  intros [Hhd _]%calm_S. unfold conn_commit.
  now destruct (Sqlite.faults (db w)) as [|[] fs]; try discriminate.
Qed.

Lemma calm_tail n c c' :
  calm (S n) c -> Sqlite.faults c' = tail (Sqlite.faults c) -> calm n c'.
Proof. intros [_ H]%calm_S E. unfold calm. now rewrite E. Qed.

Lemma calm_step n c t : calm (S n) c ->
  calm n (Sqlite.with_pending c t (tail (Sqlite.faults c))).
Proof. now intros [_ H]%calm_S. Qed.

End Running.

(** ** Reasoning about callbacks *)

#[local] Arguments Py.int : simpl never.
#[local] Arguments Py.int_or : simpl never.
#[local] Arguments Py.float_or : simpl never.
#[local] Arguments Py.str : simpl never.
#[local] Arguments Py.strip : simpl never.
#[local] Arguments Py.round : simpl never.
#[local] Arguments Py.float_of_text : simpl never.
#[local] Arguments Py.float_of_int : simpl never.
#[local] Arguments Py.fadd : simpl never.
#[local] Arguments Py.fmul : simpl never.
#[local] Arguments Py.range : simpl never.
#[local] Arguments Py.index : simpl never.
#[local] Arguments Z.abs : simpl never.
#[local] Arguments Z.sub : simpl never.
#[local] Arguments Z.add : simpl never.
#[local] Arguments Z.eqb : simpl never.
#[local] Arguments Z.ltb : simpl never.
#[local] Arguments Z.leb : simpl never.
#[local] Arguments Z.gtb : simpl never.
#[local] Arguments Z.geb : simpl never.
#[local] Arguments Z.min : simpl never.
#[local] Arguments Z.max : simpl never.
#[local] Arguments Z.of_nat : simpl never.
#[local] Arguments String.eqb : simpl never.

(** Unfolds the monad operations and computes as far as the next
    statement, commit or method call. *)
Ltac munfold :=
  unfold int_or, float_or, of_option, ReconcilePopup.dismiss,
    ReconcilePopup.open, mbind, M_bind, mret, M_ret, get_self, set_self,
    try_except, show_popup, raise.

Ltac mrun :=
  munfold;
  cbn -[cur_execute conn_commit for_each ReconcilePopup.open_steps_ui
        ReconcilePopup.load_step ReconcilePopup.save_current
        ReconcilePopup.get_step ReconcilePopup.insert_step
        NewEntryScreen.calculate get_price saved].

Lemma range_length n : length (Py.range n) = Z.to_nat n.
Proof. unfold Py.range. now rewrite length_map, length_seq. Qed.

Lemma range_cons n : 0 < n -> exists l, Py.range n = 0 :: l.
Proof.
  intros H. unfold Py.range.
  destruct (Z.to_nat n) as [|k] eqn:E; [lia|]. simpl. eauto.
Qed.

Lemma index_in_bounds {A} (l : list A) i :
  0 <= i < Z.of_nat (length l) -> Py.index l i = Some (Z.to_nat i).
Proof.
  intros H. unfold Py.index.
  destruct (Z.leb_spec 0 i); [|lia].
  destruct (Z.ltb_spec i (Z.of_nat (length l))); [easy|lia].
Qed.

Section Popup_facts.
Import ReconcilePopup.

Lemma get_step_run w i s :
  0 <= i -> steps (self w) !! Z.to_nat i = Some s ->
  get_step i w = (Ok s, w).
Proof.
  intros Hi Hs. unfold get_step. mrun.
  rewrite index_in_bounds.
  - cbn. now rewrite Hs.
  - apply lookup_lt_Some in Hs. lia.
Qed.

Lemma load_step_run w i s :
  0 <= i -> steps (self w) !! Z.to_nat i = Some s ->
  load_step i w = (Ok tt, World (db w) (shown s (self w)) (popups w)).
Proof.
  intros Hi Hs. unfold load_step. mrun.
  assert (Hlt : i < Z.of_nat (length (steps (self w))))
    by (apply lookup_lt_Some in Hs; lia).
  destruct (Z.ltb_spec i 0); [lia|].
  destruct (Z.geb_spec i (Z.of_nat (length (steps (self w))))); [lia|].
  cbn. now rewrite (get_step_run w i s).
Qed.

Lemma load_step_outside w i :
  i < 0 \/ Z.of_nat (length (steps (self w))) <= i ->
  load_step i w = (Ok tt, w).
Proof.
  intros H. unfold load_step. mrun.
  destruct (Z.ltb_spec i 0); [easy|].
  destruct (Z.geb_spec i (Z.of_nat (length (steps (self w))))); [easy|lia].
Qed.

Lemma open_steps_ui_run w s l :
  steps (self w) = s :: l ->
  open_steps_ui w =
    (Ok tt,
     World (db w)
       (shown s (set_current_index 0
                   (set_widgets "Choose reason" (options s) "" (self w))))
       (popups w)).
Proof.
  intros H. unfold open_steps_ui.
  rewrite (bind_ok _ _ w s w) by (apply get_step_run; [lia | now rewrite H]).
  mrun. erewrite load_step_run; [reflexivity | lia | cbn; now rewrite H].
Qed.

Lemma save_current_run w :
  in_bounds (self w) ->
  save_current w = (Ok tt, World (db w) (saved (self w)) (popups w)).
Proof.
  intros H. unfold save_current. mrun.
  now rewrite index_in_bounds.
Qed.

Lemma saved_length p : length (steps (saved p)) = length (steps p).
Proof. cbn. apply length_alter. Qed.

Lemma saved_in_bounds p : in_bounds p -> in_bounds (saved p).
Proof. unfold in_bounds. now rewrite saved_length. Qed.

Lemma saved_current p s :
  steps p !! Z.to_nat (current_index p) = Some s ->
  steps (saved p) !! Z.to_nat (current_index p) = Some (answer p s).
Proof. intros H. cbn. now rewrite list_lookup_alter_eq, H. Qed.

Lemma in_bounds_lookup p :
  in_bounds p -> exists s, steps p !! Z.to_nat (current_index p) = Some s.
Proof.
  intros H. destruct (lookup_lt_is_Some_2 (steps p) (Z.to_nat (current_index p)))
    as [s Hs]; [unfold in_bounds in H; lia | eauto].
Qed.

End Popup_facts.

(** ** Confirming the empties count: [update_and_prepare] *)

Section Update_and_prepare.
Import ReconcilePopup.

(** The connection after the UPDATE and the commit. *)
Lemma update_and_prepare_run w E :
  Py.int_or (empty_edit (self w)) 0 = Some E ->
  calm 2 (db w) ->
  let d := E - delivered (self w) in
  exists w',
    update_and_prepare w = (Ok tt, w') /\
    steps (self w') =
      (if d <? 0 then map (new_step missing missing_options) (Py.range (Z.abs d))
       else map (new_step extra extra_options) (Py.range d)) /\
    diff (self w') = d /\
    empty_received (self w') = E /\
    is_open (self w') = (if d =? 0 then false else is_open (self w)) /\
    (d <> 0 -> current_index (self w') = 0) /\
    Sqlite.pending (db w') =
      snd (Sqlite.update_empty_received E (record_id (self w))
             (Sqlite.pending (db w))) /\
    Sqlite.committed (db w') = Sqlite.pending (db w') /\
    popups w' =
      (popups w ++
       if d =? 0 then
         [{| title := "Info";
             text := "Empty count equals delivered — no remarks required." |}]
       else [])%list.
Proof.
  intros HE Hc d. unfold update_and_prepare. mrun. rewrite HE.
  rewrite (cur_execute_calm 1) by assumption. mrun.
  rewrite (conn_commit_calm 0) by (now apply calm_step). mrun.
  fold d. destruct (Z.eqb_spec d 0) as [Hd|Hd].
  - eexists. split; [reflexivity|]. cbn. rewrite Hd. cbn.
    repeat split; try easy; now rewrite ?app_nil_r.
  - destruct (Z.ltb_spec d 0) as [Hlt|Hge].
    + destruct (range_cons (Z.abs d)) as [l Hl]; [lia|].
      erewrite open_steps_ui_run by (cbn; rewrite Hl; reflexivity).
      eexists. split; [reflexivity|]. cbn.
      repeat split; try easy; now rewrite ?app_nil_r.
    + destruct (range_cons d) as [l Hl]; [lia|].
      erewrite open_steps_ui_run by (cbn; rewrite Hl; reflexivity).
      eexists. split; [reflexivity|]. cbn.
      repeat split; try easy; now rewrite ?app_nil_r.
Qed.

Lemma new_steps_seq k opts n :
  map seq (map (new_step k opts) (Py.range n)) =
  map Z.of_nat (List.seq 1 (Z.to_nat n)).
Proof.
  unfold Py.range. rewrite !map_map. cbn.
  rewrite <- seq_shift, map_map. apply map_ext. intros a. lia.
Qed.

End Update_and_prepare.

Section Slots.
Import ReconcilePopup.

(** C1.  When reconciliation is run with delivered count [D] and a
    confirmed empties count [E], it generates [abs (E - D)] slots, all of
    one kind (missing when [E - D < 0], extra when [E - D > 0]), numbered
    1, 2, ... in order; missing slots offer the reasons NC, DBC, TV and
    EmptyPending, extra slots offer TV, EmptyReturned, NC, DBC and
    EmptyPending; no slot has a reason yet. *)
Theorem reconcile_slots (w : world t) (E : Z) :
  Py.int_or (empty_edit (self w)) 0 = Some E ->
  calm 2 (db w) ->
  let d := E - delivered (self w) in
  let slots := steps (self (exec update_and_prepare w)) in
  fst (update_and_prepare w) = Ok tt /\
  length slots = Z.abs_nat d /\
  (forall s, In s slots ->
     mode s = (if d <? 0 then missing else extra) /\
     options s =
       map Spec.label
         (if d <? 0 then [Spec.NC; Spec.DBC; Spec.TV; Spec.EmptyPending]
          else [Spec.TV; Spec.EmptyReturned; Spec.NC; Spec.DBC;
                Spec.EmptyPending]) /\
     selected s = None) /\
  map seq slots = map Z.of_nat (List.seq 1 (Z.abs_nat d)).
Proof.
  intros HE Hc d slots.
  destruct (update_and_prepare_run w E HE Hc) as (w' & Hrun & Hsteps & _).
  fold d in Hsteps. subst slots. unfold exec. rewrite Hrun. cbn [fst snd].
  rewrite Hsteps. split; [reflexivity|].
  destruct (Z.ltb_spec d 0) as [Hlt|Hge].
  - repeat split.
    + rewrite length_map, range_length. lia.
    + apply in_map_iff in H as (i & <- & _). reflexivity.
    + apply in_map_iff in H as (i & <- & _). reflexivity.
    + apply in_map_iff in H as (i & <- & _). reflexivity.
    + rewrite new_steps_seq. do 2 f_equal. lia.
  - repeat split.
    + rewrite length_map, range_length. lia.
    + apply in_map_iff in H as (i & <- & _). reflexivity.
    + apply in_map_iff in H as (i & <- & _). reflexivity.
    + apply in_map_iff in H as (i & <- & _). reflexivity.
    + rewrite new_steps_seq. do 2 f_equal. lia.
Qed.

Lemma reconcile_slots_witness :
  let w := submitted (entry_form "10" "7" "0" "0" "0") [] in
  Py.int_or (empty_edit (self w)) 0 = Some 7 /\
  calm 2 (db w) /\
  length (steps (self (exec update_and_prepare w))) = 3%nat.
Proof.
  intros w.
  assert (HE : Py.int_or (empty_edit (self w)) 0 = Some 7) by reflexivity.
  assert (Hc : calm 2 (db w)) by reflexivity.
  split; [exact HE | split; [exact Hc |]].
  exact (proj1 (proj2 (reconcile_slots w 7 HE Hc))).
Defined.

(** C6.  When the confirmed empties count equals the delivered count,
    reconciliation generates no slot and the popup closes at once: the
    transaction is settled without any further action, and no remark is
    stored. *)
Theorem balanced_closes (w : world t) :
  Py.int_or (empty_edit (self w)) 0 = Some (delivered (self w)) ->
  calm 2 (db w) ->
  let w' := exec update_and_prepare w in
  fst (update_and_prepare w) = Ok tt /\
  steps (self w') = [] /\
  is_open (self w') = false /\
  Sqlite.remarks (Sqlite.pending (db w')) =
    Sqlite.remarks (Sqlite.pending (db w)) /\
  Sqlite.remarks (Sqlite.committed (db w')) =
    Sqlite.remarks (Sqlite.pending (db w)).
Proof.
  intros HE Hc w'.
  destruct (update_and_prepare_run w _ HE Hc)
    as (w1 & Hrun & Hsteps & _ & _ & Hopen & _ & Hp & Hcm & _).
  subst w'. unfold exec. rewrite Hrun. cbn [fst snd].
  rewrite Z.sub_diag in Hsteps, Hopen.
  repeat split; try assumption.
  - now rewrite Hp.
  - now rewrite Hcm, Hp.
Qed.

Lemma balanced_closes_witness :
  let w := submitted (entry_form "10" "10" "0" "0" "0") [] in
  Py.int_or (empty_edit (self w)) 0 = Some (delivered (self w)) /\
  calm 2 (db w) /\
  steps (self (exec update_and_prepare w)) = [] /\
  is_open (self (exec update_and_prepare w)) = false.
Proof.
  intros w.
  assert (HE : Py.int_or (empty_edit (self w)) 0 = Some (delivered (self w)))
    by reflexivity.
  assert (Hc : calm 2 (db w)) by reflexivity.
  split; [exact HE | split; [exact Hc |]].
  pose proof (balanced_closes w HE Hc) as (_ & H1 & H2 & _).
  split; assumption.
Defined.

End Slots.

(** ** Moving between slots: [go_next] and [go_prev] *)

Section Navigation.
Import ReconcilePopup.

Lemma chosen_answer p s : chosen (answer p s) = reason_selected p.
Proof.
  unfold chosen, answer, reason_selected. cbn.
  now destruct (String.eqb (drop_text p) "Choose reason").
Qed.

Lemma go_next_blocked w :
  in_bounds (self w) -> reason_selected (self w) = false ->
  go_next w =
    (Ok tt, World (db w) (saved (self w)) (popups w ++ [required_to_proceed])).
Proof.
  intros Hb Hsel. destruct (in_bounds_lookup _ Hb) as [s Hs].
  unfold go_next.
  rewrite (bind_ok _ _ _ _ _ (save_current_run w Hb)). mrun.
  erewrite get_step_run;
    [| cbn; unfold in_bounds in Hb; lia | exact (saved_current (self w) s Hs)].
  mrun. now rewrite chosen_answer, Hsel.
Qed.

Lemma go_next_moves w :
  in_bounds (self w) -> reason_selected (self w) = true ->
  let i := Z.min (current_index (self w) + 1)
             (Z.of_nat (length (steps (self w))) - 1) in
  exists s,
    steps (saved (self w)) !! Z.to_nat i = Some s /\
    go_next w =
      (Ok tt,
       World (db w) (shown s (set_current_index i (saved (self w))))
         (popups w)).
Proof.
  intros Hb Hsel i. destruct (in_bounds_lookup _ Hb) as [s Hs].
  assert (Hi : 0 <= i < Z.of_nat (length (steps (saved (self w))))).
  { rewrite saved_length. unfold in_bounds in Hb. lia. }
  destruct (lookup_lt_is_Some_2 (steps (saved (self w))) (Z.to_nat i))
    as [s' Hs']; [lia|].
  exists s'. split; [assumption|].
  unfold go_next.
  rewrite (bind_ok _ _ _ _ _ (save_current_run w Hb)). mrun.
  erewrite get_step_run;
    [| cbn; unfold in_bounds in Hb; lia | exact (saved_current (self w) s Hs)].
  mrun. rewrite chosen_answer, Hsel. mrun.
  rewrite saved_length. change (current_index (saved (self w))) with (current_index (self w)). fold i.
  erewrite load_step_run; [reflexivity | cbn; lia | exact Hs'].
Qed.

Lemma go_prev_run w :
  in_bounds (self w) ->
  let i := Z.max (current_index (self w) - 1) 0 in
  exists s,
    steps (saved (self w)) !! Z.to_nat i = Some s /\
    go_prev w =
      (Ok tt,
       World (db w) (shown s (set_current_index i (saved (self w))))
         (popups w)).
Proof.
  intros Hb i.
  assert (Hi : 0 <= i < Z.of_nat (length (steps (saved (self w))))).
  { rewrite saved_length. unfold in_bounds in Hb. lia. }
  destruct (lookup_lt_is_Some_2 (steps (saved (self w))) (Z.to_nat i))
    as [s' Hs']; [lia|].
  exists s'. split; [assumption|].
  unfold go_prev.
  rewrite (bind_ok _ _ _ _ _ (save_current_run w Hb)). mrun.
  fold i.
  erewrite load_step_run; [reflexivity | cbn; lia | exact Hs'].
Qed.

(** C7.  With no reason selected for the slot on screen, Next is refused
    with the "Required" notice and the position stays; Previous has no
    such guard and always succeeds; neither touches the database. *)
Theorem navigation_guard (w : world t) :
  in_bounds (self w) ->
  (reason_selected (self w) = false ->
     fst (go_next w) = Ok tt /\
     current_index (self (exec go_next w)) = current_index (self w) /\
     popups (exec go_next w) = (popups w ++ [required_to_proceed])%list /\
     db (exec go_next w) = db w) /\
  (fst (go_prev w) = Ok tt /\
   current_index (self (exec go_prev w)) =
     Z.max (current_index (self w) - 1) 0 /\
   popups (exec go_prev w) = popups w /\
   db (exec go_prev w) = db w).
Proof.
  intros Hb. split.
  - intros Hsel. unfold exec. rewrite (go_next_blocked w Hb Hsel).
    now cbn.
  - destruct (go_prev_run w Hb) as (s & _ & Hrun).
    unfold exec. rewrite Hrun. now cbn.
Qed.

Lemma navigation_guard_witness :
  let w := three_missing in
  in_bounds (self w) /\
  reason_selected (self w) = false /\
  current_index (self (exec go_next w)) = 0 /\
  current_index (self (exec go_prev w)) = 0.
Proof.
  intros w.
  assert (Hb : in_bounds (self w))
    by (vm_compute; split; [discriminate | reflexivity]).
  assert (Hsel : reason_selected (self w) = false) by reflexivity.
  split; [exact Hb | split; [exact Hsel |]].
  destruct (navigation_guard w Hb) as [Hnext (_ & Hprev & _)].
  split; [exact (proj1 (proj2 (Hnext Hsel))) | exact Hprev].
Defined.

Lemma handle_in_bounds e w :
  in_bounds (self w) ->
  exists w',
    handle e w = (Ok tt, w') /\
    in_bounds (self w') /\
    length (steps (self w')) = length (steps (self w)) /\
    db w' = db w.
Proof.
  intros Hb. pose proof Hb as Hb'. unfold in_bounds in Hb'.
  destruct e as [| |r|s]; cbn [handle].
  - destruct (reason_selected (self w)) eqn:Hsel.
    + destruct (go_next_moves w Hb Hsel) as (s & _ & Hrun).
      eexists. split; [exact Hrun|]. unfold in_bounds. cbn.
      rewrite !length_alter. repeat split; lia.
    + eexists. split; [exact (go_next_blocked w Hb Hsel)|].
      unfold in_bounds. cbn. rewrite !length_alter. repeat split; lia.
  - destruct (go_prev_run w Hb) as (s & _ & Hrun).
    eexists. split; [exact Hrun|]. unfold in_bounds. cbn.
    rewrite !length_alter. repeat split; lia.
  - eexists. split; [reflexivity|]. unfold in_bounds. cbn.
    destruct (existsb _ _); cbn; repeat split; lia.
  - eexists. split; [reflexivity|]. unfold in_bounds. cbn.
    repeat split; lia.
Qed.

Lemma session_in_bounds l : forall i w,
  in_bounds (self w) ->
  exists w',
    for_each (fun _ e => handle e) i l w = (Ok tt, w') /\
    in_bounds (self w') /\
    length (steps (self w')) = length (steps (self w)) /\
    db w' = db w.
Proof.
  induction l as [|e l IH]; intros i w Hb.
  - exists w. now cbn.
  - destruct (handle_in_bounds e w Hb) as (w1 & Hrun & Hb1 & Hlen & Hdb).
    destruct (IH (S i) w1 Hb1) as (w2 & Hrun2 & Hb2 & Hlen2 & Hdb2).
    exists w2. cbn [for_each].
    rewrite (bind_ok _ _ _ _ _ Hrun). cbv beta.
    split; [exact Hrun2|]. repeat split; [apply Hb2 | apply Hb2 | |]; congruence.
Qed.

(** C10.  Whatever the operator does on the slot screen, in whatever
    order, the current index stays between 0 and [len steps - 1]: Next
    stops at the last slot, Previous stops at the first, and loading a
    step whose index is out of range changes nothing. *)
Theorem index_stays_in_bounds (w : world t) (l : list event) :
  in_bounds (self w) ->
  (fst (session l w) = Ok tt /\
   in_bounds (self (exec (session l) w)) /\
   length (steps (self (exec (session l) w))) = length (steps (self w))) /\
  (current_index (self w) = Z.of_nat (length (steps (self w))) - 1 ->
     current_index (self (exec go_next w)) = current_index (self w)) /\
  (current_index (self w) = 0 ->
     current_index (self (exec go_prev w)) = 0) /\
  (forall i, i < 0 \/ Z.of_nat (length (steps (self w))) <= i ->
     load_step i w = (Ok tt, w)).
Proof.
  intros Hb. repeat split.
  - destruct (session_in_bounds l 0%nat w Hb) as (w' & Hrun & _).
    unfold session. now rewrite Hrun.
  - destruct (session_in_bounds l 0%nat w Hb) as (w' & Hrun & Hb' & _).
    unfold exec, session. rewrite Hrun. apply Hb'.
  - destruct (session_in_bounds l 0%nat w Hb) as (w' & Hrun & Hb' & _).
    unfold exec, session. rewrite Hrun. apply Hb'.
  - destruct (session_in_bounds l 0%nat w Hb) as (w' & Hrun & _ & Hlen & _).
    unfold exec, session. now rewrite Hrun.
  - intros Hlast. unfold exec.
    destruct (reason_selected (self w)) eqn:Hsel.
    + destruct (go_next_moves w Hb Hsel) as (s & _ & Hrun).
      rewrite Hrun. cbn. lia.
    + now rewrite (go_next_blocked w Hb Hsel).
  - intros Hfirst. unfold exec.
    destruct (go_prev_run w Hb) as (s & _ & Hrun).
    rewrite Hrun. cbn. lia.
  - intros i Hi. now apply load_step_outside.
Qed.

Lemma index_stays_in_bounds_witness :
  let w := three_missing in
  let l := [PickReason "NC"; PressNext; PressNext; PickReason "TV";
            PressNext; PressNext; PressPrevious; PressPrevious;
            PressPrevious; PressPrevious] in
  in_bounds (self w) /\ in_bounds (self (exec (session l) w)).
Proof.
  intros w l.
  assert (Hb : in_bounds (self w))
    by (vm_compute; split; [discriminate | reflexivity]).
  split; [exact Hb |].
  exact (proj1 (proj2 (proj1 (index_stays_in_bounds w l Hb)))).
Defined.

End Navigation.

(** ** The terminal save: [save_all] *)

Section Save_all.
Import ReconcilePopup.
Variable now : nat -> string.
Variable rid : Z.

Lemma adds_remarks_refl t : adds_remarks t t [].
Proof. unfold adds_remarks. now rewrite app_nil_r. Qed.

Lemma adds_remarks_trans t1 t2 t3 r1 r2 :
  adds_remarks t1 t2 r1 -> adds_remarks t2 t3 r2 ->
  adds_remarks t1 t3 (r1 ++ r2).
Proof.
  unfold adds_remarks. intros (H1 & H2 & H3 & H4) (G1 & G2 & G3 & G4).
  rewrite G1, H1, app_assoc. repeat split; congruence.
Qed.

(** The insertion loop while the storage holds: one row per slot, in
    the order of the slots. *)
Lemma insert_loop_calm l : forall i w,
  calm (length l) (db w) ->
  exists w' rows,
    for_each (insert_step now rid) i l w = (Ok tt, w') /\
    adds_remarks (Sqlite.pending (db w)) (Sqlite.pending (db w')) rows /\
    map slot_fields rows = map (slot_of rid) l /\
    map Sqlite.created_at rows = map now (List.seq i (length l)) /\
    Sqlite.committed (db w') = Sqlite.committed (db w) /\
    Sqlite.faults (db w') = drop (length l) (Sqlite.faults (db w)) /\
    self w' = self w /\ popups w' = popups w.
Proof.
  induction l as [|s l IH]; intros i w Hc.
  - exists w, []. cbn. repeat split; rewrite ?app_nil_r; auto.
  - cbn [for_each length]. cbn [length] in Hc.
    pose proof (cur_execute_calm (Self := t) (length l)
                  (Sqlite.insert_remark rid (seq s) (default "" (selected s))
                     (consumer s) (now i)) w Hc) as Hrun.
    fold (insert_step now rid i s) in Hrun.
    rewrite (bind_ok _ _ _ _ _ Hrun). cbv beta.
    match type of Hrun with _ = (_, ?x) => set (w1 := x) in * end.
    destruct (IH (S i) w1) as (w' & rows & Hrun' & Hadd & Hf & Hn & Hcm & Hfs & Hs & Hp).
    { subst w1. cbn [db]. now apply calm_step. }
    eexists w', (_ :: rows). split; [exact Hrun'|].
    split; [| split; [| split; [| split; [| split]]]].
    + eapply (adds_remarks_trans _ (Sqlite.pending (db w1)) _ [_]); [|exact Hadd].
      subst w1. cbn. unfold adds_remarks. cbn. repeat split.
    + cbn. now rewrite Hf.
    + cbn. now rewrite Hn.
    + now rewrite Hcm.
    + rewrite Hfs. subst w1. cbn.
      destruct (Sqlite.faults (db w)); cbn; now rewrite ?drop_nil.
    + now rewrite Hs, Hp.
Qed.

(** The insertion loop when the statement for slot [k] fails: the rows
    of the slots before it are in the open transaction. *)
Lemma insert_loop_fault l : forall k i w rest,
  Sqlite.faults (db w) = (replicate k false ++ true :: rest)%list ->
  (k < length l)%nat ->
  exists w' rows,
    for_each (insert_step now rid) i l w = (Raise Py.OperationalError, w') /\
    adds_remarks (Sqlite.pending (db w)) (Sqlite.pending (db w')) rows /\
    map slot_fields rows = map (slot_of rid) (take k l) /\
    Sqlite.committed (db w') = Sqlite.committed (db w) /\
    Sqlite.faults (db w') = rest /\
    self w' = self w /\ popups w' = popups w.
Proof.
  induction l as [|s l IH]; intros k i w rest Hfs Hk; [cbn in Hk; lia|].
  cbn [for_each]. destruct k as [|k].
  - cbn in Hfs. eexists _, []. split.
    + apply bind_raise. unfold insert_step, cur_execute. rewrite Hfs. reflexivity.
    + cbn. repeat split; rewrite ?app_nil_r; auto.
  - cbn in Hfs, Hk.
    assert (Hrun : insert_step now rid i s w =
      (Ok tt,
       World (Sqlite.with_pending (db w)
                (snd (Sqlite.insert_remark rid (seq s)
                        (default "" (selected s)) (consumer s) (now i)
                        (Sqlite.pending (db w))))
                (replicate k false ++ true :: rest)%list)
         (self w) (popups w))).
    { unfold insert_step, cur_execute. rewrite Hfs. reflexivity. }
    rewrite (bind_ok _ _ _ _ _ Hrun). cbv beta.
    match type of Hrun with _ = (_, ?x) => set (w1 := x) in * end.
    destruct (IH k (S i) w1 rest) as (w' & rows & Hrun' & Hadd & Hf & Hcm & Hfs' & Hs & Hp);
      [reflexivity | lia |].
    eexists w', (_ :: rows). split; [exact Hrun'|].
    split; [| split; [| split; [| split]]].
    + eapply (adds_remarks_trans _ (Sqlite.pending (db w1)) _ [_]); [|exact Hadd].
      subst w1. cbn. unfold adds_remarks. cbn. repeat split.
    + cbn. now rewrite Hf.
    + now rewrite Hcm.
    + exact Hfs'.
    + now rewrite Hs, Hp.
Qed.

End Save_all.

Section Terminal_save.
Import ReconcilePopup.

Lemma numbered_saved p : numbered p -> numbered (saved p).
Proof.
  unfold numbered. rewrite saved_length. intros <-. cbn.
  apply list_eq. intros i. rewrite !list_lookup_fmap.
  destruct (decide (i = Z.to_nat (current_index p))) as [->|Hne].
  - rewrite list_lookup_alter_eq. now destruct (steps p !! _).
  - now rewrite list_lookup_alter_ne.
Qed.

Lemma slot_of_seq rid rows l :
  map slot_fields rows = map (slot_of rid) l ->
  map Sqlite.seq rows = map seq l.
Proof.
  intros H.
  assert (G : map (fun x => snd (fst (fst x))) (map slot_fields rows) =
              map (fun x => snd (fst (fst x))) (map (slot_of rid) l))
    by now rewrite H.
  now rewrite !map_map in G.
Qed.

Lemma conn_commit_fault (w : world t) rest :
  Sqlite.faults (db w) = true :: rest ->
  conn_commit w =
    (Raise Py.OperationalError,
     World (Sqlite.with_pending (db w) (Sqlite.pending (db w)) rest)
       (self w) (popups w)).
Proof. intros H. unfold conn_commit. now rewrite H. Qed.

Lemma calm_replicate k rest c :
  Sqlite.faults c = (replicate k false ++ rest)%list -> calm k c.
Proof.
  intros H. unfold calm. rewrite H.
  rewrite take_app_length' by now rewrite length_replicate.
  clear H. induction k; [reflexivity | assumption].
Qed.

Lemma calm_drop n m c c' :
  calm (n + m) c -> Sqlite.faults c' = drop n (Sqlite.faults c) -> calm m c'.
Proof.
  unfold calm. intros H ->. revert H. generalize (Sqlite.faults c).
  induction n as [|n IH]; intros fs H; [exact H|].
  destruct fs as [|f fs]; [now rewrite drop_nil, take_nil|].
  cbn in H. apply andb_true_iff in H as [_ H]. cbn. now apply IH.
Qed.

Lemma forallb_chosen l :
  forallb chosen l = true <-> (forall s, In s l -> chosen s = true).
Proof. apply forallb_forall. Qed.

Lemma not_forallb_chosen l :
  forallb chosen l = false <-> (exists s, In s l /\ chosen s = false).
Proof.
  split.
  - intros H. induction l as [|s l IH]; [discriminate|].
    cbn in H. apply andb_false_iff in H as [H|H].
    + exists s. split; [now left | assumption].
    + destruct (IH H) as (s' & Hin & Hs'). exists s'. split; [now right | assumption].
  - intros (s & Hin & Hs). destruct (forallb chosen l) eqn:E; [|reflexivity].
    rewrite forallb_chosen in E. rewrite (E s Hin) in Hs. discriminate.
Qed.

Lemma save_all_refused now w :
  in_bounds (self w) ->
  forallb chosen (steps (saved (self w))) = false ->
  save_all now w =
    (Ok tt, World (db w) (saved (self w)) (popups w ++ [required_to_save])).
Proof.
  intros Hb Hex. unfold save_all.
  rewrite (bind_ok _ _ _ _ _ (save_current_run w Hb)). mrun.
  now rewrite Hex.
Qed.

Lemma save_all_commits now w :
  in_bounds (self w) ->
  forallb chosen (steps (saved (self w))) = true ->
  calm (S (length (steps (saved (self w))))) (db w) ->
  let p := saved (self w) in
  exists w' rows,
    save_all now w = (Ok tt, w') /\
    adds_remarks (Sqlite.pending (db w)) (Sqlite.pending (db w')) rows /\
    map slot_fields rows = map (slot_of (record_id p)) (steps p) /\
    Sqlite.committed (db w') = Sqlite.pending (db w') /\
    self w' = set_open false p /\
    popups w' = (popups w ++ [saved_notice])%list.
Proof.
  intros Hb Hall Hc p. unfold save_all.
  rewrite (bind_ok _ _ _ _ _ (save_current_run w Hb)). mrun.
  fold p. fold p in Hall, Hc. rewrite Hall. cbn [negb].
  set (w1 := World (db w) p (popups w)).
  destruct (insert_loop_calm now (record_id p) (steps p) 0%nat w1)
    as (w2 & rows & Hrun & Hadd & Hf & _ & Hcm & Hfs & Hs & Hp).
  { eapply calm_le; [|exact Hc]. lia. }
  rewrite Hrun.
  rewrite (conn_commit_calm 0).
  2:{ eapply (calm_drop (length (steps p)) 1 (db w1)); [|exact Hfs].
      eapply calm_le; [|exact Hc]. lia. }
  eexists _, rows. split; [reflexivity|]. cbn. rewrite Hs, Hp.
  repeat split; try apply Hadd. exact Hf.
Qed.

(** A storage failure at statement [k] of the batch ([k = len steps]
    being the commit). *)
Lemma save_all_interrupted now w k rest :
  in_bounds (self w) ->
  forallb chosen (steps (saved (self w))) = true ->
  Sqlite.faults (db w) = (replicate k false ++ true :: rest)%list ->
  (k <= length (steps (self w)))%nat ->
  let p := saved (self w) in
  exists w' rows,
    save_all now w = (Ok tt, w') /\
    adds_remarks (Sqlite.pending (db w)) (Sqlite.pending (db w')) rows /\
    map slot_fields rows = map (slot_of (record_id p)) (take k (steps p)) /\
    Sqlite.committed (db w') = Sqlite.committed (db w) /\
    self w' = p /\
    popups w' = (popups w ++ [error_notice Py.OperationalError])%list.
Proof.
  intros Hb Hall Hfs Hk p. unfold save_all.
  rewrite (bind_ok _ _ _ _ _ (save_current_run w Hb)). mrun.
  fold p. fold p in Hall. rewrite Hall. cbn [negb].
  set (w1 := World (db w) p (popups w)).
  assert (Hlen : length (steps p) = length (steps (self w)))
    by apply saved_length.
  destruct (decide (k < length (steps p))%nat) as [Hlt|Hge].
  - destruct (insert_loop_fault now (record_id p) (steps p) k 0%nat w1 rest Hfs Hlt)
      as (w2 & rows & Hrun & Hadd & Hf & Hcm & _ & Hs & Hp).
    rewrite Hrun. eexists _, rows. split; [reflexivity|]. cbn.
    rewrite Hs, Hp. repeat split; try apply Hadd; assumption.
  - assert (k = length (steps p)) as -> by lia.
    destruct (insert_loop_calm now (record_id p) (steps p) 0%nat w1)
      as (w2 & rows & Hrun & Hadd & Hf & _ & Hcm & Hfs2 & Hs & Hp).
    { eapply calm_replicate. exact Hfs. }
    rewrite Hrun.
    rewrite (conn_commit_fault w2 rest).
    2:{ rewrite Hfs2. cbn [w1 db]. rewrite Hfs.
        rewrite drop_app_length' by now rewrite length_replicate.
        reflexivity. }
    eexists _, rows. split; [reflexivity|]. cbn.
    rewrite Hs, Hp, firstn_all. repeat split; try apply Hadd; assumption.
Qed.

(** C2.  At the terminal save, with the selection on screen stored in
    its slot: if some slot has no reason, the save is refused with the
    "Required" notice and nothing at all changes in the database; if
    every slot has one (and the storage does not fail), the slots are
    inserted in one transaction, in the order of their numbers 1, 2, ...,
    the transaction is committed and the popup closes. *)
Theorem terminal_save (now : nat -> string) (w : world t) :
  in_bounds (self w) ->
  let p := saved (self w) in
  let w' := exec (save_all now) w in
  ((exists s, In s (steps p) /\ chosen s = false) ->
     save_all now w =
       (Ok tt, World (db w) p (popups w ++ [required_to_save]))) /\
  ((forall s, In s (steps p) -> chosen s = true) ->
   numbered (self w) ->
   calm (S (length (steps p))) (db w) ->
     fst (save_all now w) = Ok tt /\
     (exists rows,
        adds_remarks (Sqlite.pending (db w)) (Sqlite.pending (db w')) rows /\
        map slot_fields rows = map (slot_of (record_id p)) (steps p) /\
        map Sqlite.seq rows =
          map Z.of_nat (List.seq 1 (length (steps p)))) /\
     Sqlite.committed (db w') = Sqlite.pending (db w') /\
     is_open (self w') = false /\
     popups w' = (popups w ++ [saved_notice])%list).
Proof.
  intros Hb p w'. split.
  - intros Hex%not_forallb_chosen. now apply save_all_refused.
  - intros Hall%forallb_chosen Hnum Hc.
    destruct (save_all_commits now w Hb Hall Hc)
      as (w1 & rows & Hrun & Hadd & Hf & Hcm & Hs & Hp).
    subst w'. unfold exec. rewrite Hrun. cbn [fst snd].
    split; [reflexivity|]. split; [| split; [exact Hcm | split; [now rewrite Hs | exact Hp]]].
    exists rows. split; [exact Hadd|]. split; [exact Hf|].
    rewrite (slot_of_seq _ _ _ Hf). apply (numbered_saved _ Hnum).
Qed.

Lemma terminal_save_witness :
  let w := three_classified in
  let now := fun _ : nat => "2024-01-01 10:05:00" in
  in_bounds (self w) /\
  (forall s, In s (steps (saved (self w))) -> chosen s = true) /\
  numbered (self w) /\
  calm (S (length (steps (saved (self w))))) (db w) /\
  is_open (self (exec (save_all now) w)) = false /\
  length (query_slots 1 (db (exec (save_all now) w))) = 3%nat.
Proof.
  intros w now.
  assert (Hb : in_bounds (self w))
    by (vm_compute; split; [discriminate | reflexivity]).
  assert (Hall : forall s, In s (steps (saved (self w))) -> chosen s = true)
    by (apply forallb_chosen; reflexivity).
  assert (Hnum : numbered (self w)) by reflexivity.
  assert (Hc : calm (S (length (steps (saved (self w))))) (db w))
    by reflexivity.
  split; [exact Hb | split; [exact Hall | split; [exact Hnum | split; [exact Hc |]]]].
  destruct (proj2 (terminal_save now w Hb) Hall Hnum Hc)
    as (_ & _ & _ & Hopen & _).
  split; [exact Hopen | reflexivity].
Defined.




End Terminal_save.

(** ** Python builtins *)

Section Builtins.

Lemma lstrip_idem s : Py.lstrip (Py.lstrip s) = Py.lstrip s.
Proof.
  induction s as [|a s IH]; [reflexivity|]. cbn.
  destruct (Py.is_space a) eqn:E; [exact IH|]. cbn. now rewrite E.
Qed.

Lemma rstrip_idem s : Py.rstrip (Py.rstrip s) = Py.rstrip s.
Proof.
  induction s as [|a s IH]; [reflexivity|]. cbn.
  destruct (Py.rstrip s) as [|b r] eqn:E.
  - destruct (Py.is_space a) eqn:Ha; [reflexivity|]. cbn. now rewrite Ha.
  - cbn. cbn in IH. now rewrite IH.
Qed.

Lemma lstrip_rstrip s :
  Py.lstrip s = s -> Py.lstrip (Py.rstrip s) = Py.rstrip s.
Proof.
  destruct s as [|a s]; [reflexivity|]. cbn.
  destruct (Py.is_space a) eqn:Ha.
  - intros H. exfalso.
    assert (Hlen : forall t, (String.length (Py.lstrip t) <= String.length t)%nat).
    { induction t as [|b t IHt]; cbn; [lia|].
      destruct (Py.is_space b); cbn; lia. }
    specialize (Hlen s). rewrite H in Hlen. cbn in Hlen. lia.
  - intros _. destruct (Py.rstrip s); cbn; now rewrite Ha.
Qed.

(** Stripping twice is stripping once. *)
Lemma strip_idem s : Py.strip (Py.strip s) = Py.strip s.
Proof.
  unfold Py.strip.
  rewrite (lstrip_rstrip (Py.lstrip s)) by apply lstrip_idem.
  apply rstrip_idem.
Qed.

Lemma strip_empty : Py.strip "" = "".
Proof. reflexivity. Qed.

(** Text without white space is left alone. *)
Lemma strip_no_space s : Py.no_space s = true -> Py.strip s = s.
Proof.
  intros H. unfold Py.strip.
  assert (Hl : Py.lstrip s = s).
  { destruct s as [|a s]; [reflexivity|]. cbn in *.
    now destruct (Py.is_space a). }
  rewrite Hl. induction s as [|a s IH]; [reflexivity|].
  cbn in *. apply andb_true_iff in H as [Ha Hs].
  destruct (Py.is_space a); [discriminate|].
  rewrite IH; [now destruct s | assumption |].
  destruct s as [|b s]; [reflexivity|]. cbn in *.
  now destruct (Py.is_space b).
Qed.

Lemma no_space_uint d : Py.no_space (NilEmpty.string_of_uint d) = true.
Proof. induction d; cbn; auto. Qed.

Lemma no_space_str z : Py.no_space (Py.str z) = true.
Proof.
  assert (H : forall d, Py.no_space (NilZero.string_of_uint d) = true).
  { intros d. destruct d; first [reflexivity | exact (no_space_uint _)]. }
  unfold Py.str, NilZero.string_of_int.
  destruct (Z.to_int z) as [d|d]; [apply H|].
  change (Py.no_space (NilZero.string_of_uint d) = true). apply H.
Qed.

Lemma to_int_not_nil z : Z.to_int z <> Pos Nil /\ Z.to_int z <> Neg Nil.
Proof.
  destruct z as [|p|p]; cbn; split; try discriminate;
    intros [= H]; now apply (DecimalPos.Unsigned.to_uint_nonnil p).
Qed.

(** Reading back the text of an int gives the int. *)
Lemma int_str z : Py.int (Py.str z) = Some z.
Proof.
  unfold Py.int. rewrite (strip_no_space _ (no_space_str z)).
  unfold Py.str.
  destruct (to_int_not_nil z) as [H1 H2].
  assert (Hplus : forall r, NilZero.string_of_int (Z.to_int z) <> String "+" r).
  { intros r H.
    assert (G : NilZero.int_of_string (String "+" r) = Some (Z.to_int z))
      by (rewrite <- H; now apply NilZero.isi).
    cbn in G. destruct (NilEmpty.uint_of_string r); discriminate. }
  destruct (NilZero.string_of_int (Z.to_int z)) as [|a r] eqn:E.
  - pose proof (NilZero.isi _ H1 H2) as G. rewrite E in G. discriminate.
  - destruct (Ascii.eqb_spec a "+") as [->|Hne].
    + now elim (Hplus r).
    + assert (G : NilZero.int_of_string (String a r) = Some (Z.to_int z))
        by (rewrite <- E; now apply NilZero.isi).
      transitivity (option_map Z.of_int (NilZero.int_of_string (String a r))).
      * destruct a as [[] [] [] [] [] [] [] []]; try reflexivity.
        now elim Hne.
      * rewrite G. cbn. f_equal. apply DecimalZ.of_to.
Qed.

Lemma truthy_str z : Py.truthy (Py.str z) = true.
Proof.
  pose proof (int_str z) as H. destruct (Py.str z); [discriminate | reflexivity].
Qed.

Lemma int_or_str z d : Py.int_or (Py.str z) d = Some z.
Proof. unfold Py.int_or. now rewrite truthy_str, int_str. Qed.

(** [round_half_even] gives a nearest integer, the even one on a tie. *)
Lemma round_half_even_nearest num den :
  nearest_even num den (Py.round_half_even num den).
Proof.
  unfold nearest_even, Py.round_half_even.
  pose proof (Z.div_mod num (Zpos den) ltac:(lia)) as Hdm.
  pose proof (Z.mod_pos_bound num (Zpos den) ltac:(lia)) as Hb.
  set (q := num / Zpos den) in *. set (r := num mod Zpos den) in *.
  destruct (Z.compare_spec (2 * r) (Zpos den)) as [He|Hl|Hg].
  - destruct (Z.even q) eqn:Hq.
    + split; [lia | easy].
    + split; [lia|]. intros _. rewrite Z.even_add, Hq. reflexivity.
  - split; lia.
  - split; lia.
Qed.

End Builtins.

(** ** The entry form: [calculate] and [on_submit] *)

Section Entry.
Import NewEntryScreen.

Lemma get_price_calm n (w : world t) :
  calm (S n) (db w) ->
  get_price w =
    (Ok (current_price (db w)), World (after_read (db w)) (self w) (popups w)).
Proof.
  intros Hc. unfold get_price.
  rewrite (bind_ok _ _ _ _ _ (cur_execute_calm n Sqlite.select_price w Hc)).
  reflexivity.
Qed.

(** [calculate] on counts that pass its check. *)
Lemma calculate_valid w total online paytm partial cash final :
  Py.int_or (total_input (self w)) 0 = Some total ->
  Py.int_or (online_input (self w)) 0 = Some online ->
  Py.int_or (paytm_input (self w)) 0 = Some paytm ->
  Py.float_or (partial_input (self w)) zero = Some partial ->
  online + paytm <= total ->
  calm 1 (db w) ->
  Py.float_of_int (total - online - paytm) = Some cash ->
  Py.round (Py.fadd (Py.fmul cash (current_price (db w))) partial) 2
    = Some final ->
  calculate w =
    (Ok tt,
     World (after_read (db w)) (set_final_amount final (self w)) (popups w)).
Proof.
  intros Ht Ho Hp Hf Hle Hc Hcash Hfinal. unfold calculate. mrun.
  rewrite Ht, Ho, Hp, Hf. mrun.
  destruct (Z.gtb_spec (online + paytm) total); [lia|].
  rewrite (get_price_calm 0) by assumption. mrun.
  rewrite Hcash, Hfinal. reflexivity.
Qed.

(** [calculate] on counts that fail its check. *)
Lemma calculate_rejects w total online paytm partial :
  Py.int_or (total_input (self w)) 0 = Some total ->
  Py.int_or (online_input (self w)) 0 = Some online ->
  Py.int_or (paytm_input (self w)) 0 = Some paytm ->
  Py.float_or (partial_input (self w)) zero = Some partial ->
  online + paytm > total ->
  calculate w = (Ok tt, World (db w) (self w) (popups w ++ [input_error])).
Proof.
  intros Ht Ho Hp Hf Hgt. unfold calculate. mrun.
  rewrite Ht, Ho, Hp, Hf. mrun.
  destruct (Z.gtb_spec (online + paytm) total); [|lia].
  destruct w; reflexivity.
Qed.

(** [calculate] never raises, never writes and leaves the inputs. *)
Lemma calculate_total w :
  exists w',
    calculate w = (Ok tt, w') /\
    same_inputs (self w) (self w') /\
    read_only (db w) (db w').
Proof.
  unfold calculate. mrun.
  assert (Hsame : same_inputs (self w) (self w)) by (repeat split).
  assert (Hro : read_only (db w) (db w)) by (repeat split; now left).
  destruct (Py.int_or (total_input (self w)) 0); mrun; [|eauto].
  destruct (Py.int_or (online_input (self w)) 0); mrun; [|eauto].
  destruct (Py.int_or (paytm_input (self w)) 0); mrun; [|eauto].
  destruct (Py.float_or (partial_input (self w)) zero); mrun; [|eauto].
  destruct (_ >? _); mrun; [eauto|].
  unfold get_price, cur_execute. mrun.
  assert (Hro' : read_only (db w)
            (Sqlite.with_pending (db w) (Sqlite.pending (db w))
               (tail (Sqlite.faults (db w)))))
    by (repeat split; now right).
  destruct (Sqlite.faults (db w)) as [|[] fs] eqn:Hfs; mrun.
  - destruct (Py.float_of_int _); mrun; [|eauto].
    destruct (Py.round _ _); mrun; eexists; (split; [reflexivity|]); cbn;
      (split; [repeat split | exact Hro']).
  - eauto.
  - destruct (Py.float_of_int _); mrun; [|eauto].
    destruct (Py.round _ _); mrun; eexists; (split; [reflexivity|]); cbn;
      (split; [repeat split | exact Hro']).
Qed.

Lemma calm_read_only n c c' : read_only c c' -> calm (S n) c -> calm n c'.
Proof.
  intros (_ & _ & [H|H]) Hc; unfold calm; rewrite H.
  - now apply (calm_le (S n) n c); [lia|].
  - now apply calm_S in Hc.
Qed.

Lemma next_key_fresh counter keys k :
  In k keys -> k < Sqlite.next_key counter keys.
Proof.
  unfold Sqlite.next_key. induction keys as [|a keys IH]; [easy|].
  intros [->|H]; cbn; [lia|]. specialize (IH H). lia.
Qed.

Lemma find_fresh (l : list Sqlite.record_row) row k :
  Sqlite.id row = k ->
  (forall r, In r l -> Sqlite.id r < k) ->
  List.find (fun r => Sqlite.id r =? k) (l ++ [row]) = Some row.
Proof.
  intros <-. induction l as [|a l IH]; intros H; cbn.
  - now rewrite Z.eqb_refl.
  - destruct (Z.eqb_spec (Sqlite.id a) (Sqlite.id row)) as [E|_].
    + specialize (H a (or_introl eq_refl)). lia.
    + apply IH. intros r Hr. apply H. now right.
Qed.

Lemma float_or_default (w : world t) text :
  try_except (float_or text zero) (fun _ => mret zero) w =
    (Ok (default zero (Py.float_or text zero)), w).
Proof. unfold float_or. mrun. now destruct (Py.float_or text zero). Qed.

Lemma int_or_default (w : world t) text d :
  try_except (int_or text d) (fun _ => mret d) w =
    (Ok (default d (Py.int_or text d)), w).
Proof. unfold int_or. mrun. now destruct (Py.int_or text d). Qed.

(** [on_submit] when the counts are numbers and the storage holds: one
    record is inserted and committed, and the popup opens on it. *)
Lemma on_submit_run now w delivered online paytm partial :
  Py.int_or (total_input (self w)) 0 = Some delivered ->
  Py.int_or (online_input (self w)) 0 = Some online ->
  Py.int_or (paytm_input (self w)) 0 = Some paytm ->
  Py.float_or (partial_input (self w)) zero = Some partial ->
  calm 4 (db w) ->
  exists w' row,
    on_submit now w =
      (Ok (Some (ReconcilePopup.set_open true
                   (ReconcilePopup.init (Sqlite.id row) delivered
                      (Sqlite.empty_received row)))), w') /\
    Sqlite.records (Sqlite.pending (db w')) =
      (Sqlite.records (Sqlite.pending (db w)) ++ [row])%list /\
    Sqlite.remarks (Sqlite.pending (db w')) =
      Sqlite.remarks (Sqlite.pending (db w)) /\
    Sqlite.committed (db w') = Sqlite.pending (db w') /\
    (forall r, In r (Sqlite.records (Sqlite.pending (db w))) ->
       Sqlite.id r < Sqlite.id row) /\
    Sqlite.total_cyl row = delivered /\
    Sqlite.empty_received row = pre_empty (self w) delivered /\
    Sqlite.online_pay row = online /\
    Sqlite.paytm_pay row = paytm /\
    Sqlite.partial_amt row = partial /\
    Sqlite.final_amt row = final_amount (self w') /\
    Sqlite.date_time row = now /\
    same_inputs (self w) (self w') /\
    popups w' = popups (exec calculate w).
Proof.
  intros Hd Ho Hp Hf Hc.
  destruct (calculate_total w) as (w1 & Hcalc & Hsame & Hro).
  unfold exec. rewrite Hcalc. cbn [snd].
  pose proof Hsame as (He & Ht & Hem & Hon & Hpa & Hpr & Hco).
  pose proof Hro as (Hcm & Hpe & _).
  pose proof (calm_read_only 3 _ _ Hro Hc) as Hc1.
  unfold on_submit.
  rewrite (bind_ok _ _ _ _ _ (try_ok _ _ _ _ _ Hcalc)).
  mrun. rewrite Ht, Hd. mrun. rewrite Hem.
  fold (Py.int_or (empty_input (self w)) delivered).
  destruct (Py.float_or (collected_input (self w1)) zero) as [coll|];
    destruct (Py.int_or (empty_input (self w)) delivered) as [pe|] eqn:Epe;
    mrun; rewrite Hon, Ho, Hpa, Hp, Hpr, Hf; mrun;
    rewrite (cur_execute_calm 2) by assumption; mrun;
    rewrite (conn_commit_calm 1) by (now apply calm_step); mrun;
    (rewrite (cur_execute_calm 0);
     [| apply (calm_tail 1 (after_read (db w1)));
        [now apply calm_step | reflexivity]]);
    mrun; rewrite Hpe;
    match goal with
    | |- context [(Sqlite.records (Sqlite.pending (db w)) ++ [?r])%list] =>
        set (row := r)
    end;
    (erewrite (find_fresh (Sqlite.records (Sqlite.pending (db w))) row);
     [| reflexivity | intros r Hr; apply next_key_fresh; now apply in_map]);
    eexists _, row; (split; [reflexivity|]); cbn;
    unfold pre_empty; rewrite ?Epe; rewrite ?Hpe;
    repeat split; try assumption;
    intros r Hr; apply next_key_fresh; now apply in_map.
Qed.

(** C4, at the inputs the check is meant to stop.  [calculate] does
    refuse counts with [online + paytm > delivered], but [on_submit]
    goes on after the refusal: it inserts and commits the record all
    the same. *)
Theorem rejected_counts_are_stored now w delivered online paytm partial :
  Py.int_or (total_input (self w)) 0 = Some delivered ->
  Py.int_or (online_input (self w)) 0 = Some online ->
  Py.int_or (paytm_input (self w)) 0 = Some paytm ->
  Py.float_or (partial_input (self w)) zero = Some partial ->
  calm 4 (db w) ->
  online + paytm > delivered ->
  let w' := exec (on_submit now) w in
  popups w' = (popups w ++ [input_error])%list /\
  exists row,
    Sqlite.records (Sqlite.committed (db w')) =
      (Sqlite.records (Sqlite.pending (db w)) ++ [row])%list /\
    Sqlite.online_pay row + Sqlite.paytm_pay row > Sqlite.total_cyl row.
Proof.
  intros Hd Ho Hp Hf Hc Hgt w'.
  destruct (on_submit_run now w _ _ _ _ Hd Ho Hp Hf Hc)
    as (w1 & row & Hrun & Hrec & _ & Hcm & _ & Ht & _ & Hon & Hpa & _ & _ & _ & _ & Hpop).
  subst w'. unfold exec at 1 2. rewrite Hrun. cbn [snd]. split.
  - rewrite Hpop. unfold exec.
    now rewrite (calculate_rejects w _ _ _ _ Hd Ho Hp Hf Hgt).
  - exists row. rewrite Hcm. split; [exact Hrec | lia].
Qed.

Lemma rejected_counts_are_stored_witness :
  let w := entry_screen (entry_form "1" "0" "1" "1" "0") [] in
  let w' := exec (on_submit "2024-01-01 10:00:00") w in
  Py.int_or (total_input (self w)) 0 = Some 1 /\
  Py.int_or (online_input (self w)) 0 = Some 1 /\
  Py.int_or (paytm_input (self w)) 0 = Some 1 /\
  Py.float_or (partial_input (self w)) zero = Some zero /\
  calm 4 (db w) /\
  1 + 1 > 1 /\
  popups w' = [input_error] /\
  length (Sqlite.records (Sqlite.committed (db w'))) = 1%nat.
Proof.
  intros w w'.
  assert (Hd : Py.int_or (total_input (self w)) 0 = Some 1) by reflexivity.
  assert (Ho : Py.int_or (online_input (self w)) 0 = Some 1) by reflexivity.
  assert (Hp : Py.int_or (paytm_input (self w)) 0 = Some 1) by reflexivity.
  assert (Hf : Py.float_or (partial_input (self w)) zero = Some zero)
    by reflexivity.
  assert (Hc : calm 4 (db w)) by reflexivity.
  assert (Hgt : 1 + 1 > 1) by lia.
  repeat (split; [assumption|]).
  destruct (rejected_counts_are_stored "2024-01-01 10:00:00" w 1 1 1 zero
              Hd Ho Hp Hf Hc Hgt) as [Hpop _].
  split; [exact Hpop | reflexivity].
Defined.

Lemma scaled_nearest m e :
  let n := Py.scaled m e 2 in
  (0 <= e -> n = Zpos m * 2 ^ e * 100) /\
  (e < 0 -> nearest_even (Zpos m * 100) (Pos.pow 2 (Z.to_pos (- e))) n).
Proof.
  unfold Py.scaled. destruct e as [|k|k]; cbn zeta; split; try lia.
  intros _. change (10 ^ Z.of_nat 2) with 100.
  apply round_half_even_nearest.
Qed.

(** C5, as the code has it.  For counts with
    [online + paytm <= delivered] the amount due is what Python's
    [round(cash * price + partial, 2)] gives on binary64 floats: the
    exact value [m * 2^e] of the float sum is rounded to an integer
    number [n] of hundredths, ties to even, and the amount is the float
    nearest to [n / 100]. *)
Theorem amount_due_rounding w total online paytm partial cash final :
  Py.int_or (total_input (self w)) 0 = Some total ->
  Py.int_or (online_input (self w)) 0 = Some online ->
  Py.int_or (paytm_input (self w)) 0 = Some paytm ->
  Py.float_or (partial_input (self w)) zero = Some partial ->
  online + paytm <= total ->
  calm 1 (db w) ->
  Py.float_of_int (total - online - paytm) = Some cash ->
  let x := Py.fadd (Py.fmul cash (current_price (db w))) partial in
  Py.round x 2 = Some final ->
  fst (calculate w) = Ok tt /\
  final_amount (self (exec calculate w)) = final /\
  popups (exec calculate w) = popups w /\
  (forall s m e, x = S754_finite s m e ->
     exists n,
       final = Py.nearest s n 100 /\
       (0 <= e -> n = Zpos m * 2 ^ e * 100) /\
       (e < 0 ->
          nearest_even (Zpos m * 100) (Pos.pow 2 (Z.to_pos (- e))) n)).
Proof.
  intros Ht Ho Hp Hf Hle Hc Hcash x Hfinal.
  unfold exec.
  rewrite (calculate_valid w _ _ _ _ _ _ Ht Ho Hp Hf Hle Hc Hcash Hfinal).
  cbn [fst snd self popups]. repeat split.
  intros s m e Hx. rewrite Hx in Hfinal. unfold Py.round in Hfinal.
  exists (Py.scaled m e 2). split.
  - change (Z.to_pos (10 ^ Z.of_nat 2)) with 100%positive in Hfinal.
    destruct (Py.is_infinity _); congruence.
  - apply scaled_nearest.
Qed.

Lemma amount_due_rounding_witness :
  let w := entry_screen (entry_form "10" "7" "1" "2" "0.005") [] in
  Py.int_or (total_input (self w)) 0 = Some 10 /\
  Py.int_or (online_input (self w)) 0 = Some 1 /\
  Py.int_or (paytm_input (self w)) 0 = Some 2 /\
  Py.float_or (partial_input (self w)) zero = Py.float_of_text "0.005" /\
  1 + 2 <= 10 /\
  calm 1 (db w) /\
  Py.float_of_text "6142.51" = Some (final_amount (self (exec calculate w))).
Proof.
  intros w.
  assert (Ht : Py.int_or (total_input (self w)) 0 = Some 10) by reflexivity.
  assert (Ho : Py.int_or (online_input (self w)) 0 = Some 1) by reflexivity.
  assert (Hp : Py.int_or (paytm_input (self w)) 0 = Some 2) by reflexivity.
  assert (Hf : Py.float_or (partial_input (self w)) zero =
               Some (S754_finite false 5764607523034235 (-60)))
    by (vm_compute; reflexivity).
  assert (Hle : 1 + 2 <= 10) by lia.
  assert (Hc : calm 1 (db w)) by reflexivity.
  assert (Hcash : Py.float_of_int (10 - 1 - 2) =
                  Some (S754_finite false 7881299347898368 (-50)))
    by (vm_compute; reflexivity).
  assert (Hfinal :
    Py.round
      (Py.fadd (Py.fmul (S754_finite false 7881299347898368 (-50))
                  (current_price (db w)))
         (S754_finite false 5764607523034235 (-60))) 2 =
    Some (S754_finite false 6753761168730358 (-40)))
    by (vm_compute; reflexivity).
  repeat (split; [first [assumption | vm_compute; reflexivity]|]).
  rewrite (proj1 (proj2 (amount_due_rounding w 10 1 2 _ _ _
                            Ht Ho Hp Hf Hle Hc Hcash Hfinal))).
  vm_compute. reflexivity.
Defined.

(** C5 fails as stated.  On the specification's own example (price
    877.5, one cash cylinder, partial 0.005) half-up rounding of the
    decimal sum 877.505 gives 877.51, but the program computes 877.5:
    the float sum lies below the tie.  On an exact tie (partial 0.125,
    sum 877.625) half-up gives 877.63 and the program 877.62. *)
Lemma half_up_example_fails :
  let amount partial :=
    final_amount (self (exec calculate
                          (entry_screen (entry_form "1" "0" "0" "0" partial) []))) in
  Py.float_of_text "877.5" = Some (current_price (fresh_conn [])) /\
  Spec.amount_due_half_up 1 8775 10 5 1000 = 87751 /\
  Py.float_of_text "877.5" = Some (amount "0.005") /\
  Py.float_of_text "877.51" <> Some (amount "0.005") /\
  Spec.amount_due_half_up 1 8775 10 125 1000 = 87763 /\
  Py.float_of_text "877.62" = Some (amount "0.125") /\
  Py.float_of_text "877.63" <> Some (amount "0.125").
Proof. vm_compute. repeat split; discriminate. Qed.

(** C9.  At creation the stored empties count is the delivered count
    when the operator left the field empty or typed no number, and the
    number typed otherwise; the popup opens on the new record with that
    stored value in its editable field. *)
Theorem empties_default now w delivered online paytm partial :
  Py.int_or (total_input (self w)) 0 = Some delivered ->
  Py.int_or (online_input (self w)) 0 = Some online ->
  Py.int_or (paytm_input (self w)) 0 = Some paytm ->
  Py.float_or (partial_input (self w)) zero = Some partial ->
  calm 4 (db w) ->
  exists rp row,
    fst (on_submit now w) = Ok (Some rp) /\
    Sqlite.records (Sqlite.committed (db (exec (on_submit now) w))) =
      (Sqlite.records (Sqlite.pending (db w)) ++ [row])%list /\
    Sqlite.total_cyl row = delivered /\
    (empty_input (self w) = "" \/ Py.int (empty_input (self w)) = None ->
       Sqlite.empty_received row = delivered) /\
    (forall v, empty_input (self w) <> "" ->
       Py.int (empty_input (self w)) = Some v ->
       Sqlite.empty_received row = v) /\
    ReconcilePopup.record_id rp = Sqlite.id row /\
    ReconcilePopup.delivered rp = delivered /\
    ReconcilePopup.empty_received rp = Sqlite.empty_received row /\
    ReconcilePopup.empty_edit rp = Py.str (Sqlite.empty_received row) /\
    Py.int_or (ReconcilePopup.empty_edit rp) 0 =
      Some (Sqlite.empty_received row) /\
    ReconcilePopup.is_open rp = true.
Proof.
  intros Hd Ho Hp Hf Hc.
  destruct (on_submit_run now w _ _ _ _ Hd Ho Hp Hf Hc)
    as (w1 & row & Hrun & Hrec & _ & Hcm & _ & Ht & He & _).
  eexists _, row. unfold exec. rewrite Hrun. cbn [fst snd].
  split; [reflexivity|]. rewrite Hcm. split; [exact Hrec|].
  split; [exact Ht|]. rewrite He. unfold pre_empty, Py.int_or.
  split; [| split].
  - intros [E|E].
    + now rewrite E.
    + rewrite E. now destruct (Py.truthy _).
  - intros v Hne Hv. rewrite Hv.
    destruct (empty_input (self w)); [now elim Hne | reflexivity].
  - cbn. repeat split. apply int_or_str.
Qed.

Lemma empties_default_witness :
  let w := entry_screen (entry_form "10" "" "0" "0" "0") [] in
  Py.int_or (total_input (self w)) 0 = Some 10 /\
  Py.int_or (online_input (self w)) 0 = Some 0 /\
  Py.int_or (paytm_input (self w)) 0 = Some 0 /\
  Py.float_or (partial_input (self w)) zero = Some zero /\
  calm 4 (db w) /\
  exists rp, fst (on_submit "2024-01-01 10:00:00" w) = Ok (Some rp) /\
             ReconcilePopup.empty_received rp = 10.
Proof.
  intros w.
  assert (Hd : Py.int_or (total_input (self w)) 0 = Some 10) by reflexivity.
  assert (Ho : Py.int_or (online_input (self w)) 0 = Some 0) by reflexivity.
  assert (Hp : Py.int_or (paytm_input (self w)) 0 = Some 0) by reflexivity.
  assert (Hf : Py.float_or (partial_input (self w)) zero = Some zero)
    by reflexivity.
  assert (Hc : calm 4 (db w)) by reflexivity.
  repeat (split; [assumption|]).
  destruct (empties_default "2024-01-01 10:00:00" w 10 0 0 zero Hd Ho Hp Hf Hc)
    as (rp & row & Hrun & _ & _ & Hblank & _ & _ & _ & Her & _).
  exists rp. split; [exact Hrun|].
  rewrite Her. apply Hblank. now left.
Defined.

End Entry.

(** ** The table of a day: [load_records] *)

Section View.
Import ViewByDateScreen.

Lemma like_any t : Sqlite.like "%" t = true.
Proof.
  induction t as [|c t IH]; [reflexivity|].
  cbn in *. exact IH.
Qed.

Lemma date_char_match p c :
  date_char p = true ->
  (Ascii.eqb p "%" = false) /\
  (Ascii.eqb p "_" || Ascii.eqb (Sqlite.lower p) (Sqlite.lower c)) =
    (if Ascii.ascii_dec p c then true else false).
Proof.
  intros Hp.
  destruct p as [[] [] [] [] [] [] [] []]; try discriminate Hp; clear Hp;
    (split; [reflexivity|]);
    destruct c as [[] [] [] [] [] [] [] []];
    match goal with
    | |- _ = (if ?d then _ else _) => destruct d; [reflexivity || discriminate | reflexivity || congruence]
    end.
Qed.

(** For a date, the LIKE pattern [date%] selects the texts that start
    with the date. *)
Lemma like_date d t :
  date_text d = true -> Sqlite.like (d ++ "%") t = String.prefix d t.
Proof.
  revert t. induction d as [|p d IH]; intros t Hd.
  - cbn [append]. rewrite like_any. now destruct t.
  - cbn in Hd. apply andb_true_iff in Hd as [Hp Hd].
    cbn [append Sqlite.like].
    destruct t as [|c t]; cbn [String.prefix].
    + now destruct (date_char_match p "a"%char Hp) as [-> _].
    + destruct (date_char_match p c Hp) as [-> ->].
      rewrite (IH t Hd). now destruct (Ascii.ascii_dec p c).
Qed.

#[local] Instance key_le_total {A} (key : A -> Z) : Total (Sqlite.key_le key).
Proof. intros x y. unfold Sqlite.key_le. lia. Qed.

Lemma order_by_sorted {A} (key : A -> Z) l :
  Sorted (fun a b => key a <= key b) (Sqlite.order_by key l).
Proof. apply (Sorted_merge_sort (Sqlite.key_le key)). Qed.

Lemma order_by_perm {A} (key : A -> Z) l :
  Permutation (Sqlite.order_by key l) l.
Proof. apply merge_sort_Permutation. Qed.

Lemma render_rows_calm rows : forall idx w,
  calm (length rows) (db w) ->
  exists w',
    render_rows idx rows w =
      (Ok (lines_of (Sqlite.pending (db w)) idx rows), w') /\
    Sqlite.pending (db w') = Sqlite.pending (db w) /\
    Sqlite.committed (db w') = Sqlite.committed (db w).
Proof.
  induction rows as [|r rows IH]; intros idx w Hc.
  - exists w. now cbn.
  - cbn [render_rows length] in *.
    rewrite (bind_ok _ _ _ _ _
               (cur_execute_calm (length rows)
                  (Sqlite.select_remarks (Sqlite.id r)) w Hc)).
    cbn [fst snd Sqlite.select_remarks].
    match goal with
    | |- context [mbind _ (render_rows _ _) ?x] => set (w1 := x)
    end.
    destruct (IH (idx + 1) w1) as (w2 & Hrun & Hp & Hcm);
      [subst w1; now apply calm_step|].
    rewrite (bind_ok _ _ _ _ _ Hrun). exists w2. split; [reflexivity|].
    now rewrite Hp, Hcm.
Qed.

Lemma lines_of_rec t rows : forall idx, map rec (lines_of t idx rows) = rows.
Proof. induction rows as [|r rows IH]; intros idx; cbn; now rewrite ?IH. Qed.

Lemma lines_of_sr t rows : forall n,
  map sr (lines_of t (Z.of_nat n) rows) =
  map Z.of_nat (List.seq n (length rows)).
Proof.
  induction rows as [|r rows IH]; intros n; cbn; [reflexivity|].
  f_equal. replace (Z.of_nat n + 1) with (Z.of_nat (S n)) by lia. apply IH.
Qed.

Lemma lines_of_length t rows : forall idx,
  length (lines_of t idx rows) = length rows.
Proof. induction rows as [|r rows IH]; intros idx; cbn; now rewrite ?IH. Qed.

Lemma lines_of_in t rows line : forall idx,
  In line (lines_of t idx rows) -> exists i, line = line_of t i (rec line).
Proof.
  induction rows as [|r rows IH]; intros idx; cbn; [easy|].
  intros [<-|H]; [now exists idx | eauto].
Qed.

(** On a stripped name the Remarks cell shows the slot as the
    specification words it. *)
Lemma remark_text_stripped r :
  Py.strip (Sqlite.consumer_name r) = Sqlite.consumer_name r ->
  remark_text (Sqlite.remark_type r, Sqlite.consumer_name r) = slot_text r.
Proof.
  intros H. unfold remark_text, slot_text. rewrite H.
  now destruct (Sqlite.consumer_name r).
Qed.

(** C8.  For a date, [load_records] lists the records whose time stamp
    starts with that date, in ascending order of their ids, and the
    Remarks cell of each is the list of its slots in ascending order of
    their sequence numbers, each written "reason: name", or just
    "reason" when the name is empty. *)
Theorem list_for_date (d : string) (w : world unit) :
  date_text d = true ->
  names_stripped (Sqlite.pending (db w)) ->
  calm (S (length (Sqlite.records (Sqlite.pending (db w))))) (db w) ->
  exists lines,
    fst (load_records d w) = Ok lines /\
    Permutation (map rec lines)
      (List.filter (fun r => String.prefix d (Sqlite.date_time r))
         (Sqlite.records (Sqlite.pending (db w)))) /\
    Sorted (fun a b => Sqlite.id a <= Sqlite.id b) (map rec lines) /\
    map sr lines = map Z.of_nat (List.seq 1 (length lines)) /\
    forall line, In line lines ->
      exists slots,
        Permutation slots
          (List.filter
             (fun r => Sqlite.record_id r =? Sqlite.id (rec line))
             (Sqlite.remarks (Sqlite.pending (db w)))) /\
        Sorted (fun a b => Sqlite.seq a <= Sqlite.seq b) slots /\
        remarks_text line = Py.join ", " (map slot_text slots).
Proof.
  intros Hd Hnames Hc. unfold load_records. cbn zeta.
  rewrite (bind_ok _ _ _ _ _
             (cur_execute_calm _ (Sqlite.select_by_date (d ++ "%")) w Hc)).
  cbn [fst snd Sqlite.select_by_date].
  set (t := Sqlite.pending (db w)).
  set (rows := Sqlite.order_by Sqlite.id _).
  assert (Hfilter :
    List.filter (fun r => Sqlite.like (d ++ "%") (Sqlite.date_time r))
      (Sqlite.records t) =
    List.filter (fun r => String.prefix d (Sqlite.date_time r))
      (Sqlite.records t)).
  { apply filter_ext. intros r. now apply like_date. }
  assert (Hperm : Permutation rows
    (List.filter (fun r => String.prefix d (Sqlite.date_time r))
       (Sqlite.records t))).
  { rewrite <- Hfilter. apply order_by_perm. }
  match goal with
  | |- context [render_rows 1 rows ?x] => set (w1 := x)
  end.
  destruct (render_rows_calm rows 1 w1) as (w2 & Hrun & _).
  { subst w1. cbn [db]. eapply calm_le; [|eapply calm_step; exact Hc].
    rewrite (Permutation_length Hperm). apply List.filter_length_le. }
  rewrite Hrun. cbn [fst]. change (Sqlite.pending (db w1)) with t.
  exists (lines_of t 1 rows). split; [reflexivity|].
  rewrite lines_of_rec, lines_of_length.
  split; [exact Hperm|]. split; [apply order_by_sorted|].
  split; [apply (lines_of_sr t rows 1)|].
  intros line Hin. apply lines_of_in in Hin as [i ->].
  exists (slots_of (Sqlite.id (rec (line_of t i (rec line)))) t).
  split; [apply order_by_perm|]. split; [apply order_by_sorted|].
  cbn. f_equal. rewrite map_map. apply map_ext_in. intros r Hr.
  apply remark_text_stripped, Hnames.
  apply (Permutation_in _ (order_by_perm _ _)) in Hr.
  now apply filter_In in Hr.
Qed.

(** A test for [names_stripped]. *)
Lemma names_stripped_check t :
  forallb (fun r => String.eqb (Py.strip (Sqlite.consumer_name r))
                      (Sqlite.consumer_name r)) (Sqlite.remarks t) = true ->
  names_stripped t.
Proof.
  intros H r Hr. rewrite forallb_forall in H.
  now apply String.eqb_eq, H.
Qed.

Lemma list_for_date_witness :
  let w := World (db (exec (ReconcilePopup.save_all
                              (fun _ => "2024-01-01 10:05:00"))
                        three_classified)) tt [] in
  date_text "2024-01-01" = true /\
  names_stripped (Sqlite.pending (db w)) /\
  calm (S (length (Sqlite.records (Sqlite.pending (db w))))) (db w) /\
  exists lines,
    fst (load_records "2024-01-01" w) = Ok lines /\
    map sr lines = map Z.of_nat (List.seq 1 (length lines)).
Proof.
  intros w.
  assert (Hd : date_text "2024-01-01" = true) by (vm_compute; reflexivity).
  assert (Hn : names_stripped (Sqlite.pending (db w)))
    by (apply names_stripped_check; vm_compute; reflexivity).
  assert (Hc : calm (S (length (Sqlite.records (Sqlite.pending (db w)))))
                 (db w)) by (vm_compute; reflexivity).
  split; [exact Hd | split; [exact Hn | split; [exact Hc |]]].
  destruct (list_for_date "2024-01-01" w Hd Hn Hc)
    as (lines & Hrun & _ & _ & Hsr & _).
  exists lines. split; [exact Hrun | exact Hsr].
Defined.

End View.

(** ** Stored names are stripped *)

Section Names.
Import ReconcilePopup.

Lemma tidy_saved p : tidy p -> tidy (saved p).
Proof.
  unfold tidy. cbn. intros H s Hs.
  apply list_elem_of_In, list_elem_of_lookup in Hs as [i Hi].
  destruct (decide (i = Z.to_nat (current_index p))) as [->|Hne].
  - rewrite list_lookup_alter_eq in Hi.
    destruct (steps p !! _); [|discriminate].
    injection Hi as <-. cbn. apply strip_idem.
  - rewrite list_lookup_alter_ne in Hi by congruence.
    apply H, list_elem_of_In, list_elem_of_lookup. eauto.
Qed.

Lemma faults_cases n fs :
  forallb negb (take n fs) = true \/
  exists k rest, (k < n)%nat /\ fs = (replicate k false ++ true :: rest)%list.
Proof.
  revert fs. induction n as [|n IH]; intros fs; [now left|].
  destruct fs as [|[] fs]; [now left | |].
  - right. exists 0%nat, fs. split; [lia | reflexivity].
  - destruct (IH fs) as [H|(k & rest & Hk & ->)]; [now left|].
    right. exists (S k), rest. split; [lia | reflexivity].
Qed.

Lemma names_added t t' rows rid l :
  names_stripped t -> adds_remarks t t' rows ->
  map slot_fields rows = map (slot_of rid) l ->
  (forall s, In s l -> Py.strip (consumer s) = consumer s) ->
  names_stripped t'.
Proof.
  intros Ht (Hr & _) Hf Hl r Hin. rewrite Hr in Hin.
  apply in_app_or in Hin as [Hin|Hin]; [now apply Ht|].
  assert (Hc : In (Sqlite.consumer_name r) (map consumer l)).
  { replace (map consumer l) with (map snd (map (slot_of rid) l))
      by (rewrite map_map; reflexivity).
    rewrite <- Hf, map_map. now apply (in_map (fun x => snd (slot_fields x))). }
  apply in_map_iff in Hc as (s & <- & Hs). now apply Hl.
Qed.

(** Whatever the storage does, [save_all] on a tidy popup leaves only
    stripped names in the table. *)
Lemma save_all_names now w :
  in_bounds (self w) -> tidy (self w) ->
  names_stripped (Sqlite.pending (db w)) ->
  names_stripped (Sqlite.pending (db (exec (save_all now) w))).
Proof.
  intros Hb Ht Hn. pose proof (tidy_saved _ Ht) as Ht'.
  destruct (forallb chosen (steps (saved (self w)))) eqn:Hall.
  - destruct (faults_cases (S (length (steps (saved (self w)))))
                (Sqlite.faults (db w))) as [Hc|(k & rest & Hk & Hfs)].
    + destruct (save_all_commits now w Hb Hall Hc)
        as (w' & rows & Hrun & Hadd & Hf & _).
      unfold exec. rewrite Hrun. cbn [snd].
      eapply names_added; eauto.
    + rewrite saved_length in Hk.
      destruct (save_all_interrupted now w k rest Hb Hall Hfs ltac:(lia))
        as (w' & rows & Hrun & Hadd & Hf & _).
      unfold exec. rewrite Hrun. cbn [snd].
      eapply names_added; eauto.
      intros s Hs. apply Ht'.
      apply list_elem_of_In in Hs. apply list_elem_of_In.
      now apply (subseteq_take k).
  - unfold exec. now rewrite (save_all_refused now w Hb Hall).
Qed.

End Names.

(** ** What holds of every popup the program can reach *)

Section Reachable.
Import ReconcilePopup.

(** The slot screen opens on the first slot, with the slots numbered and
    no name entered. *)
Lemma prepared_popup w E :
  Py.int_or (empty_edit (self w)) 0 = Some E ->
  calm 2 (db w) ->
  E <> delivered (self w) ->
  let p := self (exec update_and_prepare w) in
  in_bounds p /\ numbered p /\ tidy p /\ reason_selected p = false.
Proof.
  intros HE Hc Hne p.
  destruct (update_and_prepare_run w E HE Hc)
    as (w' & Hrun & Hsteps & _ & _ & _ & Hidx & _).
  specialize (Hidx ltac:(lia)).
  assert (Hp : p = self w') by (unfold p, exec; now rewrite Hrun).
  assert (Hlen : length (steps p) = Z.abs_nat (E - delivered (self w))).
  { rewrite Hp, Hsteps.
    destruct (_ <? 0) eqn:Hlt; rewrite length_map, range_length; lia. }
  split; [| split; [| split]].
  - unfold in_bounds. rewrite Hlen, Hp, Hidx. lia.
  - unfold numbered. rewrite Hlen, Hp, Hsteps.
    destruct (Z.ltb_spec (E - delivered (self w)) 0);
      rewrite new_steps_seq; do 2 f_equal; lia.
  - unfold tidy. rewrite Hp, Hsteps. intros s Hs.
    destruct (_ <? 0); apply in_map_iff in Hs as (i & <- & _); reflexivity.
  - rewrite Hp. clear -Hrun HE Hc Hne.
    unfold update_and_prepare in Hrun. revert Hrun. mrun. rewrite HE.
    rewrite (cur_execute_calm 1) by assumption. mrun.
    rewrite (conn_commit_calm 0) by (now apply calm_step). mrun.
    destruct (Z.eqb_spec (E - delivered (self w)) 0) as [|_]; [lia|].
    destruct (Z.ltb_spec (E - delivered (self w)) 0).
    + destruct (range_cons (Z.abs (E - delivered (self w)))) as [l Hl]; [lia|].
      erewrite open_steps_ui_run by (cbn; rewrite Hl; reflexivity).
      now intros [= <-].
    + destruct (range_cons (E - delivered (self w))) as [l Hl]; [lia|].
      erewrite open_steps_ui_run by (cbn; rewrite Hl; reflexivity).
      now intros [= <-].
Qed.

Lemma handle_steps e w :
  in_bounds (self w) ->
  steps (self (exec (handle e) w)) = steps (self w) \/
  steps (self (exec (handle e) w)) = steps (saved (self w)).
Proof.
  intros Hb. unfold exec. destruct e as [| |r|s]; cbn [handle].
  - destruct (reason_selected (self w)) eqn:Hsel.
    + destruct (go_next_moves w Hb Hsel) as (s & _ & ->). now right.
    + rewrite (go_next_blocked w Hb Hsel). now right.
  - destruct (go_prev_run w Hb) as (s & _ & ->). now right.
  - left. cbn. now destruct (existsb _ _).
  - now left.
Qed.

(** Nothing the operator does on the slot screen renumbers the slots or
    leaves an unstripped name in one. *)
Lemma session_keeps l : forall w,
  in_bounds (self w) -> numbered (self w) -> tidy (self w) ->
  let p := self (exec (session l) w) in
  in_bounds p /\ numbered p /\ tidy p.
Proof.
  unfold session. generalize 0%nat.
  induction l as [|e l IH]; intros i w Hb Hn Ht; [now cbn|].
  destruct (handle_in_bounds e w Hb) as (w1 & Hrun & Hb1 & _).
  pose proof (handle_steps e w Hb) as Hst.
  unfold exec in Hst. rewrite Hrun in Hst. cbn [snd] in Hst.
  unfold exec. cbn [for_each]. rewrite (bind_ok _ _ _ _ _ Hrun).
  apply (IH (S i) w1 Hb1).
  - unfold numbered in *. destruct Hst as [-> | ->]; [exact Hn|].
    exact (numbered_saved _ Hn).
  - unfold tidy in *. destruct Hst as [-> | ->]; [exact Ht|].
    exact (tidy_saved _ Ht).
Qed.

End Reachable.

(** * Further properties of the program *)

(** ** Confirming the empties count: refusals and failures *)

Section Update_failures.
Import ReconcilePopup.

(** X1.  When the empties field does not hold a number,
    [update_and_prepare] shows "Invalid empties count" and changes nothing
    else: no SQL is executed and the popup object is as before. *)
Theorem unreadable_empties_change_nothing (w : world t) :
  Py.int_or (empty_edit (self w)) 0 = None ->
  update_and_prepare w =
    (Ok tt, World (db w) (self w) (popups w ++ [invalid_empties])).
Proof.
  intros H. unfold update_and_prepare. mrun. rewrite H. reflexivity.
Qed.

Lemma unreadable_empties_change_nothing_witness :
  let w := exec (edit_empties "7 or 8")
             (submitted (entry_form "10" "7" "0" "0" "0") []) in
  Py.int_or (empty_edit (self w)) 0 = None /\
  steps (self (exec update_and_prepare w)) = [] /\
  popups (exec update_and_prepare w) = [invalid_empties].
Proof.
  intros w.
  assert (H : Py.int_or (empty_edit (self w)) 0 = None) by reflexivity.
  split; [exact H|].
  unfold exec.
  rewrite (unreadable_empties_change_nothing w H).
  split; reflexivity.
Defined.



End Update_failures.

(** ** The confirmed count in the store *)

Section Update_store.
Import ReconcilePopup.

Lemma find_updated E rid l r :
  In r l -> Sqlite.id r = rid ->
  option_map Sqlite.empty_received
    (List.find (fun r => Sqlite.id r =? rid)
       (map (fun r => if Sqlite.id r =? rid
                      then Sqlite.set_empty_received E r else r) l)) = Some E.
Proof.
  intros Hin Hid. induction l as [|a l IH]; [easy|]. cbn.
  destruct (Z.eqb_spec (Sqlite.id a) rid) as [Ha|Ha]; cbn.
  - now rewrite Ha, Z.eqb_refl.
  - destruct (Z.eqb_spec (Sqlite.id a) rid); [easy|].
    destruct Hin as [->|Hin]; [easy | now apply IH].
Qed.

(** X3.  A successful [update_and_prepare] writes the confirmed count [E]
    to the record of the popup and commits it: reading the record back
    gives [E], every other record and every other column is as before,
    and the remarks are untouched. *)
Theorem confirmed_count_is_stored (w : world t) (E : Z) :
  Py.int_or (empty_edit (self w)) 0 = Some E ->
  calm 2 (db w) ->
  let rid := record_id (self w) in
  let old := Sqlite.pending (db w) in
  let new := Sqlite.committed (db (exec update_and_prepare w)) in
  ((exists r, In r (Sqlite.records old) /\ Sqlite.id r = rid) ->
     fst (Sqlite.select_empty_received rid new) = Some E) /\
  Forall2 (fun r r' =>
             Sqlite.set_empty_received 0 r' = Sqlite.set_empty_received 0 r /\
             (Sqlite.id r <> rid -> r' = r))
    (Sqlite.records old) (Sqlite.records new) /\
  Sqlite.remarks new = Sqlite.remarks old.
Proof.
  intros HE Hc rid old new.
  destruct (update_and_prepare_run w E HE Hc)
    as (w' & Hrun & _ & _ & _ & _ & _ & Hp & Hcm & _).
  subst new. unfold exec. rewrite Hrun. cbn [snd]. rewrite Hcm, Hp.
  cbn [snd Sqlite.update_empty_received Sqlite.records Sqlite.remarks
       Sqlite.select_empty_received fst].
  split; [| split; [|reflexivity]].
  - intros (r & Hin & Hid). now apply (find_updated E rid _ r).
  - fold old. induction (Sqlite.records old) as [|a l IH]; cbn; constructor;
      [|exact IH].
    fold rid. destruct (Z.eqb_spec (Sqlite.id a) rid); [|easy].
    split; [reflexivity | easy].
Qed.

Lemma confirmed_count_is_stored_witness :
  let w := exec (edit_empties "8")
             (submitted (entry_form "10" "7" "0" "0" "0") []) in
  Py.int_or (empty_edit (self w)) 0 = Some 8 /\
  calm 2 (db w) /\
  fst (Sqlite.select_empty_received 1
         (Sqlite.committed (db (exec update_and_prepare w)))) = Some 8.
Proof.
  intros w.
  assert (HE : Py.int_or (empty_edit (self w)) 0 = Some 8) by reflexivity.
  assert (Hc : calm 2 (db w)) by reflexivity.
  split; [exact HE | split; [exact Hc |]].
  apply (proj1 (confirmed_count_is_stored w 8 HE Hc)).
  eexists. split; [left; reflexivity | reflexivity].
Defined.

End Update_store.

(** ** Going forward and coming back *)

Section There_and_back.
Import ReconcilePopup.

(** X4.  With a reason picked and a slot to go to, Next stores the picked
    reason and the stripped name in the slot on screen and moves one slot
    forward; Previous then comes back to that slot and shows the reason
    and the name that were stored.  Nothing is written to the database
    and no notice is shown. *)
Theorem next_then_previous (w : world t) :
  in_bounds (self w) ->
  reason_selected (self w) = true ->
  current_index (self w) + 1 < Z.of_nat (length (steps (self w))) ->
  let i := current_index (self w) in
  let w1 := exec go_next w in
  let w2 := exec go_prev w1 in
  current_index (self w1) = i + 1 /\
  (exists s, steps (self w) !! Z.to_nat i = Some s /\
             steps (self w1) !! Z.to_nat i = Some (answer (self w) s) /\
             steps (self w2) !! Z.to_nat i = Some (answer (self w) s)) /\
  current_index (self w2) = i /\
  drop_text (self w2) = drop_text (self w) /\
  name_input (self w2) = Py.strip (name_input (self w)) /\
  db w2 = db w /\ popups w2 = popups w.
Proof.
  intros Hb Hsel Hnext i w1 w2.
  destruct (in_bounds_lookup _ Hb) as [s Hs].
  destruct (go_next_moves w Hb Hsel) as (s1 & Hs1 & Hrun1).
  assert (Hi1 : Z.min (current_index (self w) + 1)
                  (Z.of_nat (length (steps (self w))) - 1) = i + 1)
    by (unfold i; lia).
  rewrite Hi1 in Hs1, Hrun1.
  assert (Hw1 : w1 = World (db w)
                  (shown s1 (set_current_index (i + 1) (saved (self w))))
                  (popups w))
    by (unfold w1, exec; now rewrite Hrun1).
  assert (Hb1 : in_bounds (self w1)).
  { rewrite Hw1. unfold in_bounds. cbn. rewrite length_alter.
    unfold in_bounds in Hb. lia. }
  destruct (go_prev_run w1 Hb1) as (s2 & Hs2 & Hrun2).
  assert (Hsteps1 : steps (self w1) = steps (saved (self w)))
    by (rewrite Hw1; reflexivity).
  assert (Hidx1 : current_index (self w1) = i + 1)
    by (rewrite Hw1; reflexivity).
  assert (Hat : steps (self w1) !! Z.to_nat i = Some (answer (self w) s))
    by (rewrite Hsteps1; exact (saved_current (self w) s Hs)).
  assert (Hi2 : Z.max (current_index (self w1) - 1) 0 = i)
    by (rewrite Hidx1; unfold i, in_bounds in *; lia).
  rewrite Hi2 in Hs2, Hrun2.
  assert (Hat2 : steps (saved (self w1)) !! Z.to_nat i =
                 Some (answer (self w) s)).
  { cbn [saved steps set_steps set_counts].
    rewrite list_lookup_alter_ne; [exact Hat|].
    rewrite Hidx1. unfold i, in_bounds in *. lia. }
  assert (Hs2' : s2 = answer (self w) s) by congruence.
  assert (Hw2 : w2 = World (db w1)
                  (shown s2 (set_current_index i (saved (self w1))))
                  (popups w1))
    by (unfold w2, exec; now rewrite Hrun2).
  split; [exact Hidx1|]. split.
  - exists s. split; [exact Hs|]. split; [exact Hat|].
    rewrite Hw2. cbn [self shown set_widgets set_current_index steps].
    exact Hat2.
  - rewrite Hw2, Hs2'. cbn [self db popups shown set_widgets current_index
                             set_current_index drop_text name_input].
    rewrite chosen_answer, Hsel. rewrite Hw1. cbn [db popups].
    repeat split.
    unfold answer, reason_selected in *. cbn.
    destruct (String.eqb (drop_text (self w)) "Choose reason");
      [discriminate | reflexivity].
Qed.

Lemma next_then_previous_witness :
  let w := exec (session [PickReason "NC"; TypeName "  Asha "]) three_missing in
  in_bounds (self w) /\
  reason_selected (self w) = true /\
  current_index (self w) + 1 < Z.of_nat (length (steps (self w))) /\
  name_input (self (exec go_prev (exec go_next w))) = "Asha".
Proof.
  intros w.
  assert (Hb : in_bounds (self w))
    by (vm_compute; split; [discriminate | reflexivity]).
  assert (Hsel : reason_selected (self w) = true) by reflexivity.
  assert (Hn : current_index (self w) + 1 < Z.of_nat (length (steps (self w))))
    by (vm_compute; reflexivity).
  split; [exact Hb | split; [exact Hsel | split; [exact Hn |]]].
  destruct (next_then_previous w Hb Hsel Hn) as (_ & _ & _ & _ & Hname & _).
  rewrite Hname. vm_compute. reflexivity.
Defined.

End There_and_back.

(** ** Submitting the entry form: refusals and failures *)

Section Submit_failures.
Import NewEntryScreen.

(** X5.  When the total is not a number, [on_submit] raises [ValueError]
    after [calculate] has shown its "Invalid input" notice: no SQL is
    executed, nothing is stored and no reconciliation popup opens. *)
Theorem unreadable_total_stores_nothing (now : string) (w : world t) :
  Py.int_or (total_input (self w)) 0 = None ->
  on_submit now w =
    (Raise Py.ValueError,
     World (db w) (self w) (popups w ++ [invalid_input Py.ValueError])).
Proof.
  intros H. unfold on_submit, calculate. mrun. rewrite H. mrun.
  destruct (Py.float_or (collected_input (self w)) zero); mrun;
    rewrite H; reflexivity.
Qed.

Lemma unreadable_total_stores_nothing_witness :
  let w := entry_screen (entry_form "ten" "7" "0" "0" "0") [] in
  Py.int_or (total_input (self w)) 0 = None /\
  fst (on_submit "2024-01-01 10:00:00" w) = Raise Py.ValueError /\
  db (exec (on_submit "2024-01-01 10:00:00") w) = db w.
Proof.
  intros w.
  assert (H : Py.int_or (total_input (self w)) 0 = None) by reflexivity.
  split; [exact H|]. unfold exec.
  rewrite (unreadable_total_stores_nothing "2024-01-01 10:00:00" w H).
  split; reflexivity.
Defined.

(** X6.  When the total is a number but the online count, the PayTM count
    or the partial amount is not, [on_submit] shows "Invalid input", then
    "DB Error", and returns without a popup: no SQL is executed and
    nothing is stored. *)
Theorem unreadable_count_stores_nothing (now : string) (w : world t)
    (delivered : Z) :
  Py.int_or (total_input (self w)) 0 = Some delivered ->
  Py.int_or (online_input (self w)) 0 = None \/
  Py.int_or (paytm_input (self w)) 0 = None \/
  Py.float_or (partial_input (self w)) zero = None ->
  on_submit now w =
    (Ok None,
     World (db w) (self w)
       (popups w ++ [invalid_input Py.ValueError; db_error Py.ValueError])).
Proof.
  intros Hd Hbad. unfold on_submit, calculate. mrun. rewrite ?Hd. mrun.
  repeat match goal with
    | |- context [match Py.int_or ?t ?d with _ => _ end] =>
        destruct (Py.int_or t d) eqn:?; mrun; rewrite ?Hd; mrun
    | |- context [match Py.float_or ?t ?d with _ => _ end] =>
        destruct (Py.float_or t d) eqn:?; mrun; rewrite ?Hd; mrun
    end.
  all: try (destruct Hbad as [?|[?|?]]; congruence).
  all: rewrite <- app_assoc; reflexivity.
Qed.

Lemma unreadable_count_stores_nothing_witness :
  let w := entry_screen (entry_form "10" "7" "two" "0" "0") [] in
  Py.int_or (total_input (self w)) 0 = Some 10 /\
  Py.int_or (online_input (self w)) 0 = None /\
  fst (on_submit "2024-01-01 10:00:00" w) = Ok None /\
  db (exec (on_submit "2024-01-01 10:00:00") w) = db w.
Proof.
  intros w.
  assert (Hd : Py.int_or (total_input (self w)) 0 = Some 10) by reflexivity.
  assert (Ho : Py.int_or (online_input (self w)) 0 = None) by reflexivity.
  split; [exact Hd | split; [exact Ho |]]. unfold exec.
  rewrite (unreadable_count_stores_nothing "2024-01-01 10:00:00" w 10 Hd
             (or_introl Ho)).
  split; reflexivity.
Defined.

End Submit_failures.

Section Submit_storage.
Import NewEntryScreen.



(** X8.  The record [on_submit] inserts gets an id larger than every id
    in the table, so ids that were distinct stay distinct. *)
Theorem submitted_id_is_fresh (now : string) (w : world t)
    (delivered online paytm : Z) (partial : Py.float) :
  Py.int_or (total_input (self w)) 0 = Some delivered ->
  Py.int_or (online_input (self w)) 0 = Some online ->
  Py.int_or (paytm_input (self w)) 0 = Some paytm ->
  Py.float_or (partial_input (self w)) zero = Some partial ->
  calm 4 (db w) ->
  NoDup (map Sqlite.id (Sqlite.records (Sqlite.pending (db w)))) ->
  let new := Sqlite.records (Sqlite.committed (db (exec (on_submit now) w))) in
  NoDup (map Sqlite.id new) /\
  exists row,
    new = (Sqlite.records (Sqlite.pending (db w)) ++ [row])%list /\
    forall r, In r (Sqlite.records (Sqlite.pending (db w))) ->
      Sqlite.id r < Sqlite.id row.
Proof.
  intros Hd Ho Hp Hf Hc Hnd new.
  destruct (on_submit_run now w _ _ _ _ Hd Ho Hp Hf Hc)
    as (w1 & row & Hrun & Hrec & _ & Hcm & Hfresh & _).
  subst new. unfold exec. rewrite Hrun. cbn [snd]. rewrite Hcm, Hrec.
  split; [| exists row; split; [reflexivity | exact Hfresh]].
  rewrite map_app. apply NoDup_app. split; [exact Hnd|]. split.
  - intros x Hx Hx'. apply list_elem_of_In in Hx'. destruct Hx' as [<-|[]].
    apply list_elem_of_In, in_map_iff in Hx as (r & Hr & Hin).
    specialize (Hfresh r Hin). lia.
  - apply NoDup_singleton.
Qed.

Lemma submitted_id_is_fresh_witness :
  let w := entry_screen (entry_form "10" "7" "0" "0" "0") [] in
  Py.int_or (total_input (self w)) 0 = Some 10 /\
  Py.int_or (online_input (self w)) 0 = Some 0 /\
  Py.int_or (paytm_input (self w)) 0 = Some 0 /\
  Py.float_or (partial_input (self w)) zero = Some zero /\
  calm 4 (db w) /\
  NoDup (map Sqlite.id (Sqlite.records (Sqlite.pending (db w)))) /\
  NoDup (map Sqlite.id
           (Sqlite.records
              (Sqlite.committed (db (exec (on_submit "2024-01-01 10:00:00") w))))).
Proof.
  intros w.
  assert (Hd : Py.int_or (total_input (self w)) 0 = Some 10) by reflexivity.
  assert (Ho : Py.int_or (online_input (self w)) 0 = Some 0) by reflexivity.
  assert (Hp : Py.int_or (paytm_input (self w)) 0 = Some 0) by reflexivity.
  assert (Hf : Py.float_or (partial_input (self w)) zero = Some zero)
    by reflexivity.
  assert (Hc : calm 4 (db w)) by reflexivity.
  assert (Hnd : NoDup (map Sqlite.id (Sqlite.records (Sqlite.pending (db w)))))
    by apply NoDup_nil_2.
  repeat (split; [assumption|]).
  exact (proj1 (submitted_id_is_fresh "2024-01-01 10:00:00" w 10 0 0 zero
                  Hd Ho Hp Hf Hc Hnd)).
Defined.

End Submit_storage.

(** ** The amount on screen and the amount stored *)

Section Amounts.
Import NewEntryScreen.

(** X9.  Whatever the form holds and however the storage behaves,
    [calculate] returns normally, writes nothing to the database and
    leaves every input as it was; it either sets a new amount without a
    notice, or shows exactly one notice and keeps the amount it had. *)
Theorem calculate_writes_nothing (w : world t) :
  let w' := exec calculate w in
  fst (calculate w) = Ok tt /\
  same_inputs (self w) (self w') /\
  Sqlite.committed (db w') = Sqlite.committed (db w) /\
  Sqlite.pending (db w') = Sqlite.pending (db w) /\
  (popups w' = popups w \/
   exists n, popups w' = (popups w ++ [n])%list /\
             final_amount (self w') = final_amount (self w)).
Proof.
  unfold exec, calculate. mrun.
  assert (Hsame : same_inputs (self w) (self w)) by (repeat split).
  destruct (Py.int_or (total_input (self w)) 0); mrun;
    [|repeat split; eauto].
  destruct (Py.int_or (online_input (self w)) 0); mrun;
    [|repeat split; eauto].
  destruct (Py.int_or (paytm_input (self w)) 0); mrun;
    [|repeat split; eauto].
  destruct (Py.float_or (partial_input (self w)) zero); mrun;
    [|repeat split; eauto].
  destruct (_ >? _); mrun; [repeat split; eauto|].
  unfold get_price, cur_execute. mrun.
  destruct (Sqlite.faults (db w)) as [|[] fs]; mrun.
  - destruct (Py.float_of_int _); mrun; [|repeat split; eauto].
    destruct (Py.round _ _); mrun; repeat split; eauto.
  - repeat split; eauto.
  - destruct (Py.float_of_int _); mrun; [|repeat split; eauto].
    destruct (Py.round _ _); mrun; repeat split; eauto.
Qed.

(** [on_submit] touches the form only through [calculate]. *)
Lemma on_submit_self now (w : world t) :
  self (exec (on_submit now) w) = self (exec calculate w).
Proof.
  destruct (calculate_total w) as (w1 & Hcalc & _ & _).
  unfold exec, on_submit.
  rewrite (bind_ok _ _ _ _ _ (try_ok _ _ _ _ _ Hcalc)), Hcalc. cbn [snd].
  mrun.
  repeat match goal with
    | |- context [match Py.int_or ?t ?d with _ => _ end] =>
        destruct (Py.int_or t d) eqn:?; mrun
    | |- context [match Py.float_or ?t ?d with _ => _ end] =>
        destruct (Py.float_or t d) eqn:?; mrun
    end;
  unfold cur_execute, conn_commit; cbn;
  repeat match goal with
    | |- context [match ?fs with [] => _ | _ :: _ => _ end] =>
        destruct fs as [|[] ?]; cbn
    end; reflexivity.
Qed.

(** X10.  For counts that pass the check, the amount [on_submit] stores
    with the record is the amount [calculate] computes from the form at
    that moment, [round(cash * price + partial, 2)], whatever amount was
    on screen before. *)
Theorem stored_amount_is_computed (now : string) (w : world t)
    (total online paytm : Z) (partial cash final : Py.float) :
  Py.int_or (total_input (self w)) 0 = Some total ->
  Py.int_or (online_input (self w)) 0 = Some online ->
  Py.int_or (paytm_input (self w)) 0 = Some paytm ->
  Py.float_or (partial_input (self w)) zero = Some partial ->
  online + paytm <= total ->
  calm 4 (db w) ->
  Py.float_of_int (total - online - paytm) = Some cash ->
  Py.round (Py.fadd (Py.fmul cash (current_price (db w))) partial) 2
    = Some final ->
  exists row,
    Sqlite.records (Sqlite.committed (db (exec (on_submit now) w))) =
      (Sqlite.records (Sqlite.pending (db w)) ++ [row])%list /\
    Sqlite.final_amt row = final /\
    Sqlite.partial_amt row = partial /\
    final_amount (self (exec (on_submit now) w)) = final.
Proof.
  intros Ht Ho Hp Hf Hle Hc Hcash Hfinal.
  assert (Hc1 : calm 1 (db w)) by (eapply calm_le; [|exact Hc]; lia).
  pose proof (calculate_valid w _ _ _ _ _ _ Ht Ho Hp Hf Hle Hc1 Hcash Hfinal)
    as Hcalc.
  destruct (on_submit_run now w _ _ _ _ Ht Ho Hp Hf Hc)
    as (w1 & row & Hrun & Hrec & _ & Hcm & _ & _ & _ & _ & _ & Hpa & Hfa & _).
  assert (Hself : self w1 = set_final_amount final (self w)).
  { pose proof (on_submit_self now w) as Hs. unfold exec in Hs.
    rewrite Hrun, Hcalc in Hs. exact Hs. }
  exists row. unfold exec. rewrite Hrun. cbn [snd]. rewrite Hcm.
  split; [exact Hrec|]. rewrite Hfa, Hself. repeat split. exact Hpa.
Qed.

Lemma stored_amount_is_computed_witness :
  let w := entry_screen (entry_form "10" "7" "1" "2" "0.005") [] in
  Py.int_or (total_input (self w)) 0 = Some 10 /\
  Py.int_or (online_input (self w)) 0 = Some 1 /\
  Py.int_or (paytm_input (self w)) 0 = Some 2 /\
  1 + 2 <= 10 /\
  calm 4 (db w) /\
  Py.float_of_text "6142.51" =
    Some (final_amount (self (exec (on_submit "2024-01-01 10:00:00") w))).
Proof.
  intros w.
  assert (Ht : Py.int_or (total_input (self w)) 0 = Some 10) by reflexivity.
  assert (Ho : Py.int_or (online_input (self w)) 0 = Some 1) by reflexivity.
  assert (Hp : Py.int_or (paytm_input (self w)) 0 = Some 2) by reflexivity.
  assert (Hf : Py.float_or (partial_input (self w)) zero =
               Some (S754_finite false 5764607523034235 (-60)))
    by (vm_compute; reflexivity).
  assert (Hle : 1 + 2 <= 10) by lia.
  assert (Hc : calm 4 (db w)) by reflexivity.
  assert (Hcash : Py.float_of_int (10 - 1 - 2) =
                  Some (S754_finite false 7881299347898368 (-50)))
    by (vm_compute; reflexivity).
  assert (Hfinal :
    Py.round
      (Py.fadd (Py.fmul (S754_finite false 7881299347898368 (-50))
                  (current_price (db w)))
         (S754_finite false 5764607523034235 (-60))) 2 =
    Some (S754_finite false 6753761168730358 (-40)))
    by (vm_compute; reflexivity).
  repeat (split; [assumption|]).
  destruct (stored_amount_is_computed "2024-01-01 10:00:00" w 10 1 2 _ _ _
              Ht Ho Hp Hf Hle Hc Hcash Hfinal) as (row & _ & _ & _ & Hfa).
  rewrite Hfa. vm_compute. reflexivity.
Defined.

End Amounts.

(** ** The day view after the other screens *)

Section Day_view.
Import ViewByDateScreen.

Lemma render_rows_any rows : forall idx (w : world unit) r w',
  render_rows idx rows w = (r, w') ->
  (r = Ok (lines_of (Sqlite.pending (db w)) idx rows) \/
   r = Raise Py.OperationalError) /\
  Sqlite.pending (db w') = Sqlite.pending (db w) /\
  Sqlite.committed (db w') = Sqlite.committed (db w) /\
  popups w' = popups w.
Proof.
  induction rows as [|r rows IH]; intros idx w res w'.
  - cbn. intros [= <- <-]. auto.
  - cbn [render_rows]. unfold mbind, M_bind, cur_execute.
    destruct (Sqlite.faults (db w)) as [|[] fs] eqn:Hfs; cbn;
      try (intros [= <- <-]; cbn; now auto);
      match goal with |- context [render_rows ?i rows ?w1] =>
        specialize (IH i w1); destruct (render_rows i rows w1) as [[ls|e] w2]
      end; specialize (IH _ _ eq_refl); cbn in IH;
      destruct IH as ([IH|IH] & ? & ? & ?); try discriminate;
      injection IH as ->; intros [= <- <-]; repeat split; auto.
Qed.

(** X11.  [load_records] only reads.  For any date text and however the
    storage behaves, the tables and the notices are as before; the call
    either returns the lines of the day's records or lets
    [OperationalError] escape (there is no [try] around its queries). *)
Theorem viewing_changes_nothing (d : string) (w : world unit) :
  let t := Sqlite.pending (db w) in
  let w' := exec (load_records d) w in
  Sqlite.pending (db w') = t /\
  Sqlite.committed (db w') = Sqlite.committed (db w) /\
  popups w' = popups w /\
  (fst (load_records d w) =
     Ok (lines_of t 1 (fst (Sqlite.select_by_date (d ++ "%") t))) \/
   fst (load_records d w) = Raise Py.OperationalError).
Proof.
  cbn zeta. unfold exec.
  destruct (load_records d w) as [res w'] eqn:Hrun. cbn [fst snd].
  revert Hrun. unfold load_records. cbn zeta.
  unfold mbind, M_bind, cur_execute.
  destruct (Sqlite.faults (db w)) as [|[] fs] eqn:Hfs; cbn;
    try (intros [= <- <-]; cbn; now auto);
    intros Hrun; apply render_rows_any in Hrun; cbn in Hrun;
    destruct Hrun as (H & ? & ? & ?); repeat split; auto.
Qed.

#[local] Instance key_le_trans {A} (key : A -> Z) :
  Transitive (Sqlite.key_le key).
Proof. intros x y z. unfold Sqlite.key_le. lia. Qed.

Lemma key_inj {A} (key : A -> Z) l x y :
  NoDup (map key l) -> In x l -> In y l -> key x = key y -> x = y.
Proof.
  induction l as [|a l IH]; cbn; [easy|].
  intros Hnd [<-|Hx] [<-|Hy] Hk; auto.
  - apply NoDup_cons in Hnd as [Hn _]. exfalso. apply Hn.
    rewrite Hk. apply list_elem_of_In, in_map, Hy.
  - apply NoDup_cons in Hnd as [Hn _]. exfalso. apply Hn.
    rewrite <- Hk. apply list_elem_of_In, in_map, Hx.
  - apply NoDup_cons in Hnd as [_ Hnd]. auto.
Qed.

(** With distinct keys, [ORDER BY] has one possible answer. *)
Lemma order_by_unique {A} (key : A -> Z) l l' :
  StronglySorted (Sqlite.key_le key) l' -> Permutation l' l ->
  NoDup (map key l) -> Sqlite.order_by key l = l'.
Proof.
  intros Hs Hp Hnd.
  apply (StronglySorted_unique_strong (Sqlite.key_le key)).
  - intros x y Hx Hy Hxy Hyx. apply (key_inj key l); auto.
    + apply list_elem_of_In in Hx.
      eapply Permutation_in; [apply order_by_perm|exact Hx].
    + apply list_elem_of_In in Hy.
      eapply Permutation_in; [exact Hp|exact Hy].
    + unfold Sqlite.key_le in *. lia.
  - apply Sorted_StronglySorted; [apply _|]. apply order_by_sorted.
  - exact Hs.
  - rewrite order_by_perm. symmetry. exact Hp.
Qed.

Lemma NoDup_map_filter {A} (key : A -> Z) (p : A -> bool) l :
  NoDup (map key l) -> NoDup (map key (List.filter p l)).
Proof.
  induction l as [|a l IH]; cbn; [auto|].
  intros [Hn Hnd]%NoDup_cons. destruct (p a); cbn; auto.
  apply NoDup_cons. split; auto.
  intros Hin. apply Hn. apply list_elem_of_In in Hin.
  apply in_map_iff in Hin as (x & Hx & Hin). apply filter_In in Hin as [Hin _].
  rewrite <- Hx. apply list_elem_of_In, in_map, Hin.
Qed.

Lemma order_by_snoc {A} (key : A -> Z) l x :
  NoDup (map key l) -> (forall y, In y l -> key y < key x) ->
  Sqlite.order_by key (l ++ [x]) = (Sqlite.order_by key l ++ [x])%list.
Proof.
  intros Hnd Hlt. apply order_by_unique.
  - apply StronglySorted_app_2.
    + intros y z Hy [->|[]%elem_of_nil]%elem_of_cons.
      apply list_elem_of_In in Hy.
      eapply Permutation_in in Hy; [|apply order_by_perm].
      specialize (Hlt _ Hy). unfold Sqlite.key_le. lia.
    + apply Sorted_StronglySorted; [apply _|]. apply order_by_sorted.
    + repeat constructor.
  - now rewrite order_by_perm.
  - rewrite map_app. apply NoDup_app. repeat split; auto.
    + intros k Hk [->|[]%elem_of_nil]%elem_of_cons.
      apply list_elem_of_In, in_map_iff in Hk as (y & Hy & Hin).
      specialize (Hlt _ Hin). lia.
    + cbn. apply NoDup_singleton.
Qed.

Lemma lines_of_app t rows rows' : forall idx,
  lines_of t idx (rows ++ rows') =
  (lines_of t idx rows ++ lines_of t (idx + Z.of_nat (length rows)) rows')%list.
Proof.
  induction rows as [|r rows IH]; intros idx; cbn [lines_of app length].
  - now rewrite Z.add_0_r.
  - rewrite IH. do 3 f_equal. lia.
Qed.

Lemma lines_of_remarks t t' rows : forall idx,
  Sqlite.remarks t' = Sqlite.remarks t ->
  lines_of t' idx rows = lines_of t idx rows.
Proof.
  intros idx H. revert idx.
  induction rows as [|r rows IH]; intros idx; cbn [lines_of]; [easy|].
  rewrite IH. f_equal. unfold line_of, Sqlite.select_remarks. cbn [fst].
  now rewrite H.
Qed.

(** X12.  A record submitted with a time stamp of day [d] is the new last
    line of that day's table: [load_records] shows the lines it showed
    before, unchanged, followed by one line for the new record, numbered
    next and with an empty Remarks cell.  The ids are distinct (the
    primary key) and every remark belongs to a stored record. *)
Theorem submitted_record_is_listed (now d : string)
    (w : world NewEntryScreen.t) (delivered online paytm : Z)
    (partial : Py.float) :
  Py.int_or (NewEntryScreen.total_input (self w)) 0 = Some delivered ->
  Py.int_or (NewEntryScreen.online_input (self w)) 0 = Some online ->
  Py.int_or (NewEntryScreen.paytm_input (self w)) 0 = Some paytm ->
  Py.float_or (NewEntryScreen.partial_input (self w)) zero = Some partial ->
  calm 4 (db w) ->
  date_text d = true ->
  String.prefix d now = true ->
  NoDup (map Sqlite.id (Sqlite.records (Sqlite.pending (db w)))) ->
  (forall m, In m (Sqlite.remarks (Sqlite.pending (db w))) ->
     exists r, In r (Sqlite.records (Sqlite.pending (db w))) /\
               Sqlite.id r = Sqlite.record_id m) ->
  let w' := exec (NewEntryScreen.on_submit now) w in
  exists before row,
    fst (load_records d (on_storage [] (viewed w))) = Ok before /\
    fst (load_records d (on_storage [] (viewed w'))) =
      Ok (before ++
          [{| sr := Z.of_nat (length before) + 1; rec := row;
              remarks_text := "" |}])%list /\
    Sqlite.total_cyl row = delivered /\
    Sqlite.date_time row = now.
Proof.
  intros Hd Ho Hp Hf Hc Hdate Hpre Hnd Href. cbn zeta.
  destruct (on_submit_run now w _ _ _ _ Hd Ho Hp Hf Hc)
    as (w1 & row & Hrun & Hrec & Hrem & _ & Hfresh & Htot & _ & _ & _ & _
        & _ & Hnow & _).
  unfold exec. rewrite Hrun. cbn [snd].
  set (t := Sqlite.pending (db w)) in *.
  set (t1 := Sqlite.pending (db w1)) in *.
  set (rows := fst (Sqlite.select_by_date (d ++ "%") t)).
  assert (Hview : forall (v : world unit),
            Sqlite.faults (db v) = [] ->
            fst (load_records d v) =
              Ok (lines_of (Sqlite.pending (db v)) 1
                    (fst (Sqlite.select_by_date (d ++ "%")
                            (Sqlite.pending (db v)))))).
  { intros v Hv. unfold load_records. cbn zeta.
    assert (Hcv : forall n, calm n (db v))
      by (intros n; unfold calm; rewrite Hv; now destruct n).
    rewrite (bind_ok _ _ _ _ _
               (cur_execute_calm _ (Sqlite.select_by_date (d ++ "%")) v
                  (Hcv 1%nat))).
    cbn [fst snd Sqlite.select_by_date].
    match goal with |- context [render_rows 1 ?rs ?v1] =>
      destruct (render_rows_calm rs 1 v1) as (v2 & -> & _)
    end; [|reflexivity].
    unfold calm. cbn. rewrite Hv. now destruct (length _). }
  exists (lines_of t 1 rows), row.
  rewrite !Hview by reflexivity. cbn [on_storage viewed db Sqlite.pending
    Sqlite.with_pending]. fold t t1.
  repeat split; auto.
  f_equal. unfold Sqlite.select_by_date. cbn [fst]. rewrite Hrec.
  rewrite List.filter_app. cbn [List.filter].
  rewrite (like_date d) by exact Hdate. rewrite Hnow, Hpre.
  rewrite order_by_snoc.
  - rewrite lines_of_app. cbn [lines_of].
    rewrite (lines_of_remarks t t1) by exact Hrem.
    unfold rows, Sqlite.select_by_date. cbn [fst]. f_equal.
    rewrite lines_of_length. unfold line_of. f_equal. f_equal; [lia|].
    unfold Sqlite.select_remarks. cbn [fst]. rewrite Hrem.
    rewrite (List.filter_ext_in _ (fun _ => false)).
    + now rewrite List.filter_false.
    + intros m Hm. destruct (Href m Hm) as (r & Hr & <-).
      specialize (Hfresh r Hr). lia.
  - now apply NoDup_map_filter.
  - intros y [Hy _]%filter_In. now apply Hfresh.
Qed.

Lemma submitted_record_is_listed_witness :
  let f := entry_form "10" "7" "0" "0" "0" in
  let w := World (db (exec (NewEntryScreen.on_submit "2024-01-01 09:30:00")
                        (entry_screen f []))) f [] in
  Py.int_or (NewEntryScreen.total_input (self w)) 0 = Some 10 /\
  calm 4 (db w) /\
  date_text "2024-01-01" = true /\
  String.prefix "2024-01-01" "2024-01-01 10:00:00" = true /\
  NoDup (map Sqlite.id (Sqlite.records (Sqlite.pending (db w)))) /\
  exists before row,
    length before = 1%nat /\
    fst (load_records "2024-01-01"
           (on_storage []
              (viewed (exec (NewEntryScreen.on_submit "2024-01-01 10:00:00")
                         w)))) =
      Ok (before ++ [{| sr := 2; rec := row; remarks_text := "" |}])%list.
Proof.
  intros f w.
  assert (Hd : Py.int_or (NewEntryScreen.total_input (self w)) 0 = Some 10)
    by reflexivity.
  assert (Ho : Py.int_or (NewEntryScreen.online_input (self w)) 0 = Some 0)
    by reflexivity.
  assert (Hp : Py.int_or (NewEntryScreen.paytm_input (self w)) 0 = Some 0)
    by reflexivity.
  assert (Hf : Py.float_or (NewEntryScreen.partial_input (self w)) zero =
               Some zero) by reflexivity.
  assert (Hc : calm 4 (db w)) by reflexivity.
  assert (Hdate : date_text "2024-01-01" = true) by reflexivity.
  assert (Hpre : String.prefix "2024-01-01" "2024-01-01 10:00:00" = true)
    by reflexivity.
  assert (Hnd : NoDup (map Sqlite.id (Sqlite.records (Sqlite.pending (db w))))).
  { vm_compute. apply NoDup_singleton. }
  assert (Href : forall m, In m (Sqlite.remarks (Sqlite.pending (db w))) ->
            exists r, In r (Sqlite.records (Sqlite.pending (db w))) /\
                      Sqlite.id r = Sqlite.record_id m).
  { assert (Hrem : Sqlite.remarks (Sqlite.pending (db w)) = [])
      by (vm_compute; reflexivity).
    intros m Hm. rewrite Hrem in Hm. destruct Hm. }
  repeat (split; [assumption|]).
  destruct (submitted_record_is_listed "2024-01-01 10:00:00" "2024-01-01" w
              10 0 0 zero Hd Ho Hp Hf Hc Hdate Hpre Hnd Href)
    as (before & row & Hb & Ha & _).
  exists before, row. split.
  - assert (Hl : Some (length before) = Some 1%nat); [|now injection Hl].
    transitivity (match fst (load_records "2024-01-01"
                               (on_storage [] (viewed w))) with
                  | Ok l => Some (length l) | Raise _ => None end).
    + now rewrite Hb.
    + vm_compute. reflexivity.
  - rewrite Ha. do 3 f_equal.
    assert (Hl : Some (length before) = Some 1%nat).
    { transitivity (match fst (load_records "2024-01-01"
                                 (on_storage [] (viewed w))) with
                    | Ok l => Some (length l) | Raise _ => None end).
      - now rewrite Hb.
      - vm_compute. reflexivity. }
    injection Hl as ->. reflexivity.
Defined.

End Day_view.

(** ** The day view after a reconciliation *)

Section Saved_view.
Import ReconcilePopup ViewByDateScreen.

Lemma numbers_sorted n : forall i,
  StronglySorted Z.le (map Z.of_nat (List.seq i n)) /\
  NoDup (map Z.of_nat (List.seq i n)).
Proof.
  induction n as [|n IH]; intros i; cbn.
  - split; constructor.
  - destruct (IH (S i)) as [Hs Hn]. split.
    + constructor; [exact Hs|]. apply Forall_forall. intros z Hz.
      apply list_elem_of_In, in_map_iff in Hz as (j & <- & Hj).
      apply in_seq in Hj. lia.
    + apply NoDup_cons. split; [|exact Hn]. intros Hz.
      apply list_elem_of_In, in_map_iff in Hz as (j & Hj & Hin).
      apply in_seq in Hin. lia.
Qed.

Lemma sorted_by_key {A} (key : A -> Z) l :
  StronglySorted Z.le (map key l) -> StronglySorted (Sqlite.key_le key) l.
Proof.
  induction l as [|a l IH]; cbn; intros H; [constructor|].
  apply StronglySorted_inv in H as [Hs Hall]. constructor; [auto|].
  apply Forall_forall. intros x Hx. rewrite Forall_forall in Hall.
  apply Hall. apply list_elem_of_In, in_map, list_elem_of_In, Hx.
Qed.

(** X13.  After a successful [save_all] for a record that had no remarks,
    the remarks of the record, read back in the order of their sequence
    numbers, are the reasons and names of the slots in the order of the
    popup, and the Remarks cell of the record in the day table reads
    "reason: name" (or "reason" for an empty name) for each slot,
    separated by commas. *)
Theorem saved_slots_are_shown (now : nat -> string) (w : world t) :
  in_bounds (self w) ->
  numbered (self w) ->
  tidy (self w) ->
  forallb chosen (steps (saved (self w))) = true ->
  calm (S (length (steps (saved (self w))))) (db w) ->
  (forall m, In m (Sqlite.remarks (Sqlite.pending (db w))) ->
     Sqlite.record_id m <> record_id (self w)) ->
  let p := saved (self w) in
  let w' := exec (save_all now) w in
  query_slots (record_id p) (db w') =
    map (fun s => (default "" (selected s), consumer s)) (steps p) /\
  forall idx r, Sqlite.id r = record_id p ->
    remarks_text (line_of (Sqlite.pending (db w')) idx r) =
      Py.join ", " (map step_text (steps p)).
Proof.
  intros Hb Hnum Htidy Hall Hc Hnone. cbn zeta.
  destruct (save_all_commits now w Hb Hall Hc)
    as (w1 & rows & Hrun & (Hrem & _) & Hrows & _).
  unfold exec. rewrite Hrun. cbn [snd].
  change (record_id (saved (self w))) with (record_id (self w)) in *.
  assert (Hq : fst (Sqlite.select_remarks (record_id (self w))
                      (Sqlite.pending (db w1))) =
               map (fun s => (default "" (selected s), consumer s))
                 (steps (saved (self w)))).
  { unfold Sqlite.select_remarks. cbn [fst]. rewrite Hrem, List.filter_app.
    rewrite (List.filter_ext_in _ (fun _ => false))
      by (intros m Hm; specialize (Hnone m Hm); lia).
    rewrite List.filter_false. cbn [app].
    assert (Hrid : List.filter
                     (fun r => Sqlite.record_id r =? record_id (self w)) rows
                   = rows).
    { apply List.forallb_filter_id, forallb_forall. intros r Hr.
      apply (in_map slot_fields) in Hr. rewrite Hrows in Hr.
      apply in_map_iff in Hr as (s & Hs & _).
      unfold slot_fields, slot_of in Hs. injection Hs as Hs _ _ _.
      rewrite <- Hs. apply Z.eqb_refl. }
    rewrite Hrid.
    pose proof (slot_of_seq _ _ _ Hrows) as Hseq.
    pose proof (numbered_saved _ Hnum) as Hn. unfold numbered in Hn.
    rewrite Hn in Hseq.
    destruct (numbers_sorted (length (steps (saved (self w)))) 1) as [Hs Hnd].
    rewrite <- Hseq in Hs, Hnd.
    rewrite (order_by_unique Sqlite.seq rows rows);
      [| now apply sorted_by_key | reflexivity | exact Hnd].
    clear - Hrows. revert Hrows.
    generalize (steps (saved (self w))) as l.
    induction rows as [|r rows IH]; intros [|s l]; cbn; try easy.
    unfold slot_fields at 1, slot_of at 1.
    intros H. injection H as _ _ H3 H4 Hrest.
    rewrite H3, H4. f_equal. now apply IH. }
  split; [exact Hq|].
  intros idx r Hr. unfold line_of. cbn [remarks_text]. rewrite Hr, Hq.
  f_equal. rewrite map_map. apply map_ext_in. intros s Hs.
  pose proof (tidy_saved _ Htidy s Hs) as Hstrip.
  unfold remark_text, step_text. rewrite Hstrip.
  now destruct (consumer s).
Qed.

Lemma saved_slots_are_shown_witness :
  let w := three_classified in
  let now := fun _ : nat => "2024-01-01 10:05:00" in
  in_bounds (self w) /\
  numbered (self w) /\
  forallb chosen (steps (saved (self w))) = true /\
  calm (S (length (steps (saved (self w))))) (db w) /\
  query_slots (record_id (saved (self w))) (db (exec (save_all now) w)) =
    [("NC", "Asha"); ("TV", ""); ("DBC", "")].
Proof.
  intros w now.
  assert (Hb : in_bounds (self w))
    by (vm_compute; split; [discriminate | reflexivity]).
  assert (Hnum : numbered (self w)) by reflexivity.
  assert (Hf : forallb (fun s => String.eqb (Py.strip (consumer s))
                                   (consumer s)) (steps (self w)) = true)
    by (vm_compute; reflexivity).
  assert (Htidy : tidy (self w)).
  { intros s Hs. rewrite forallb_forall in Hf. apply String.eqb_eq.
    apply Hf. exact Hs. }
  assert (Hall : forallb chosen (steps (saved (self w))) = true)
    by (vm_compute; reflexivity).
  assert (Hc : calm (S (length (steps (saved (self w))))) (db w))
    by (vm_compute; reflexivity).
  assert (Hrem : Sqlite.remarks (Sqlite.pending (db w)) = [])
    by (vm_compute; reflexivity).
  assert (Hnone : forall m, In m (Sqlite.remarks (Sqlite.pending (db w))) ->
                    Sqlite.record_id m <> record_id (self w)).
  { intros m Hm. rewrite Hrem in Hm. destruct Hm. }
  assert (He : map (fun s => (default "" (selected s), consumer s))
                 (steps (saved (self w))) =
               [("NC", "Asha"); ("TV", ""); ("DBC", "")])
    by (vm_compute; reflexivity).
  split; [exact Hb | split; [exact Hnum | split; [exact Hall | split; [exact Hc |]]]].
  exact (eq_trans
           (proj1 (saved_slots_are_shown now w Hb Hnum Htidy Hall Hc Hnone))
           He).
Defined.

End Saved_view.

(** ** From the first button to the stored remark *)

Section Whole_reconciliation.
Import ReconcilePopup.

(** X14.  Whatever the operator picks, types and presses between
    [update_and_prepare] and [save_all], and whether or not the storage
    fails during the save, no remark in the table holds a consumer name
    with leading or trailing white space: every name is stripped before
    it is stored. *)
Theorem typed_names_are_stored_stripped (now : nat -> string) (w : world t)
    (E : Z) (l : list event) :
  Py.int_or (empty_edit (self w)) 0 = Some E ->
  calm 2 (db w) ->
  E <> delivered (self w) ->
  names_stripped (Sqlite.pending (db w)) ->
  let w1 := exec update_and_prepare w in
  let w2 := exec (session l) w1 in
  let w3 := exec (save_all now) w2 in
  names_stripped (Sqlite.pending (db w3)) /\
  tidy (self w3).
Proof.
  intros HE Hc Hne Hnames. cbn zeta.
  destruct (prepared_popup w E HE Hc Hne) as (Hb & Hnum & Htidy & _).
  destruct (update_and_prepare_run w E HE Hc)
    as (w1 & Hrun & _ & _ & _ & _ & _ & Hpe & _).
  unfold exec in *. rewrite Hrun in *. cbn [snd] in *.
  assert (Hn1 : names_stripped (Sqlite.pending (db w1))).
  { rewrite Hpe. exact Hnames. }
  destruct (session_in_bounds l 0%nat w1 Hb) as (w2 & Hrun2 & Hb2 & _ & Hdb).
  destruct (session_keeps l w1 Hb Hnum Htidy) as (_ & _ & Ht2).
  unfold exec, session in *. rewrite Hrun2 in *. cbn [snd] in *.
  rewrite <- Hdb in Hn1. split.
  - exact (save_all_names now w2 Hb2 Ht2 Hn1).
  - destruct (forallb chosen (steps (saved (self w2)))) eqn:Hall.
    + destruct (faults_cases (S (length (steps (saved (self w2)))))
                  (Sqlite.faults (db w2))) as [Hcalm | (k & rest & Hk & Hfs)].
      * destruct (save_all_commits now w2 Hb2 Hall Hcalm)
          as (w3 & rows & -> & _ & _ & _ & Hself & _).
        cbn [snd]. rewrite Hself. intros s Hs. apply (tidy_saved _ Ht2 s Hs).
      * rewrite saved_length in Hk.
        destruct (save_all_interrupted now w2 k rest Hb2 Hall Hfs)
          as (w3 & rows & -> & _ & _ & _ & Hself & _); [lia|].
        cbn [snd]. rewrite Hself. apply (tidy_saved _ Ht2).
    + rewrite (save_all_refused now w2 Hb2 Hall). cbn [snd self].
      apply (tidy_saved _ Ht2).
Qed.

Lemma typed_names_are_stored_stripped_witness :
  let w := submitted (entry_form "10" "7" "0" "0" "0") [] in
  let now := fun _ : nat => "2024-01-01 10:05:00" in
  let l := [PickReason "NC"; TypeName "  Asha "; PressNext;
            PickReason "TV"; PressNext; PickReason "DBC"] in
  Py.int_or (empty_edit (self w)) 0 = Some 7 /\
  calm 2 (db w) /\
  7 <> delivered (self w) /\
  names_stripped
    (Sqlite.pending
       (db (exec (save_all now)
              (exec (session l) (exec update_and_prepare w))))) /\
  map Sqlite.consumer_name
    (Sqlite.remarks
       (Sqlite.pending
          (db (exec (save_all now)
                 (exec (session l) (exec update_and_prepare w)))))) =
    ["Asha"; ""; ""].
Proof.
  intros w now l.
  assert (HE : Py.int_or (empty_edit (self w)) 0 = Some 7) by reflexivity.
  assert (Hc : calm 2 (db w)) by reflexivity.
  assert (Hne : 7 <> delivered (self w)) by (vm_compute; discriminate).
  assert (Hrem : Sqlite.remarks (Sqlite.pending (db w)) = [])
    by (vm_compute; reflexivity).
  assert (Hnames : names_stripped (Sqlite.pending (db w))).
  { intros m Hm. rewrite Hrem in Hm. destruct Hm. }
  assert (Hstored :
    map Sqlite.consumer_name
      (Sqlite.remarks
         (Sqlite.pending
            (db (exec (save_all now)
                   (exec (session l) (exec update_and_prepare w)))))) =
    ["Asha"; ""; ""]) by (vm_compute; reflexivity).
  split; [exact HE | split; [exact Hc | split; [exact Hne | split]]].
  - exact (proj1 (typed_names_are_stored_stripped now w 7 l HE Hc Hne Hnames)).
  - exact Hstored.
Defined.

End Whole_reconciliation.

(** ** The calendar popup *)

Section Calendar.
Import Datetime CalendarPopup.

Lemma valid_fields d :
  valid d = true <->
  1 <= year d <= 9999 /\ 1 <= month d <= 12 /\
  1 <= day d <= days_in_month (year d) (month d).
Proof. unfold valid, MINYEAR, MAXYEAR. rewrite !andb_true_iff, !Z.leb_le. lia. Qed.

Lemma new_valid y m d :
  valid (Date y m d) = true -> new y m d = Some (Date y m d).
Proof. unfold new. now intros ->. Qed.

Lemma new_invalid y m d :
  valid (Date y m d) = false -> new y m d = None.
Proof. unfold new. now intros ->. Qed.

Lemma days_in_month_bounds y m :
  1 <= m <= 12 -> 28 <= days_in_month y m <= 31.
Proof.
  intros Hm. unfold days_in_month.
  assert (28 <= mdays m <= 31 /\ (m = 2 -> mdays m = 28)) as [H1 H2].
  { assert (H : m = 1 \/ m = 2 \/ m = 3 \/ m = 4 \/ m = 5 \/ m = 6 \/ m = 7 \/
                m = 8 \/ m = 9 \/ m = 10 \/ m = 11 \/ m = 12) by lia.
    repeat destruct H as [->|H]; try subst m; cbn [mdays]; lia. }
  destruct (Z.eqb_spec m 2); destruct (isleap y); cbn [andb]; lia.
Qed.

Lemma monthrange_some y m :
  1 <= m <= 12 ->
  exists day1, monthrange y m = Some (day1, days_in_month y m) /\
               0 <= day1 < 7.
Proof.
  intros Hm. unfold monthrange, weekday.
  replace ((1 <=? m) && (m <=? 12)) with true by lia.
  set (y' := if (MINYEAR <=? y) && (y <=? MAXYEAR) then y
             else 2000 + y mod 400).
  assert (Hy : 1 <= y' <= 9999).
  { unfold y', MINYEAR, MAXYEAR.
    destruct (Z.leb_spec 1 y); destruct (Z.leb_spec y 9999); cbn; try lia.
    all: pose proof (Z.mod_pos_bound y 400); lia. }
  pose proof (days_in_month_bounds y' m Hm).
  rewrite new_valid by (apply valid_fields; cbn; lia).
  cbn. eexists. split; [reflexivity|].
  unfold date_weekday. apply Z.mod_pos_bound. lia.
Qed.

Lemma monthcalendar_some y m :
  1 <= m <= 12 -> exists g, monthcalendar y m = Some g.
Proof.
  intros Hm. destruct (monthrange_some y m Hm) as (d1 & H & _).
  unfold monthcalendar, itermonthdays. rewrite H. cbn. eauto.
Qed.

Lemma render_calendar_run (w : world t) :
  1 <= month (selected_date (self w)) <= 12 ->
  exists g,
    monthcalendar (year (selected_date (self w)))
      (month (selected_date (self w))) = Some g /\
    render_calendar w =
      (Ok tt, World (db w) (set_calendar_grid g (self w)) (popups w)).
Proof.
  intros Hm. destruct (monthcalendar_some (year (selected_date (self w))) _ Hm)
    as (g & Hg).
  exists g. split; [exact Hg|].
  unfold render_calendar, mbind, M_bind, set_self, get_self, of_option.
  cbn. rewrite Hg. reflexivity.
Qed.

(** One press of [<] or [>]. *)
Lemma change_month_run (w : world t) (delta : Z) :
  valid (selected_date (self w)) = true ->
  delta = 1 \/ delta = -1 ->
  let d := selected_date (self w) in
  let n := 12 * year d + (month d - 1) + delta in
  (12 <= n < 120000 ->
     exists d' g,
       change_month delta w =
         (Ok tt,
          World (db w) (set_calendar_grid g (set_selected_date d' (self w)))
            (popups w)) /\
       valid d' = true /\
       12 * year d' + (month d' - 1) = n /\
       day d' = Z.min (day d) (days_in_month (year d') (month d')) /\
       monthcalendar (year d') (month d') = Some g) /\
  (~ 12 <= n < 120000 -> change_month delta w = (Raise Py.ValueError, w)).
Proof.
  intros Hv Hdelta. cbn zeta.
  apply valid_fields in Hv. destruct Hv as (Hy & Hm & Hd).
  set (d := selected_date (self w)) in *.
  unfold change_month, mbind, M_bind, get_self. fold d.
  set (m1 := month d + delta).
  set (p1 := if m1 <? 1 then (12, year d - 1) else (m1, year d)).
  assert (Hp1 : 1 <= fst p1 /\ 12 * snd p1 + (fst p1 - 1)
                               = 12 * year d + (month d - 1) + delta /\
                fst p1 <= 13 /\ (fst p1 = 13 -> snd p1 = year d)).
  { unfold p1, m1. destruct (Z.ltb_spec (month d + delta) 1); cbn; lia. }
  destruct p1 as [m2 y2]. cbn [fst snd] in Hp1.
  set (p2 := if m2 >? 12 then (1, y2 + 1) else (m2, y2)).
  assert (Hp2 : 1 <= fst p2 <= 12 /\
                12 * snd p2 + (fst p2 - 1)
                  = 12 * year d + (month d - 1) + delta).
  { unfold p2. destruct (Z.gtb_spec m2 12); cbn; lia. }
  destruct p2 as [m3 y3]. cbn [fst snd] in Hp2. destruct Hp2 as [Hm3 Hn].
  destruct (monthrange_some y3 m3 Hm3) as (day1 & Hmr & _).
  rewrite Hmr. cbn [of_option mret M_ret snd].
  pose proof (days_in_month_bounds y3 m3 Hm3) as Hdim.
  split.
  - intros Hrange.
    assert (Hv' : valid (Date y3 m3 (Z.min (day d) (days_in_month y3 m3)))
                  = true) by (apply valid_fields; cbn; lia).
    rewrite (new_valid _ _ _ Hv'). cbn [of_option mret M_ret set_self].
    match goal with |- context [render_calendar ?w1] =>
      destruct (render_calendar_run w1) as (g & Hg & ->)
    end; [cbn; lia|]. cbn in Hg.
    eexists _, g. split; [reflexivity|]. cbn. repeat split; auto; lia.
  - intros Hout. rewrite new_invalid; [reflexivity|].
    apply not_true_iff_false. rewrite valid_fields. cbn. lia.
Qed.


(** X15.  [change_month] by one month, from a date of the calendar.
    Unless it would leave the years 1 to 9999, it returns with a date of
    the calendar again, in the month before or after, on the same day
    or, if that month is shorter, on its last day; the grid shows that
    month.  Stepping back from January of year 1 or forward from
    December of year 9999 raises [ValueError] and changes nothing. *)
Theorem change_month_moves_one_month (w : world t) (delta : Z) :
  valid (selected_date (self w)) = true ->
  delta = 1 \/ delta = -1 ->
  let d := selected_date (self w) in
  let n := 12 * year d + (month d - 1) + delta in
  (12 <= n < 120000 ->
     exists d' g,
       change_month delta w =
         (Ok tt,
          World (db w) (set_calendar_grid g (set_selected_date d' (self w)))
            (popups w)) /\
       valid d' = true /\
       12 * year d' + (month d' - 1) = n /\
       day d' = Z.min (day d) (days_in_month (year d') (month d')) /\
       monthcalendar (year d') (month d') = Some g) /\
  (~ 12 <= n < 120000 -> change_month delta w = (Raise Py.ValueError, w)).
Proof.
  intros Hv Hdelta d n. split; intros Hn.
  - exact (proj1 (change_month_run w delta Hv Hdelta) Hn).
  - exact (proj2 (change_month_run w delta Hv Hdelta) Hn).
Qed.

Lemma change_month_moves_one_month_witness :
  let w := calendar_on (Date 2024 1 31) in
  valid (selected_date (self w)) = true /\
  selected_date (self (exec (change_month 1) w)) = Date 2024 2 29.
Proof.
  intros w.
  assert (Hv : valid (selected_date (self w)) = true) by reflexivity.
  split; [exact Hv|].
  destruct (proj1 (change_month_moves_one_month w 1 Hv (or_introl eq_refl)))
    as (d' & g & Hrun & _); [vm_compute; split; [discriminate|reflexivity]|].
  unfold exec. rewrite Hrun. cbn [snd self selected_date set_calendar_grid
    set_selected_date].
  assert (He : change_month 1 w =
               (Ok tt, World (db w)
                  (set_calendar_grid (calendar_grid (self (exec (change_month 1) w)))
                     (set_selected_date (Date 2024 2 29) (self w)))
                  (popups w))) by (vm_compute; reflexivity).
  rewrite He in Hrun. now injection Hrun as <- _.
Defined.

(** X16.  Stepping one month away and back again returns to the month
    and the year the popup showed; the day is the day it held, cut down
    to the length of the month in between (31 January, [>], [<] gives 28
    or 29 January), and is never later than before. *)
Theorem there_and_back_keeps_month (w : world t) (delta : Z) :
  valid (selected_date (self w)) = true ->
  delta = 1 \/ delta = -1 ->
  let d := selected_date (self w) in
  12 <= 12 * year d + (month d - 1) + delta < 120000 ->
  let w1 := exec (change_month delta) w in
  let w2 := exec (change_month (- delta)) w1 in
  let d1 := selected_date (self w1) in
  let d2 := selected_date (self w2) in
  fst (change_month (- delta) w1) = Ok tt /\
  year d2 = year d /\ month d2 = month d /\
  day d2 = Z.min (day d) (days_in_month (year d1) (month d1)) /\
  day d2 <= day d /\
  (day d <= 28 -> d2 = d) /\
  db w2 = db w /\ popups w2 = popups w.
Proof.
  intros Hv Hdelta. cbn zeta. intros Hn.
  destruct (proj1 (change_month_run w delta Hv Hdelta) Hn)
    as (d1 & g1 & Hrun1 & Hv1 & Hn1 & Hd1 & _).
  unfold exec. rewrite Hrun1. cbn [snd].
  set (w1 := World _ _ _).
  assert (Hdelta' : - delta = 1 \/ - delta = -1) by lia.
  pose proof (proj1 (valid_fields _) Hv) as (Hy & Hm & Hd).
  pose proof (proj1 (valid_fields _) Hv1) as (Hy1 & Hm1 & Hdd1).
  destruct (proj1 (change_month_run w1 (- delta) Hv1 Hdelta'))
    as (d2 & g2 & Hrun2 & Hv2 & Hn2 & Hd2 & _); [cbn; lia|].
  rewrite Hrun2. cbn. cbn in Hn2, Hd2.
  pose proof (proj1 (valid_fields _) Hv2) as (Hy2 & Hm2 & _).
  assert (Hyy : year d2 = year (selected_date (self w))) by lia.
  assert (Hmm : month d2 = month (selected_date (self w))) by lia.
  rewrite Hyy, Hmm in Hd2.
  assert (Hday : day d2 = Z.min (day (selected_date (self w)))
                            (days_in_month (year d1) (month d1))) by lia.
  repeat split; auto; try lia.
  intros H28. pose proof (days_in_month_bounds (year d1) (month d1) Hm1).
  destruct d2 as [y2 m2 dd2], (selected_date (self w)) as [y0 m0 dd0].
  cbn in *. f_equal; lia.
Qed.

Lemma there_and_back_keeps_month_witness :
  let w := calendar_on (Date 2023 1 31) in
  valid (selected_date (self w)) = true /\
  selected_date (self (exec (change_month (-1)) (exec (change_month 1) w))) =
    Date 2023 1 28.
Proof.
  intros w.
  assert (Hv : valid (selected_date (self w)) = true) by reflexivity.
  split; [exact Hv|].
  assert (Hn : 12 <= 12 * year (selected_date (self w)) +
                      (month (selected_date (self w)) - 1) + 1 < 120000)
    by (vm_compute; split; [discriminate | reflexivity]).
  destruct (there_and_back_keeps_month w 1 Hv (or_introl eq_refl) Hn)
    as (_ & Hy & Hm & Hd & _).
  assert (He : Z.min (day (selected_date (self w)))
                 (days_in_month
                    (year (selected_date (self (exec (change_month 1) w))))
                    (month (selected_date (self (exec (change_month 1) w)))))
               = 28) by (vm_compute; reflexivity).
  rewrite He in Hd. cbn zeta in Hy, Hm, Hd. change (- (1)) with (-1) in *.
  destruct (selected_date (self (exec (change_month (-1))
                                   (exec (change_month 1) w))))
    as [y2 m2 d2].
  cbn [year month day] in Hy, Hm, Hd. rewrite Hy, Hm, Hd. reflexivity.
Defined.

Lemma chunks_of_seven q : forall (l : list Z),
  length l = (7 * q)%nat ->
  let weeks := map (fun k => take 7 (drop (7 * k) l)) (seq 0 q) in
  concat weeks = l /\ Forall (fun week => length week = 7%nat) weeks.
Proof.
  induction q as [|q IH]; intros l Hl; cbn zeta.
  - destruct l; [|discriminate]. cbn. split; constructor.
  - cbn [seq map]. rewrite <- seq_shift, map_map.
    destruct (IH (drop 7 l)) as [Hc Hf]; [rewrite length_drop; lia|].
    rewrite (map_ext (fun k => take 7 (drop (7 * S k) l))
               (fun k => take 7 (drop (7 * k) (drop 7 l)))).
    2:{ intros k. rewrite drop_drop. do 2 f_equal. lia. }
    split.
    + cbn [concat]. rewrite Hc. change (7 * 0)%nat with 0%nat.
      rewrite drop_0. apply take_drop.
    + constructor; [|exact Hf]. change (7 * 0)%nat with 0%nat.
      rewrite drop_0, length_take. lia.
Qed.

Lemma monthcalendar_shape y m g :
  1 <= m <= 12 -> monthcalendar y m = Some g ->
  Forall (fun week => length week = 7%nat) g /\
  List.filter (fun c => negb (c =? 0)) (concat g) =
    map Z.of_nat (seq 1 (Z.to_nat (days_in_month y m))).
Proof.
  intros Hm. destruct (monthrange_some y m Hm) as (day1 & Hmr & Hd1).
  unfold monthcalendar, itermonthdays. rewrite Hmr. cbn [option_map].
  set (n := days_in_month y m).
  pose proof (days_in_month_bounds y m Hm) as Hn. fold n in Hn.
  set (days := (_ ++ _ ++ _)%list).
  intros Hg.
  assert (Hg' : g = map (fun k => take 7 (drop (7 * k) days))
                      (seq 0 ((length days + 6) / 7))) by congruence.
  clear Hg. subst g.
  assert (Hlen : exists q, length days = (7 * q)%nat).
  { exists (Z.to_nat ((day1 + n + (0 - day1 - n) mod 7) / 7)).
    unfold days. rewrite !length_app, !length_replicate, length_map, length_seq.
    rewrite Z.sub_0_r, (Z.mod_small day1 7) by lia.
    pose proof (Z.mod_pos_bound (0 - day1 - n) 7 ltac:(lia)).
    assert ((day1 + n + (0 - day1 - n) mod 7) mod 7 = 0).
    { rewrite Z.add_mod_idemp_r by lia.
      replace (day1 + n + (0 - day1 - n)) with 0 by lia. reflexivity. }
    pose proof (Z.div_mod (day1 + n + (0 - day1 - n) mod 7) 7 ltac:(lia)).
    pose proof (Z.div_pos (day1 + n + (0 - day1 - n) mod 7) 7).
    lia. }
  destruct Hlen as [q Hq].
  replace ((length days + 6) / 7)%nat with q.
  2:{ rewrite Hq. apply (Nat.div_unique _ 7 q 6); lia. }
  destruct (chunks_of_seven q days Hq) as [Hc Hf].
  split; [exact Hf|]. rewrite Hc. unfold days.
  rewrite !List.filter_app.
  assert (Hz : forall k, List.filter (fun c => negb (c =? 0)) (replicate k 0)
                         = []).
  { induction k; cbn; auto. }
  rewrite !Hz, app_nil_r. cbn [app].
  apply List.forallb_filter_id, forallb_forall.
  intros c Hc'. apply in_map_iff in Hc' as (k & <- & Hk).
  apply in_seq in Hk. apply negb_true_iff, Z.eqb_neq. lia.
Qed.

(** X17.  Every button of the grid can be pressed.  Once the grid shows
    the month of the date held, its weeks have seven cells each, its
    buttons are the days 1 to the last of that month in order, and
    [on_day_pressed] for a day with a button returns normally with that
    day selected and the same grid on screen; it never raises. *)
Theorem shown_days_can_be_pressed (w : world t) (g : list (list Z)) :
  valid (selected_date (self w)) = true ->
  let y := year (selected_date (self w)) in
  let m := month (selected_date (self w)) in
  monthcalendar y m = Some g ->
  calendar_grid (self w) = g ->
  Forall (fun week => length week = 7%nat) g /\
  List.filter (fun c => negb (c =? 0)) (concat g) =
    map Z.of_nat (seq 1 (Z.to_nat (days_in_month y m))) /\
  forall day, In day (concat g) -> day <> 0 ->
    valid (Date y m day) = true /\
    on_day_pressed day w =
      (Ok tt, World (db w) (set_selected_date (Date y m day) (self w))
                (popups w)).
Proof.
  intros Hv. cbn zeta. intros Hg Hgrid.
  pose proof (proj1 (valid_fields _) Hv) as (Hy & Hm & Hd).
  destruct (monthcalendar_shape _ _ g Hm Hg) as [Hweeks Hdays].
  split; [exact Hweeks|]. split; [exact Hdays|].
  intros day Hin Hnz.
  assert (Hday : In day (List.filter (fun c => negb (c =? 0)) (concat g))).
  { apply filter_In. split; [exact Hin|].
    now apply negb_true_iff, Z.eqb_neq. }
  rewrite Hdays in Hday. apply in_map_iff in Hday as (k & <- & Hk).
  apply in_seq in Hk.
  pose proof (days_in_month_bounds (year (selected_date (self w))) _ Hm).
  assert (Hv' : valid (Date (year (selected_date (self w)))
                         (month (selected_date (self w))) (Z.of_nat k)) = true)
    by (apply valid_fields; cbn; lia).
  split; [exact Hv'|].
  unfold on_day_pressed, mbind, M_bind, get_self.
  rewrite (new_valid _ _ _ Hv'). cbn [of_option mret M_ret set_self].
  match goal with |- context [render_calendar ?w1] =>
    destruct (render_calendar_run w1) as (g' & Hg' & ->)
  end; [cbn; lia|].
  cbn in Hg'. rewrite Hg in Hg'. injection Hg' as <-.
  cbn. rewrite <- Hgrid. destruct (self w). reflexivity.
Qed.

Lemma shown_days_can_be_pressed_witness :
  let w := calendar_on (Date 2024 2 10) in
  valid (selected_date (self w)) = true /\
  In 29 (concat (calendar_grid (self w))) /\
  selected_date (self (exec (on_day_pressed 29) w)) = Date 2024 2 29.
Proof.
  intros w.
  assert (Hv : valid (selected_date (self w)) = true) by reflexivity.
  assert (Hg : monthcalendar (year (selected_date (self w)))
                 (month (selected_date (self w))) =
               Some (calendar_grid (self w))) by (vm_compute; reflexivity).
  assert (Hin : In 29 (concat (calendar_grid (self w)))).
  { assert (H : existsb (Z.eqb 29) (concat (calendar_grid (self w))) = true)
      by (vm_compute; reflexivity).
    apply existsb_exists in H as (x & Hx & ->%Z.eqb_eq). exact Hx. }
  split; [exact Hv | split; [exact Hin|]].
  destruct (shown_days_can_be_pressed w _ Hv Hg eq_refl) as (_ & _ & Hpress).
  destruct (Hpress 29 Hin ltac:(discriminate)) as [_ Hrun].
  unfold exec. rewrite Hrun. reflexivity.
Defined.

Lemma digit_cases n :
  (n mod 10 = 0 /\ digit n = "0"%char) \/ (n mod 10 = 1 /\ digit n = "1"%char) \/
  (n mod 10 = 2 /\ digit n = "2"%char) \/ (n mod 10 = 3 /\ digit n = "3"%char) \/
  (n mod 10 = 4 /\ digit n = "4"%char) \/ (n mod 10 = 5 /\ digit n = "5"%char) \/
  (n mod 10 = 6 /\ digit n = "6"%char) \/ (n mod 10 = 7 /\ digit n = "7"%char) \/
  (n mod 10 = 8 /\ digit n = "8"%char) \/ (n mod 10 = 9 /\ digit n = "9"%char).
Proof.
  unfold digit. pose proof (Z.mod_pos_bound n 10 ltac:(lia)) as H.
  assert (Hc : n mod 10 = 0 \/ n mod 10 = 1 \/ n mod 10 = 2 \/ n mod 10 = 3 \/
               n mod 10 = 4 \/ n mod 10 = 5 \/ n mod 10 = 6 \/ n mod 10 = 7 \/
               n mod 10 = 8 \/ n mod 10 = 9) by lia.
  repeat destruct Hc as [Hc|Hc]; rewrite Hc; tauto.
Qed.

Lemma digit_date_char n : date_char (digit n) = true.
Proof.
  pose proof (digit_cases n) as H.
  repeat destruct H as [H|H]; destruct H as [_ ->]; reflexivity.
Qed.

Lemma digit_inj a b : digit a = digit b -> a mod 10 = b mod 10.
Proof.
  intros H. pose proof (digit_cases a) as Ha. pose proof (digit_cases b) as Hb.
  repeat destruct Ha as [Ha|Ha]; destruct Ha as [Ha Ea];
    repeat destruct Hb as [Hb|Hb]; destruct Hb as [Hb Eb];
    rewrite Ea, Eb in H; try discriminate H; congruence.
Qed.

Lemma four_digits a b :
  0 <= a < 10000 -> 0 <= b < 10000 ->
  (a / 1000) mod 10 = (b / 1000) mod 10 ->
  (a / 100) mod 10 = (b / 100) mod 10 ->
  (a / 10) mod 10 = (b / 10) mod 10 ->
  a mod 10 = b mod 10 -> a = b.
Proof. intros. Z.div_mod_to_equations. lia. Qed.

Lemma two_digits a b :
  0 <= a < 100 -> 0 <= b < 100 ->
  (a / 10) mod 10 = (b / 10) mod 10 -> a mod 10 = b mod 10 -> a = b.
Proof. intros. Z.div_mod_to_equations. lia. Qed.

(** X18.  [choose_date] closes the popup and hands over the date held as
    ten characters, digits and hyphens only (for the years 1000 to 9999,
    where [%Y] has four digits).  That text is a prefix of a
    [yyyy-mm-dd ...] time stamp exactly when the stamp is of the same
    day: the day view it opens can mix up no two days. *)
Theorem chosen_date_names_one_day (w : world t) :
  valid (selected_date (self w)) = true ->
  1000 <= year (selected_date (self w)) ->
  let sel := strftime_ymd (selected_date (self w)) in
  choose_date w = (Ok sel, World (db w) (set_open false (self w)) (popups w)) /\
  String.length sel = 10%nat /\
  date_text sel = true /\
  forall d' rest,
    valid d' = true -> 1000 <= year d' ->
    (String.prefix sel (strftime_ymd d' ++ rest) = true <->
     d' = selected_date (self w)).
Proof.
  intros Hv Hy. cbn zeta.
  split; [reflexivity|]. split; [reflexivity|]. split.
  - unfold strftime_ymd. cbn [date_text]. rewrite !digit_date_char.
    reflexivity.
  - intros d' rest Hv' Hy'. split.
    + apply valid_fields in Hv, Hv'.
      destruct Hv as (Hy1 & Hm1 & Hd1), Hv' as (Hy2 & Hm2 & Hd2).
      pose proof (days_in_month_bounds (year d') (month d') Hm2).
      pose proof (days_in_month_bounds (year (selected_date (self w)))
                    (month (selected_date (self w))) Hm1).
      unfold strftime_ymd. cbn [String.append String.prefix].
      repeat match goal with
        | |- context [ascii_dec ?a ?b] =>
            destruct (ascii_dec a b) as [?%digit_inj|?]; [|discriminate]
        | |- context [ascii_dec "-" "-"] =>
            destruct (ascii_dec "-" "-"); [|discriminate]
        end.
      intros _.
      destruct d' as [y2 m2 d2], (selected_date (self w)) as [y1 m1 d1].
      cbn [year month day] in *.
      f_equal; [apply four_digits | apply two_digits | apply two_digits];
        auto; lia.
    + intros ->. unfold strftime_ymd. cbn [String.append String.prefix].
      repeat match goal with
        | |- context [ascii_dec ?a ?b] =>
            destruct (ascii_dec a b); [|congruence]
        end.
      now destruct rest.
Qed.

Lemma chosen_date_names_one_day_witness :
  let w := calendar_on (Date 2024 3 7) in
  valid (selected_date (self w)) = true /\
  1000 <= year (selected_date (self w)) /\
  fst (choose_date w) = Ok "2024-03-07" /\
  is_open (self (exec choose_date w)) = false.
Proof.
  intros w.
  assert (Hv : valid (selected_date (self w)) = true) by reflexivity.
  assert (Hy : 1000 <= year (selected_date (self w)))
    by (vm_compute; discriminate).
  split; [exact Hv | split; [exact Hy|]].
  destruct (chosen_date_names_one_day w Hv Hy) as (Hrun & _).
  unfold exec. rewrite Hrun. split; reflexivity.
Defined.

End Calendar.
